(** * Intel Processor Trace driver (insntrace): ToPA construction, capture
      walk, control-bit validation and the ioctl lifecycle.

    Shallow embedding of system/dev/.../insntrace (the second translation
    unit of crosshatch-devices.c).  C integers are [Z] with the wrap-around
    of their width written out; arrays are lists read with [!!] and written
    with [<[ _ := _ ]>]; pointers that may be NULL are [option]; calls that
    leave the driver (allocator, mtrace syscall, handle syscalls) are
    answered by an explicit [world] that every operation threads through. *)

From Stdlib Require Import ZArith Lia Bool List.
From stdpp Require Import base list.

Local Open Scope Z_scope.

(** ** Fixed-width arithmetic *)

Definition u32 (x : Z) : Z := x mod 2 ^ 32.
Definition u64 (x : Z) : Z := x mod 2 ^ 64.

(** ** Constants defined in this translation unit *)

Definition MAX_PER_TRACE_SPACE : Z := 256 * 1024 * 1024.
Definition MAX_NUM_CHUNKS : Z := 4096.
Definition MAX_CHUNK_ORDER : Z := 8.
Definition PAGE_SIZE : Z := 4096.
Definition PAGE_SIZE_SHIFT : Z := 12.

(** ** The header lib/zircon-internal/device/cpu-trace/intel-pt.h

    The header is not part of the sources at hand: its macros are taken as
    parameters.  Function-like macros are functions on [Z]. *)

Class intel_pt_h : Type := {
  IPT_TOPA_MAX_TABLE_ENTRIES : Z;
  IPT_TOPA_MIN_SHIFT : Z;
  IPT_TOPA_MAX_SHIFT : Z;
  IPT_TOPA_ENTRY_PHYS_ADDR : Z -> Z;
  IPT_TOPA_ENTRY_SIZE : Z -> Z;
  IPT_TOPA_ENTRY_EXTRACT_SIZE : Z -> Z;
  IPT_TOPA_ENTRY_END : Z;
  IPT_TOPA_ENTRY_STOP : Z;
  IPT_CTL_OS_ALLOWED_MASK : Z;
  IPT_CTL_USER_ALLOWED_MASK : Z;
  IPT_CTL_TSC_EN_MASK : Z;
  IPT_CTL_DIS_RETC_MASK : Z;
  IPT_CTL_BRANCH_EN_MASK : Z;
  IPT_CTL_PTW_EN_MASK : Z;
  IPT_CTL_FUP_ON_PTW_MASK : Z;
  IPT_CTL_CR3_FILTER_MASK : Z;
  IPT_CTL_MTC_EN_MASK : Z;
  IPT_CTL_MTC_FREQ_MASK : Z;
  IPT_CTL_MTC_FREQ_SHIFT : Z;
  IPT_CTL_POWER_EVENT_EN_MASK : Z;
  IPT_CTL_ADDR0_MASK : Z;
  IPT_CTL_ADDR1_MASK : Z;
  IPT_CTL_ADDR2_MASK : Z;
  IPT_CTL_ADDR3_MASK : Z;
  IPT_CTL_CYC_EN_MASK : Z;
  IPT_CTL_PSB_FREQ_MASK : Z;
  IPT_CTL_PSB_FREQ_SHIFT : Z;
  IPT_CTL_CYC_THRESH_MASK : Z;
  IPT_CTL_CYC_THRESH_SHIFT : Z;
  IPT_CTL_TOPA_MASK : Z;
  IPT_CTL_TRACE_EN_MASK : Z;
  IPT_STATUS_ERROR_MASK : Z;
  IPT_MAX_NUM_TRACES : Z;
  IPT_MAX_NUM_ADDR_RANGES : Z;
  IPT_MODE_CPUS : Z;
  IPT_MODE_THREADS : Z;
  (* sizeof of the ioctl payload structures the header declares *)
  sizeof_trace_config : Z;
  sizeof_buffer_config : Z;
  sizeof_descriptor : Z;
  sizeof_buffer_info : Z;
  sizeof_chunk_handle_req : Z;
  sizeof_assign_thread_buffer : Z;
  sizeof_handle : Z
}.

(** ** Status codes (zircon/errors.h) *)

Inductive zx_status_t : Set :=
| ZX_OK
| ZX_ERR_INTERNAL
| ZX_ERR_NOT_SUPPORTED
| ZX_ERR_NO_RESOURCES
| ZX_ERR_NO_MEMORY
| ZX_ERR_INVALID_ARGS
| ZX_ERR_BAD_STATE
| ZX_ERR_BUFFER_TOO_SMALL
| ZX_ERR_ALREADY_BOUND
| ZX_ERR_ACCESS_DENIED
| ZX_ERR_BAD_HANDLE.

Definition is_ok (s : zx_status_t) : bool :=
  match s with ZX_OK => true | _ => false end.

(** ** Data model *)

Inductive ipt_trace_mode_t : Set := IPT_TRACE_CPUS | IPT_TRACE_THREADS.

(** [io_buffer_t]: the physical address, the VMO handle and the mapped
    memory, read as 64-bit words. *)
Record io_buffer_t : Type := mk_io_buffer {
  io_phys : Z;
  vmo_handle : Z;
  io_virt : list Z
}.

(** An element of a calloc'ed array of [io_buffer_t]. *)
Definition io_buffer_zero : io_buffer_t :=
  {| io_phys := 0; vmo_handle := 0; io_virt := [] |}.

Record ipt_per_trace_state_t : Type := mk_per_trace {
  owner : Z;                 (* union { cpu; thread }: one 32-bit cell *)
  num_chunks : Z;
  chunk_order : Z;
  is_circular : bool;
  allocated : bool;
  assigned : bool;
  num_tables : Z;
  ctl : Z;
  status : Z;
  output_base : Z;
  output_mask_ptrs : Z;
  cr3_match : Z;
  addr_ranges : list (Z * Z);
  chunks : option (list io_buffer_t);   (* None is NULL *)
  topas : option (list io_buffer_t)
}.

Record insntrace_device_t : Type := mk_device {
  opened : bool;
  mode : ipt_trace_mode_t;
  num_traces : Z;
  per_trace_state : option (list ipt_per_trace_state_t);
  active : bool;
  bti : Z
}.

(** The file-level [ipt_config_*] variables, written once by
    [insntrace_init_once] and read-only afterwards. *)
Record ipt_config_t : Type := mk_ipt_config {
  ipt_config_family : Z;
  ipt_config_model : Z;
  ipt_config_stepping : Z;
  ipt_config_addr_cfg_max : Z;
  ipt_config_mtc_freq_mask : Z;
  ipt_config_cyc_thresh_mask : Z;
  ipt_config_psb_freq_mask : Z;
  ipt_config_num_addr_ranges : Z;
  ipt_config_bus_freq : Z;
  ipt_config_supported : bool;
  ipt_config_cr3_filtering : bool;
  ipt_config_psb : bool;
  ipt_config_ip_filtering : bool;
  ipt_config_mtc : bool;
  ipt_config_ptwrite : bool;
  ipt_config_power_events : bool;
  ipt_config_output_topa : bool;
  ipt_config_output_topa_multi : bool;
  ipt_config_output_single : bool;
  ipt_config_output_transport : bool;
  ipt_config_lip : bool
}.

(** ioctl payloads *)
Record ioctl_insntrace_trace_config_t : Type := mk_trace_config {
  tc_mode : Z;
  tc_num_traces : Z
}.

Record ioctl_insntrace_buffer_config_t : Type := mk_buffer_config {
  bc_num_chunks : Z;
  bc_chunk_order : Z;
  bc_is_circular : bool;
  bc_ctl : Z;
  bc_cr3_match : Z;
  bc_addr_ranges : list (Z * Z)
}.

Record zx_x86_pt_regs_t : Type := mk_regs {
  r_ctl : Z;
  r_status : Z;
  r_output_base : Z;
  r_output_mask_ptrs : Z;
  r_cr3_match : Z;
  r_addr_ranges : list (Z * Z)
}.

(** ** The world outside the driver

    Each external call is answered by the next element of a stream; a
    stream is a function from the position to the answer.  A call that
    gives a resource back, and whose result the driver does not look at,
    is recorded in [w_released], the latest first. *)
Inductive released_t : Type :=
| BufferReleased (vmo : Z)     (* io_buffer_release of the buffer with this VMO *)
| ArrayFreed                   (* free of a calloc'ed array *)
| HandleClosed (h : Z).        (* zx_handle_close *)

Record world : Type := mk_world {
  w_calloc : nat -> bool;                       (* true: a non-NULL block *)
  w_io : nat -> zx_status_t * (Z * Z);          (* io_buffer_init*: status, phys, vmo *)
  w_mtrace : nat -> zx_status_t * zx_x86_pt_regs_t;  (* zx_mtrace_control *)
  w_handle : nat -> zx_status_t * Z;            (* zx_object_get_info, zx_handle_duplicate *)
  w_num_cpus : Z;                               (* zx_system_get_num_cpus *)
  w_uninit : Z;                                 (* contents of an uninitialised u32 local *)
  w_released : list released_t                  (* io_buffer_release, free, zx_handle_close *)
}.

Definition tl_stream {A} (s : nat -> A) : nat -> A := fun n => s (S n).

Definition calloc (w : world) : bool * world :=
  (w_calloc w O,
   mk_world (tl_stream (w_calloc w)) (w_io w) (w_mtrace w) (w_handle w)
            (w_num_cpus w) (w_uninit w) (w_released w)).

(** [io_buffer_init] and [io_buffer_init_aligned]: a fresh VMO of [size]
    bytes, which reads as zeros; the allocator chooses the address. *)
Definition io_buffer_init (w : world) (size : Z) : zx_status_t * io_buffer_t * world :=
  let '(st, (pa, h)) := w_io w O in
  let w' := mk_world (w_calloc w) (tl_stream (w_io w)) (w_mtrace w) (w_handle w)
                     (w_num_cpus w) (w_uninit w) (w_released w) in
  (st, {| io_phys := pa; vmo_handle := h;
          io_virt := replicate (Z.to_nat (size / 8)) 0 |}, w').

Definition io_buffer_init_aligned (w : world) (size alignment_log2 : Z)
  : zx_status_t * io_buffer_t * world :=
  io_buffer_init w size.

Definition zx_mtrace_control (w : world) : zx_status_t * zx_x86_pt_regs_t * world :=
  let '(st, regs) := w_mtrace w O in
  (st, regs,
   mk_world (w_calloc w) (w_io w) (tl_stream (w_mtrace w)) (w_handle w)
            (w_num_cpus w) (w_uninit w) (w_released w)).

Definition zx_handle_call (w : world) : zx_status_t * Z * world :=
  let '(st, v) := w_handle w O in
  (st, v,
   mk_world (w_calloc w) (w_io w) (w_mtrace w) (tl_stream (w_handle w))
            (w_num_cpus w) (w_uninit w) (w_released w)).

(** The calls that give a resource back. *)
Definition released (e : released_t) (w : world) : world :=
  mk_world (w_calloc w) (w_io w) (w_mtrace w) (w_handle w)
           (w_num_cpus w) (w_uninit w) (e :: w_released w).

Definition io_buffer_release (w : world) (b : io_buffer_t) : world :=
  released (BufferReleased (vmo_handle b)) w.

(** free(NULL) does nothing. *)
Definition free {A : Type} (w : world) (p : option A) : world :=
  match p with
  | Some _ => released ArrayFreed w
  | None => w
  end.

(** The status of zx_handle_close is not looked at. *)
Definition zx_handle_close (w : world) (h : Z) : world :=
  released (HandleClosed h) w.

(** ** Loops

    [for (uint32_t i = lo; i < hi; ++i) body], where the body may return
    from the enclosing function. *)
Inductive loop_step (R S : Type) : Type :=
| Return (r : R)
| Continue (s : S).
Arguments Return {R S} r.
Arguments Continue {R S} s.

Fixpoint for_loop {R S : Type} (fuel : nat) (i : Z)
    (body : Z -> S -> loop_step R S) (s : S) : loop_step R S :=
  match fuel with
  | O => Continue s
  | S k =>
      match body i s with
      | Return r => Return r
      | Continue s' => for_loop k (i + 1) body s'
      end
  end.

Definition for_u32 {R S : Type} (lo hi : Z)
    (body : Z -> S -> loop_step R S) (s : S) : loop_step R S :=
  for_loop (Z.to_nat (hi - lo)) lo body s.

(** ** Field updates of a per-trace slot *)

Definition set_owner (v : Z) (p : ipt_per_trace_state_t) :=
  mk_per_trace v (num_chunks p) (chunk_order p) (is_circular p) (allocated p)
    (assigned p) (num_tables p) (ctl p) (status p) (output_base p)
    (output_mask_ptrs p) (cr3_match p) (addr_ranges p) (chunks p) (topas p).
Definition set_num_chunks (v : Z) (p : ipt_per_trace_state_t) :=
  mk_per_trace (owner p) v (chunk_order p) (is_circular p) (allocated p)
    (assigned p) (num_tables p) (ctl p) (status p) (output_base p)
    (output_mask_ptrs p) (cr3_match p) (addr_ranges p) (chunks p) (topas p).
Definition set_chunk_order (v : Z) (p : ipt_per_trace_state_t) :=
  mk_per_trace (owner p) (num_chunks p) v (is_circular p) (allocated p)
    (assigned p) (num_tables p) (ctl p) (status p) (output_base p)
    (output_mask_ptrs p) (cr3_match p) (addr_ranges p) (chunks p) (topas p).
Definition set_is_circular (v : bool) (p : ipt_per_trace_state_t) :=
  mk_per_trace (owner p) (num_chunks p) (chunk_order p) v (allocated p)
    (assigned p) (num_tables p) (ctl p) (status p) (output_base p)
    (output_mask_ptrs p) (cr3_match p) (addr_ranges p) (chunks p) (topas p).
Definition set_allocated (v : bool) (p : ipt_per_trace_state_t) :=
  mk_per_trace (owner p) (num_chunks p) (chunk_order p) (is_circular p) v
    (assigned p) (num_tables p) (ctl p) (status p) (output_base p)
    (output_mask_ptrs p) (cr3_match p) (addr_ranges p) (chunks p) (topas p).
Definition set_assigned (v : bool) (p : ipt_per_trace_state_t) :=
  mk_per_trace (owner p) (num_chunks p) (chunk_order p) (is_circular p)
    (allocated p) v (num_tables p) (ctl p) (status p) (output_base p)
    (output_mask_ptrs p) (cr3_match p) (addr_ranges p) (chunks p) (topas p).
Definition set_num_tables (v : Z) (p : ipt_per_trace_state_t) :=
  mk_per_trace (owner p) (num_chunks p) (chunk_order p) (is_circular p)
    (allocated p) (assigned p) v (ctl p) (status p) (output_base p)
    (output_mask_ptrs p) (cr3_match p) (addr_ranges p) (chunks p) (topas p).
Definition set_chunks (v : option (list io_buffer_t)) (p : ipt_per_trace_state_t) :=
  mk_per_trace (owner p) (num_chunks p) (chunk_order p) (is_circular p)
    (allocated p) (assigned p) (num_tables p) (ctl p) (status p) (output_base p)
    (output_mask_ptrs p) (cr3_match p) (addr_ranges p) v (topas p).
Definition set_topas (v : option (list io_buffer_t)) (p : ipt_per_trace_state_t) :=
  mk_per_trace (owner p) (num_chunks p) (chunk_order p) (is_circular p)
    (allocated p) (assigned p) (num_tables p) (ctl p) (status p) (output_base p)
    (output_mask_ptrs p) (cr3_match p) (addr_ranges p) (chunks p) v.
(** The six saved registers are always written together. *)
Definition set_regs (r : zx_x86_pt_regs_t) (p : ipt_per_trace_state_t) :=
  mk_per_trace (owner p) (num_chunks p) (chunk_order p) (is_circular p)
    (allocated p) (assigned p) (num_tables p) (r_ctl r) (r_status r)
    (r_output_base r) (r_output_mask_ptrs r) (r_cr3_match r) (r_addr_ranges r)
    (chunks p) (topas p).

Definition set_mode (v : ipt_trace_mode_t) (d : insntrace_device_t) :=
  mk_device (opened d) v (num_traces d) (per_trace_state d) (active d) (bti d).
Definition set_num_traces (v : Z) (d : insntrace_device_t) :=
  mk_device (opened d) (mode d) v (per_trace_state d) (active d) (bti d).
Definition set_per_trace_state (v : option (list ipt_per_trace_state_t))
    (d : insntrace_device_t) :=
  mk_device (opened d) (mode d) (num_traces d) v (active d) (bti d).
Definition set_active (v : bool) (d : insntrace_device_t) :=
  mk_device (opened d) (mode d) (num_traces d) (per_trace_state d) v (bti d).

(** ** Array access

    [a[i]] on an array the code has already checked to be non-NULL and
    indexed in range; the defaults are never reached from the ioctl
    entry point on a well-formed device. *)

Definition buf_at (a : option (list io_buffer_t)) (i : Z) : io_buffer_t :=
  match a with
  | Some l => default io_buffer_zero (l !! Z.to_nat i)
  | None => io_buffer_zero
  end.

Definition buf_store (a : option (list io_buffer_t)) (i : Z) (b : io_buffer_t)
  : option (list io_buffer_t) :=
  match a with
  | Some l => Some (<[Z.to_nat i := b]> l)
  | None => None
  end.

(** [io_buffer_virt(&a[t])[idx]] read and written as a 64-bit word. *)
Definition table_read (a : option (list io_buffer_t)) (t idx : Z) : Z :=
  default 0 (io_virt (buf_at a t) !! Z.to_nat idx).

Definition table_write (a : option (list io_buffer_t)) (t idx v : Z)
  : option (list io_buffer_t) :=
  let b := buf_at a t in
  buf_store a t
    (mk_io_buffer (io_phys b) (vmo_handle b) (<[Z.to_nat idx := v]> (io_virt b))).

Section Driver.
Context {hdr : intel_pt_h}.
Variable caps : ipt_config_t.

(** memset(per_trace, 0, sizeof( *per_trace)) *)
Definition per_trace_zero : ipt_per_trace_state_t :=
  {| owner := 0; num_chunks := 0; chunk_order := 0; is_circular := false;
     allocated := false; assigned := false; num_tables := 0;
     ctl := 0; status := 0; output_base := 0; output_mask_ptrs := 0;
     cr3_match := 0;
     addr_ranges := replicate (Z.to_nat IPT_MAX_NUM_ADDR_RANGES) (0, 0);
     chunks := None; topas := None |}.

(** ** make_topa

    The asserts of the C function (the chunk size within the ToPA entry
    sizes, the cursor at the end of the first loop, last_entry not NULL)
    are not part of the value computed. *)

(** The data entry of chunk [i]. *)
Definition topa_data_entry (per_trace : ipt_per_trace_state_t) (i : Z) : Z :=
  let run_len_log2 := chunk_order per_trace in
  let pa := io_phys (buf_at (chunks per_trace) i) in
  Z.lor (IPT_TOPA_ENTRY_PHYS_ADDR pa)
        (IPT_TOPA_ENTRY_SIZE (run_len_log2 + PAGE_SIZE_SHIFT)).

(** State of the first loop: the tables, curr_table, curr_idx and
    last_entry (the table and slot it points into, None for NULL). *)
Record topa_cursor : Type := mk_cursor {
  tc_topas : option (list io_buffer_t);
  curr_table : Z;
  curr_idx : Z;
  last_entry : option (Z * Z)
}.

Definition make_topa_data_step (per_trace : ipt_per_trace_state_t)
    (i : Z) (c : topa_cursor) : loop_step unit topa_cursor :=
  let val := topa_data_entry per_trace i in
  let tabs := table_write (tc_topas c) (curr_table c) (curr_idx c) val in
  let last := Some (curr_table c, curr_idx c) in
  (* Make sure we leave one at the end of the table for the END marker. *)
  if u32 (IPT_TOPA_MAX_TABLE_ENTRIES - 2) <=? curr_idx c
  then Continue (mk_cursor tabs (u32 (curr_table c + 1)) 0 last)
  else Continue (mk_cursor tabs (curr_table c) (u32 (curr_idx c + 1)) last).

(** Populate END entries for completed tables. *)
Definition make_topa_end_step (per_trace : ipt_per_trace_state_t)
    (i : Z) (tabs : option (list io_buffer_t))
  : loop_step unit (option (list io_buffer_t)) :=
  let next_table :=
    if i =? u32 (num_tables per_trace - 1)
    then buf_at tabs 0
    else buf_at tabs (i + 1) in
  let next_table_pa := io_phys next_table in
  let val := Z.lor (IPT_TOPA_ENTRY_PHYS_ADDR next_table_pa) IPT_TOPA_ENTRY_END in
  Continue (table_write tabs i (u32 (IPT_TOPA_MAX_TABLE_ENTRIES - 1)) val).

Definition loop_result {S : Type} (d : S) (r : loop_step unit S) : S :=
  match r with Continue s => s | Return _ => d end.

Definition make_topa (per_trace : ipt_per_trace_state_t) : ipt_per_trace_state_t :=
  let c0 := mk_cursor (topas per_trace) 0 0 None in
  let c := loop_result c0
             (for_u32 0 (num_chunks per_trace) (make_topa_data_step per_trace) c0) in
  let tabs := loop_result (tc_topas c)
                (for_u32 0 (curr_table c) (make_topa_end_step per_trace) (tc_topas c)) in
  (* Populate the END entry for a possibly non-full last table *)
  let tabs :=
    if curr_table c <? num_tables per_trace then
      let first_table_pa := io_phys (buf_at tabs 0) in
      let val := Z.lor (IPT_TOPA_ENTRY_PHYS_ADDR first_table_pa) IPT_TOPA_ENTRY_END in
      table_write tabs (curr_table c) (curr_idx c) val
    else tabs in
  (* Add the STOP flag to the last non-END entry in the tables *)
  let tabs :=
    if negb (is_circular per_trace) then
      match last_entry c with
      | Some (t, idx) =>
          table_write tabs t idx (Z.lor (table_read tabs t idx) IPT_TOPA_ENTRY_STOP)
      | None => tabs
      end
    else tabs in
  set_topas tabs per_trace.

(** ** compute_topa_entry_count *)

Definition compute_topa_entry_count (per_trace : ipt_per_trace_state_t) : Z :=
  let num_entries := num_chunks per_trace in
  let num_end_entries :=
    u32 (num_entries + IPT_TOPA_MAX_TABLE_ENTRIES - 2) /
    u32 (IPT_TOPA_MAX_TABLE_ENTRIES - 1) in
  let result := u32 (num_entries + num_end_entries) in
  result.

(** ** compute_capture_size *)

(** The inner loop, over the entries of one table. *)
Definition capture_walk_table (per_trace : ipt_per_trace_state_t) (table : Z)
    (total_size : Z) : loop_step Z Z :=
  let curr_table_paddr := output_base per_trace in
  let curr_table_entry_idx := Z.shiftr (u32 (output_mask_ptrs per_trace)) 7 in
  let curr_entry_offset := u32 (Z.shiftr (output_mask_ptrs per_trace) 32) in
  (* Get the physical address so that we can compare it with the value
     in output_base. *)
  let table_paddr := io_phys (buf_at (topas per_trace) table) in
  for_u32 0 (u32 (IPT_TOPA_MAX_TABLE_ENTRIES - 1))
    (fun entry total_size =>
       if (table_paddr =? curr_table_paddr) && (curr_table_entry_idx <=? entry)
       then Return (u64 (total_size + curr_entry_offset))
       else
         let topa_entry := table_read (topas per_trace) table entry in
         Continue
           (u64 (total_size +
                 u64 (Z.shiftl 1 (IPT_TOPA_ENTRY_EXTRACT_SIZE topa_entry)))))
    total_size.

Definition compute_capture_size (per_trace : ipt_per_trace_state_t) : Z :=
  match for_u32 0 (num_tables per_trace) (capture_walk_table per_trace) 0 with
  | Return total_size => total_size
  | Continue _ => 0       (* "unexpectedly exited capture loop" *)
  end.

(** ** x86_pt_alloc_buffer1 *)

Definition alloc_chunk_step (order chunk_pages : Z) (i : Z)
    (st : ipt_per_trace_state_t * world)
  : loop_step (zx_status_t * ipt_per_trace_state_t * world)
              (ipt_per_trace_state_t * world) :=
  let '(per_trace, w) := st in
  (* ToPA entries of size N must be aligned to N, too. *)
  let alignment_log2 := u32 (PAGE_SIZE_SHIFT + order) in
  let '(status, buf, w) :=
    io_buffer_init_aligned w (chunk_pages * PAGE_SIZE) alignment_log2 in
  if negb (is_ok status) then Return (status, per_trace, w) else
  let per_trace := set_chunks (buf_store (chunks per_trace) i buf) per_trace in
  let per_trace := set_num_chunks (u32 (num_chunks per_trace + 1)) per_trace in
  let pa := io_phys (buf_at (chunks per_trace) i) in
  let align_mask := u64 (Z.shiftl 1 alignment_log2 - 1) in
  if negb (Z.land pa align_mask =? 0)
  then Return (ZX_ERR_INTERNAL, per_trace, w)
  else Continue (per_trace, w).

Definition alloc_table_step (i : Z) (st : ipt_per_trace_state_t * world)
  : loop_step (zx_status_t * ipt_per_trace_state_t * world)
              (ipt_per_trace_state_t * world) :=
  let '(per_trace, w) := st in
  let '(status, buf, w) := io_buffer_init w (8 * IPT_TOPA_MAX_TABLE_ENTRIES) in
  if negb (is_ok status) then Return (ZX_ERR_NO_MEMORY, per_trace, w) else
  let per_trace := set_topas (buf_store (topas per_trace) i buf) per_trace in
  let per_trace := set_num_tables (u32 (num_tables per_trace + 1)) per_trace in
  Continue (per_trace, w).

Definition x86_pt_alloc_buffer1 (w : world) (per_trace : ipt_per_trace_state_t)
    (num order : Z) (circular : bool)
  : zx_status_t * ipt_per_trace_state_t * world :=
  let chunk_pages := Z.shiftl 1 order in
  let per_trace := per_trace_zero in
  let '(ok, w) := calloc w in
  if negb ok then (ZX_ERR_NO_MEMORY, per_trace, w) else
  let per_trace :=
    set_chunks (Some (replicate (Z.to_nat num) io_buffer_zero)) per_trace in
  match for_u32 0 num (alloc_chunk_step order chunk_pages) (per_trace, w) with
  | Return r => r
  | Continue (per_trace, w) =>
      let per_trace := set_chunk_order order per_trace in
      let per_trace := set_is_circular circular per_trace in
      (* TODO(dje): No need to allocate the max on the last table. *)
      let entry_count := compute_topa_entry_count per_trace in
      let table_count :=
        u32 (entry_count + IPT_TOPA_MAX_TABLE_ENTRIES - 1) /
        u32 IPT_TOPA_MAX_TABLE_ENTRIES in
      if entry_count <? 2 then (ZX_ERR_INVALID_ARGS, per_trace, w) else
      (* Some early Processor Trace implementations only supported having a
         table with a single real entry and an END. *)
      if negb (ipt_config_output_topa_multi caps) && (2 <? entry_count)
      then (ZX_ERR_NOT_SUPPORTED, per_trace, w) else
      let '(ok, w) := calloc w in
      if negb ok then (ZX_ERR_NO_MEMORY, per_trace, w) else
      let per_trace :=
        set_topas (Some (replicate (Z.to_nat table_count) io_buffer_zero))
                  per_trace in
      match for_u32 0 table_count alloc_table_step (per_trace, w) with
      | Return r => r
      | Continue (per_trace, w) => (ZX_OK, make_topa per_trace, w)
      end
  end.

(** ** x86_pt_free_buffer1 *)

(** [for (i = 0; i < n; ++i) io_buffer_release(&a[i]);] *)
Definition release_buffers (w : world) (a : option (list io_buffer_t)) (n : Z)
  : world :=
  loop_result w
    (for_u32 0 n (fun i w => Continue (io_buffer_release w (buf_at a i))) w).

Definition x86_pt_free_buffer1 (w : world) (per_trace : ipt_per_trace_state_t)
  : ipt_per_trace_state_t * world :=
  let w :=
    match chunks per_trace with
    | Some _ => release_buffers w (chunks per_trace) (num_chunks per_trace)
    | None => w
    end in
  let w := free w (chunks per_trace) in
  let per_trace := set_chunks None per_trace in
  let w :=
    match topas per_trace with
    | Some _ => release_buffers w (topas per_trace) (num_tables per_trace)
    | None => w
    end in
  let w := free w (topas per_trace) in
  let per_trace := set_topas None per_trace in
  let per_trace := set_allocated false per_trace in
  (per_trace, w).

(** ** Slots of the device *)

Definition slot_at (dev : insntrace_device_t) (i : Z) : ipt_per_trace_state_t :=
  match per_trace_state dev with
  | Some l => default per_trace_zero (l !! Z.to_nat i)
  | None => per_trace_zero
  end.

Definition slot_store (dev : insntrace_device_t) (i : Z)
    (p : ipt_per_trace_state_t) : insntrace_device_t :=
  match per_trace_state dev with
  | Some l => set_per_trace_state (Some (<[Z.to_nat i := p]> l)) dev
  | None => dev
  end.

(** [dev->per_trace_state] as a condition: non-NULL. *)
Definition has_traces (dev : insntrace_device_t) : bool :=
  match per_trace_state dev with Some _ => true | None => false end.

(** ** x86_pt_alloc_buffer *)

Definition settable_ctl_mask : Z :=
  let m :=
    Z.lor (Z.lor (Z.lor (Z.lor IPT_CTL_OS_ALLOWED_MASK IPT_CTL_USER_ALLOWED_MASK)
                        IPT_CTL_TSC_EN_MASK)
                 IPT_CTL_DIS_RETC_MASK)
          IPT_CTL_BRANCH_EN_MASK in
  let m := if ipt_config_ptwrite caps
           then Z.lor m (Z.lor IPT_CTL_PTW_EN_MASK IPT_CTL_FUP_ON_PTW_MASK) else m in
  let m := if ipt_config_cr3_filtering caps
           then Z.lor m IPT_CTL_CR3_FILTER_MASK else m in
  let m := if ipt_config_mtc caps
           then Z.lor m (Z.lor IPT_CTL_MTC_EN_MASK IPT_CTL_MTC_FREQ_MASK) else m in
  let m := if ipt_config_power_events caps
           then Z.lor m IPT_CTL_POWER_EVENT_EN_MASK else m in
  let m :=
    if ipt_config_ip_filtering caps then
      let m := if 1 <=? ipt_config_num_addr_ranges caps
               then Z.lor m IPT_CTL_ADDR0_MASK else m in
      let m := if 2 <=? ipt_config_num_addr_ranges caps
               then Z.lor m IPT_CTL_ADDR1_MASK else m in
      let m := if 3 <=? ipt_config_num_addr_ranges caps
               then Z.lor m IPT_CTL_ADDR2_MASK else m in
      let m := if 4 <=? ipt_config_num_addr_ranges caps
               then Z.lor m IPT_CTL_ADDR3_MASK else m in
      m
    else m in
  let m := if ipt_config_psb caps
           then Z.lor m (Z.lor (Z.lor IPT_CTL_CYC_EN_MASK IPT_CTL_PSB_FREQ_MASK)
                               IPT_CTL_CYC_THRESH_MASK)
           else m in
  m.

(** The value of a sub-field of ctl, as the uint32_t the code extracts. *)
Definition ctl_field (c mask shift : Z) : Z := u32 (Z.shiftr (Z.land c mask) shift).

(** [v != 0 && ((1 << v) & hw_mask) == 0] *)
Definition bad_field_value (v hw_mask : Z) : bool :=
  negb (v =? 0) && (Z.land (u32 (Z.shiftl 1 v)) hw_mask =? 0).

Definition find_unallocated (dev : insntrace_device_t) : Z :=
  match for_u32 0 (num_traces dev)
          (fun descriptor (_ : unit) =>
             if negb (allocated (slot_at dev descriptor))
             then Return descriptor else Continue tt) tt with
  | Return descriptor => descriptor
  | Continue _ => num_traces dev
  end.

(** The second half of x86_pt_alloc_buffer, from "Find an unallocated
    buffer entry" to the end. *)
Definition x86_pt_alloc_buffer_slot (w : world) (dev : insntrace_device_t)
    (config : ioctl_insntrace_buffer_config_t)
  : zx_status_t * Z * insntrace_device_t * world :=
  (* Find an unallocated buffer entry. *)
  let descriptor := find_unallocated dev in
  if descriptor =? num_traces dev then (ZX_ERR_NO_RESOURCES, 0, dev, w) else
  let '(status, per_trace, w) :=
    x86_pt_alloc_buffer1 w per_trace_zero (bc_num_chunks config)
      (bc_chunk_order config) (bc_is_circular config) in
  if negb (is_ok status)
  then
    let '(per_trace, w) := x86_pt_free_buffer1 w per_trace in
    (status, 0, slot_store dev descriptor per_trace, w)
  else
    let per_trace :=
      set_regs {| r_ctl := bc_ctl config; r_status := 0;
                  r_output_base := io_phys (buf_at (topas per_trace) 0);
                  r_output_mask_ptrs := 0;
                  r_cr3_match := bc_cr3_match config;
                  r_addr_ranges := bc_addr_ranges config |} per_trace in
    let per_trace := set_allocated true per_trace in
    (ZX_OK, descriptor, slot_store dev descriptor per_trace, w).

(** The range checks on the buffer geometry. *)
Definition buffer_range_rejected (config : ioctl_insntrace_buffer_config_t) : bool :=
  if (bc_num_chunks config =? 0) || (MAX_NUM_CHUNKS <? bc_num_chunks config)
  then true else
  if MAX_CHUNK_ORDER <? bc_chunk_order config then true else
  let chunk_pages := Z.shiftl 1 (bc_chunk_order config) in
  let nr_pages := u64 (bc_num_chunks config * chunk_pages) in
  let total_per_trace := u64 (nr_pages * PAGE_SIZE) in
  MAX_PER_TRACE_SPACE <? total_per_trace.

Definition x86_pt_alloc_buffer (w : world) (dev : insntrace_device_t)
    (config : ioctl_insntrace_buffer_config_t)
  : zx_status_t * Z * insntrace_device_t * world :=
  if buffer_range_rejected config then (ZX_ERR_INVALID_ARGS, 0, dev, w) else
  if negb (Z.land (bc_ctl config) (u64 (Z.lnot settable_ctl_mask)) =? 0)
  then (ZX_ERR_INVALID_ARGS, 0, dev, w) else
  let mtc_freq := ctl_field (bc_ctl config) IPT_CTL_MTC_FREQ_MASK IPT_CTL_MTC_FREQ_SHIFT in
  if bad_field_value mtc_freq (ipt_config_mtc_freq_mask caps)
  then (ZX_ERR_INVALID_ARGS, 0, dev, w) else
  let cyc_thresh :=
    ctl_field (bc_ctl config) IPT_CTL_CYC_THRESH_MASK IPT_CTL_CYC_THRESH_SHIFT in
  if bad_field_value cyc_thresh (ipt_config_cyc_thresh_mask caps)
  then (ZX_ERR_INVALID_ARGS, 0, dev, w) else
  let psb_freq := ctl_field (bc_ctl config) IPT_CTL_PSB_FREQ_MASK IPT_CTL_PSB_FREQ_SHIFT in
  if bad_field_value psb_freq (ipt_config_psb_freq_mask caps)
  then (ZX_ERR_INVALID_ARGS, 0, dev, w) else
  x86_pt_alloc_buffer_slot w dev config.

(** ** x86_pt_free_buffer *)

Definition x86_pt_free_buffer (w : world) (dev : insntrace_device_t)
    (descriptor : Z) : zx_status_t * insntrace_device_t * world :=
  if active dev then (ZX_ERR_BAD_STATE, dev, w) else
  if num_traces dev <=? descriptor then (ZX_ERR_INVALID_ARGS, dev, w) else
  let per_trace := slot_at dev descriptor in
  if negb (allocated per_trace) then (ZX_ERR_INVALID_ARGS, dev, w) else
  if assigned per_trace then (ZX_ERR_BAD_STATE, dev, w) else
  let '(per_trace, w) := x86_pt_free_buffer1 w per_trace in
  (ZX_OK, slot_store dev descriptor per_trace, w).

(** ** Staging and retrieving the registers *)

(** The register block is handed to the kernel; what comes back is the
    status. *)
Definition x86_pt_stage_trace_data (w : world) (dev : insntrace_device_t)
    (descriptor : Z) : zx_status_t * world :=
  if num_traces dev <=? descriptor then (ZX_ERR_INVALID_ARGS, w) else
  let '(status, _, w) := zx_mtrace_control w in
  (status, w).

Definition x86_pt_get_trace_data (w : world) (dev : insntrace_device_t)
    (descriptor : Z) : zx_status_t * insntrace_device_t * world :=
  if num_traces dev <=? descriptor then (ZX_ERR_INVALID_ARGS, dev, w) else
  let per_trace := slot_at dev descriptor in
  let '(status, regs, w) := zx_mtrace_control w in
  if negb (is_ok status) then (status, dev, w) else
  (ZX_OK, slot_store dev descriptor (set_regs regs per_trace), w).

(** ** ioctl requests and replies

    A request is the operation together with the structure its handler
    copies out of [cmd] once [cmdlen] has the structure's size. *)
Inductive ioctl_request : Type :=
| IOCTL_INSNTRACE_ALLOC_TRACE (config : ioctl_insntrace_trace_config_t)
| IOCTL_INSNTRACE_FREE_TRACE
| IOCTL_INSNTRACE_GET_TRACE_CONFIG
| IOCTL_INSNTRACE_ALLOC_BUFFER (config : ioctl_insntrace_buffer_config_t)
| IOCTL_INSNTRACE_ASSIGN_THREAD_BUFFER (descriptor thread : Z)
| IOCTL_INSNTRACE_RELEASE_THREAD_BUFFER (descriptor thread : Z)
| IOCTL_INSNTRACE_GET_BUFFER_CONFIG (descriptor : Z)
| IOCTL_INSNTRACE_GET_BUFFER_INFO (descriptor : Z)
| IOCTL_INSNTRACE_GET_CHUNK_HANDLE (descriptor chunk_num : Z)
| IOCTL_INSNTRACE_FREE_BUFFER (descriptor : Z)
| IOCTL_INSNTRACE_START
| IOCTL_INSNTRACE_STOP
| IOCTL_INSNTRACE_OTHER.        (* any other op of the family *)

Inductive ioctl_reply : Type :=
| ReplyTraceConfig (config : ioctl_insntrace_trace_config_t)
| ReplyDescriptor (descriptor : Z)
| ReplyBufferConfig (config : ioctl_insntrace_buffer_config_t)
| ReplyBufferInfo (capture_end : Z)
| ReplyHandle (h : Z).

(** What a handler leaves behind: the status, the reply with out_actual
    when it wrote one, the device and the world. *)
Record ioctl_result : Type := mk_result {
  res_status : zx_status_t;
  res_reply : option (ioctl_reply * Z);
  res_dev : insntrace_device_t;
  res_world : world
}.

Definition fail (st : zx_status_t) (dev : insntrace_device_t) (w : world) :=
  mk_result st None dev w.

(** ** ioctl handlers *)

Definition ipt_alloc_trace (w : world) (dev : insntrace_device_t)
    (config : ioctl_insntrace_trace_config_t) (cmdlen : Z) : ioctl_result :=
  if negb (ipt_config_supported caps) then fail ZX_ERR_NOT_SUPPORTED dev w else
  (* For now we only support ToPA *)
  if negb (ipt_config_output_topa caps) then fail ZX_ERR_NOT_SUPPORTED dev w else
  if has_traces dev then fail ZX_ERR_BAD_STATE dev w else
  if negb (cmdlen =? sizeof_trace_config) then fail ZX_ERR_INVALID_ARGS dev w else
  (* TODO(dje): Until thread tracing is supported. *)
  if tc_mode config =? IPT_MODE_THREADS then fail ZX_ERR_NOT_SUPPORTED dev w else
  let internal_mode :=
    if tc_mode config =? IPT_MODE_CPUS then Some IPT_TRACE_CPUS
    else if tc_mode config =? IPT_MODE_THREADS then Some IPT_TRACE_THREADS
    else None in
  match internal_mode with
  | None => fail ZX_ERR_INVALID_ARGS dev w
  | Some internal_mode =>
      if IPT_MAX_NUM_TRACES <? tc_num_traces config
      then fail ZX_ERR_INVALID_ARGS dev w else
      if (tc_mode config =? IPT_MODE_CPUS) &&
         negb (tc_num_traces config =? w_num_cpus w)
      then fail ZX_ERR_INVALID_ARGS dev w else
      let dev := set_num_traces (tc_num_traces config) dev in
      let '(ok, w) := calloc w in
      if negb ok then fail ZX_ERR_NO_MEMORY dev w else
      let dev :=
        set_per_trace_state
          (Some (replicate (Z.to_nat (num_traces dev)) per_trace_zero)) dev in
      let '(status, _, w) := zx_mtrace_control w in
      if negb (is_ok status)
      then fail status (set_per_trace_state None dev) (free w (per_trace_state dev))
      else mk_result ZX_OK None (set_mode internal_mode dev) w
  end.

Definition ipt_free_trace (w : world) (dev : insntrace_device_t) : ioctl_result :=
  if active dev then fail ZX_ERR_BAD_STATE dev w else
  (* Don't make any changes until we know it's going to work. *)
  match for_u32 0 (num_traces dev)
          (fun i (_ : unit) =>
             if assigned (slot_at dev i) then Return ZX_ERR_BAD_STATE
             else Continue tt) tt with
  | Return st => fail st dev w
  | Continue _ =>
      let '(dev, w) :=
        loop_result (dev, w)
          (for_u32 0 (num_traces dev)
             (fun i (st : insntrace_device_t * world) =>
                let '(dev, w) := st in
                let per_trace := slot_at dev i in
                if allocated per_trace
                then
                  let '(per_trace, w) := x86_pt_free_buffer1 w per_trace in
                  Continue (slot_store dev i per_trace, w)
                else Continue (dev, w)) (dev, w)) in
      let '(status, _, w) := zx_mtrace_control w in
      (* TODO(dje): This really shouldn't fail. What to do?
         For now flag things as busted and prevent further use. *)
      if negb (is_ok status) then mk_result ZX_OK None dev w else
      mk_result ZX_OK None (set_per_trace_state None dev)
                (free w (per_trace_state dev))
  end.

(** [config] is a local that is not initialised: its num_traces field
    is whatever the stack holds. *)
Definition ipt_get_trace_config (w : world) (dev : insntrace_device_t)
    (replymax : Z) : ioctl_result :=
  if replymax <? sizeof_trace_config then fail ZX_ERR_BUFFER_TOO_SMALL dev w else
  let config := mk_trace_config (w_uninit w) (w_uninit w) in
  let config :=
    match mode dev with
    | IPT_TRACE_CPUS => mk_trace_config IPT_MODE_CPUS (tc_num_traces config)
    | IPT_TRACE_THREADS => mk_trace_config IPT_MODE_THREADS (tc_num_traces config)
    end in
  mk_result ZX_OK (Some (ReplyTraceConfig config, sizeof_trace_config)) dev w.

Definition ipt_alloc_buffer (w : world) (dev : insntrace_device_t)
    (config : ioctl_insntrace_buffer_config_t) (cmdlen replymax : Z)
  : ioctl_result :=
  if negb (cmdlen =? sizeof_buffer_config) then fail ZX_ERR_INVALID_ARGS dev w else
  if replymax <? sizeof_descriptor then fail ZX_ERR_BUFFER_TOO_SMALL dev w else
  let '(status, descriptor, dev, w) := x86_pt_alloc_buffer w dev config in
  if negb (is_ok status) then fail status dev w else
  mk_result ZX_OK (Some (ReplyDescriptor descriptor, sizeof_descriptor)) dev w.

Definition x86_pt_assign_thread_buffer (w : world) (dev : insntrace_device_t)
    (descriptor thread : Z) : zx_status_t * world :=
  let w := zx_handle_close w thread in
  (* TODO(dje): Thread support is still work-in-progress. *)
  (ZX_ERR_NOT_SUPPORTED, w).

Definition x86_pt_release_thread_buffer (w : world) (dev : insntrace_device_t)
    (descriptor thread : Z) : zx_status_t * world :=
  let w := zx_handle_close w thread in
  (* TODO(dje): Thread support is still work-in-progress. *)
  (ZX_ERR_NOT_SUPPORTED, w).

Definition ipt_assign_thread_buffer (w : world) (dev : insntrace_device_t)
    (descriptor thread cmdlen : Z) : ioctl_result :=
  if negb (cmdlen =? sizeof_assign_thread_buffer)
  then fail ZX_ERR_INVALID_ARGS dev w
  else
    let '(status, w) := x86_pt_assign_thread_buffer w dev descriptor thread in
    fail status dev w.

Definition ipt_release_thread_buffer (w : world) (dev : insntrace_device_t)
    (descriptor thread cmdlen : Z) : ioctl_result :=
  if negb (cmdlen =? sizeof_assign_thread_buffer)
  then fail ZX_ERR_INVALID_ARGS dev w
  else
    let '(status, w) := x86_pt_release_thread_buffer w dev descriptor thread in
    fail status dev w.

Definition ipt_get_buffer_config (w : world) (dev : insntrace_device_t)
    (descriptor cmdlen replymax : Z) : ioctl_result :=
  if negb (cmdlen =? sizeof_descriptor) then fail ZX_ERR_INVALID_ARGS dev w else
  if replymax <? sizeof_buffer_config then fail ZX_ERR_BUFFER_TOO_SMALL dev w else
  if num_traces dev <=? descriptor then fail ZX_ERR_INVALID_ARGS dev w else
  let per_trace := slot_at dev descriptor in
  if negb (allocated per_trace) then fail ZX_ERR_INVALID_ARGS dev w else
  let config :=
    {| bc_num_chunks := num_chunks per_trace;
       bc_chunk_order := chunk_order per_trace;
       bc_is_circular := is_circular per_trace;
       bc_ctl := ctl per_trace;
       bc_cr3_match := cr3_match per_trace;
       bc_addr_ranges := addr_ranges per_trace |} in
  mk_result ZX_OK (Some (ReplyBufferConfig config, sizeof_buffer_config)) dev w.

Definition is_cpus (m : ipt_trace_mode_t) : bool :=
  match m with IPT_TRACE_CPUS => true | IPT_TRACE_THREADS => false end.

Definition ipt_get_buffer_info (w : world) (dev : insntrace_device_t)
    (descriptor cmdlen replymax : Z) : ioctl_result :=
  if negb (cmdlen =? sizeof_descriptor) then fail ZX_ERR_INVALID_ARGS dev w else
  if replymax <? sizeof_buffer_info then fail ZX_ERR_BUFFER_TOO_SMALL dev w else
  (* In thread-mode we need to get buffer info while tracing is active. *)
  if is_cpus (mode dev) && active dev then fail ZX_ERR_BAD_STATE dev w else
  if num_traces dev <=? descriptor then fail ZX_ERR_INVALID_ARGS dev w else
  let per_trace := slot_at dev descriptor in
  if negb (allocated per_trace) then fail ZX_ERR_INVALID_ARGS dev w else
  (* Note: If this is a circular buffer this is just where tracing stopped. *)
  let capture_end := compute_capture_size per_trace in
  mk_result ZX_OK (Some (ReplyBufferInfo capture_end, sizeof_buffer_info)) dev w.

(** The rights mask of the duplicate concerns the new handle only. *)
Definition ipt_get_chunk_handle (w : world) (dev : insntrace_device_t)
    (descriptor chunk_num cmdlen replymax : Z) : ioctl_result :=
  if negb (cmdlen =? sizeof_chunk_handle_req) then fail ZX_ERR_INVALID_ARGS dev w else
  if replymax <? sizeof_handle then fail ZX_ERR_BUFFER_TOO_SMALL dev w else
  if num_traces dev <=? descriptor then fail ZX_ERR_INVALID_ARGS dev w else
  let per_trace := slot_at dev descriptor in
  if negb (allocated per_trace) then fail ZX_ERR_INVALID_ARGS dev w else
  if num_chunks per_trace <=? chunk_num then fail ZX_ERR_INVALID_ARGS dev w else
  let '(status, _, w) := zx_handle_call w in        (* zx_object_get_info *)
  if negb (is_ok status) then fail status dev w else
  let '(status, h, w) := zx_handle_call w in        (* zx_handle_duplicate *)
  if negb (is_ok status) then fail status dev w else
  mk_result ZX_OK (Some (ReplyHandle h, sizeof_handle)) dev w.

Definition ipt_free_buffer (w : world) (dev : insntrace_device_t)
    (descriptor cmdlen : Z) : ioctl_result :=
  if negb (cmdlen =? sizeof_descriptor) then fail ZX_ERR_INVALID_ARGS dev w else
  let '(status, dev, w) := x86_pt_free_buffer w dev descriptor in
  fail status dev w.

(** Begin tracing. *)
Definition ipt_start (w : world) (dev : insntrace_device_t) : ioctl_result :=
  if active dev then fail ZX_ERR_BAD_STATE dev w else
  if negb (is_cpus (mode dev)) then fail ZX_ERR_BAD_STATE dev w else
  (* First verify a buffer has been allocated for each cpu,
     and not yet assigned. *)
  match for_u32 0 (num_traces dev)
          (fun cpu (_ : unit) =>
             let per_trace := slot_at dev cpu in
             if negb (allocated per_trace) then Return ZX_ERR_BAD_STATE else
             if assigned per_trace then Return ZX_ERR_BAD_STATE else
             Continue tt) tt with
  | Return st => fail st dev w
  | Continue _ =>
      match for_u32 0 (num_traces dev)
              (fun cpu (st : insntrace_device_t * world) =>
                 let '(dev, w) := st in
                 let '(status, w) := x86_pt_stage_trace_data w dev cpu in
                 (* TODO(dje): Unstage ones already done. *)
                 if negb (is_ok status) then Return (fail status dev w) else
                 let per_trace := slot_at dev cpu in
                 let per_trace := set_owner cpu per_trace in
                 let per_trace := set_assigned true per_trace in
                 Continue (slot_store dev cpu per_trace, w)) (dev, w) with
      | Return r => r
      | Continue (dev, w) =>
          let '(status, _, w) := zx_mtrace_control w in
          if negb (is_ok status) then fail status dev w else
          mk_result ZX_OK None (set_active true dev) w
      end
  end.

(** Stop tracing. *)
Definition ipt_stop (w : world) (dev : insntrace_device_t) : ioctl_result :=
  if negb (active dev) then fail ZX_ERR_BAD_STATE dev w else
  let '(status, _, w) := zx_mtrace_control w in
  if negb (is_ok status) then fail status dev w else
  let dev := set_active false dev in
  (* Until we support tracing individual cpus, auto-unassign the buffers
     in cpu-mode. *)
  if is_cpus (mode dev) then
    match for_u32 0 (num_traces dev)
            (fun cpu (st : insntrace_device_t * world) =>
               let '(dev, w) := st in
               let '(status, dev, w) := x86_pt_get_trace_data w dev cpu in
               if negb (is_ok status) then Return (fail status dev w) else
               let per_trace := slot_at dev cpu in
               let per_trace := set_assigned false per_trace in
               let per_trace := set_owner 0 per_trace in
               Continue (slot_store dev cpu per_trace, w)) (dev, w) with
    | Return r => r
    | Continue (dev, w) => mk_result ZX_OK None dev w
    end
  else mk_result ZX_OK None dev w.

(** ** insntrace_ioctl_worker *)

Definition is_alloc_trace (op : ioctl_request) : bool :=
  match op with IOCTL_INSNTRACE_ALLOC_TRACE _ => true | _ => false end.

Definition insntrace_ioctl_worker (w : world) (dev : insntrace_device_t)
    (op : ioctl_request) (cmdlen replymax : Z) : ioctl_result :=
  if negb (is_alloc_trace op) && negb (has_traces dev)
  then fail ZX_ERR_BAD_STATE dev w else
  match op with
  | IOCTL_INSNTRACE_ALLOC_TRACE config =>
      if negb (replymax =? 0) then fail ZX_ERR_INVALID_ARGS dev w else
      ipt_alloc_trace w dev config cmdlen
  | IOCTL_INSNTRACE_FREE_TRACE =>
      if negb (cmdlen =? 0) || negb (replymax =? 0)
      then fail ZX_ERR_INVALID_ARGS dev w else
      ipt_free_trace w dev
  | IOCTL_INSNTRACE_GET_TRACE_CONFIG =>
      if negb (cmdlen =? 0) then fail ZX_ERR_INVALID_ARGS dev w else
      ipt_get_trace_config w dev replymax
  | IOCTL_INSNTRACE_ALLOC_BUFFER config =>
      ipt_alloc_buffer w dev config cmdlen replymax
  | IOCTL_INSNTRACE_ASSIGN_THREAD_BUFFER descriptor thread =>
      if negb (replymax =? 0) then fail ZX_ERR_INVALID_ARGS dev w else
      ipt_assign_thread_buffer w dev descriptor thread cmdlen
  | IOCTL_INSNTRACE_RELEASE_THREAD_BUFFER descriptor thread =>
      if negb (replymax =? 0) then fail ZX_ERR_INVALID_ARGS dev w else
      ipt_release_thread_buffer w dev descriptor thread cmdlen
  | IOCTL_INSNTRACE_GET_BUFFER_CONFIG descriptor =>
      ipt_get_buffer_config w dev descriptor cmdlen replymax
  | IOCTL_INSNTRACE_GET_BUFFER_INFO descriptor =>
      ipt_get_buffer_info w dev descriptor cmdlen replymax
  | IOCTL_INSNTRACE_GET_CHUNK_HANDLE descriptor chunk_num =>
      ipt_get_chunk_handle w dev descriptor chunk_num cmdlen replymax
  | IOCTL_INSNTRACE_FREE_BUFFER descriptor =>
      if negb (replymax =? 0) then fail ZX_ERR_INVALID_ARGS dev w else
      ipt_free_buffer w dev descriptor cmdlen
  | IOCTL_INSNTRACE_START =>
      if negb (cmdlen =? 0) || negb (replymax =? 0)
      then fail ZX_ERR_INVALID_ARGS dev w else
      ipt_start w dev
  | IOCTL_INSNTRACE_STOP =>
      if negb (cmdlen =? 0) || negb (replymax =? 0)
      then fail ZX_ERR_INVALID_ARGS dev w else
      ipt_stop w dev
  | IOCTL_INSNTRACE_OTHER => fail ZX_ERR_INVALID_ARGS dev w
  end.

End Driver.

(** ** insntrace_init_once

    The file-level [ipt_config_*] variables are the record
    [ipt_config_t]; the function reads the processor through cpuid and
    writes them.  [__cpuid(leaf, ...)] is leaf [leaf] with sub-leaf 0. *)

Record cpuid_regs : Type := mk_cpuid {
  cp_a : Z; cp_b : Z; cp_c : Z; cp_d : Z
}.

(** The static initialisers. *)
Definition ipt_config_initial : ipt_config_t :=
  mk_ipt_config 0 0 0 0 0 0 0 0 0 false false false false false false false
                false false false false false.

(** #define BIT(x, b) ((x) & (1u << (b))) *)
Definition BIT (x b : Z) : Z := Z.land x (u32 (Z.shiftl 1 b)).

Definition set_signature (family model stepping : Z) (c : ipt_config_t) : ipt_config_t :=
  mk_ipt_config family model stepping
    (ipt_config_addr_cfg_max c) (ipt_config_mtc_freq_mask c)
    (ipt_config_cyc_thresh_mask c) (ipt_config_psb_freq_mask c)
    (ipt_config_num_addr_ranges c) (ipt_config_bus_freq c)
    (ipt_config_supported c) (ipt_config_cr3_filtering c) (ipt_config_psb c)
    (ipt_config_ip_filtering c) (ipt_config_mtc c) (ipt_config_ptwrite c)
    (ipt_config_power_events c) (ipt_config_output_topa c)
    (ipt_config_output_topa_multi c) (ipt_config_output_single c)
    (ipt_config_output_transport c) (ipt_config_lip c).

Definition set_supported (v : bool) (c : ipt_config_t) : ipt_config_t :=
  mk_ipt_config (ipt_config_family c) (ipt_config_model c) (ipt_config_stepping c)
    (ipt_config_addr_cfg_max c) (ipt_config_mtc_freq_mask c)
    (ipt_config_cyc_thresh_mask c) (ipt_config_psb_freq_mask c)
    (ipt_config_num_addr_ranges c) (ipt_config_bus_freq c)
    v (ipt_config_cr3_filtering c) (ipt_config_psb c)
    (ipt_config_ip_filtering c) (ipt_config_mtc c) (ipt_config_ptwrite c)
    (ipt_config_power_events c) (ipt_config_output_topa c)
    (ipt_config_output_topa_multi c) (ipt_config_output_single c)
    (ipt_config_output_transport c) (ipt_config_lip c).

Definition set_addr_cfg_max (v : Z) (c : ipt_config_t) : ipt_config_t :=
  mk_ipt_config (ipt_config_family c) (ipt_config_model c) (ipt_config_stepping c)
    v (ipt_config_mtc_freq_mask c)
    (ipt_config_cyc_thresh_mask c) (ipt_config_psb_freq_mask c)
    (ipt_config_num_addr_ranges c) (ipt_config_bus_freq c)
    (ipt_config_supported c) (ipt_config_cr3_filtering c) (ipt_config_psb c)
    (ipt_config_ip_filtering c) (ipt_config_mtc c) (ipt_config_ptwrite c)
    (ipt_config_power_events c) (ipt_config_output_topa c)
    (ipt_config_output_topa_multi c) (ipt_config_output_single c)
    (ipt_config_output_transport c) (ipt_config_lip c).

Definition set_masks (mtc cyc psb ranges : Z) (c : ipt_config_t) : ipt_config_t :=
  mk_ipt_config (ipt_config_family c) (ipt_config_model c) (ipt_config_stepping c)
    (ipt_config_addr_cfg_max c) mtc cyc psb ranges (ipt_config_bus_freq c)
    (ipt_config_supported c) (ipt_config_cr3_filtering c) (ipt_config_psb c)
    (ipt_config_ip_filtering c) (ipt_config_mtc c) (ipt_config_ptwrite c)
    (ipt_config_power_events c) (ipt_config_output_topa c)
    (ipt_config_output_topa_multi c) (ipt_config_output_single c)
    (ipt_config_output_transport c) (ipt_config_lip c).

Definition set_bus_freq (v : Z) (c : ipt_config_t) : ipt_config_t :=
  mk_ipt_config (ipt_config_family c) (ipt_config_model c) (ipt_config_stepping c)
    (ipt_config_addr_cfg_max c) (ipt_config_mtc_freq_mask c)
    (ipt_config_cyc_thresh_mask c) (ipt_config_psb_freq_mask c)
    (ipt_config_num_addr_ranges c) v
    (ipt_config_supported c) (ipt_config_cr3_filtering c) (ipt_config_psb c)
    (ipt_config_ip_filtering c) (ipt_config_mtc c) (ipt_config_ptwrite c)
    (ipt_config_power_events c) (ipt_config_output_topa c)
    (ipt_config_output_topa_multi c) (ipt_config_output_single c)
    (ipt_config_output_transport c) (ipt_config_lip c).

(** The eleven feature flags, from ebx and ecx of leaf 0x14. *)
Definition set_features (b c0 : Z) (c : ipt_config_t) : ipt_config_t :=
  mk_ipt_config (ipt_config_family c) (ipt_config_model c) (ipt_config_stepping c)
    (ipt_config_addr_cfg_max c) (ipt_config_mtc_freq_mask c)
    (ipt_config_cyc_thresh_mask c) (ipt_config_psb_freq_mask c)
    (ipt_config_num_addr_ranges c) (ipt_config_bus_freq c)
    (ipt_config_supported c)
    (negb (BIT b 0 =? 0)) (negb (BIT b 1 =? 0)) (negb (BIT b 2 =? 0))
    (negb (BIT b 3 =? 0)) (negb (BIT b 4 =? 0)) (negb (BIT b 5 =? 0))
    (negb (BIT c0 0 =? 0)) (negb (BIT c0 1 =? 0)) (negb (BIT c0 2 =? 0))
    (negb (BIT c0 3 =? 0)) (negb (BIT c0 31 =? 0)).

Section InitOnce.
(** [__get_cpuid_max(0, NULL)] and [__cpuid_count]. *)
Variable cpuid_max : Z.
Variable cpuid : Z -> Z -> cpuid_regs.
(** The uint32_t that [1. / ((float)a1 / (float)b1)] converts to. *)
Variable bus_freq_of : Z -> Z -> Z.

Definition insntrace_init_once (cfg : ipt_config_t) : zx_status_t * ipt_config_t :=
  let max_leaf := cpuid_max in
  if max_leaf <? 0x14 then (ZX_ERR_NOT_SUPPORTED, cfg) else
  let a := cp_a (cpuid 1 0) in
  let stepping := Z.land a 0xf in
  let model := Z.land (Z.shiftr a 4) 0xf in
  let family := Z.land (Z.shiftr a 8) 0xf in
  let family :=
    if family =? 0xf then u32 (family + Z.land (Z.shiftr a 20) 0xff) else family in
  let model :=
    if (family =? 6) || (family =? 0xf)
    then u32 (model + Z.shiftl (Z.land (Z.shiftr a 16) 0xf) 4) else model in
  let cfg := set_signature family model stepping cfg in
  let b := cp_b (cpuid 0x07 0) in
  if BIT b 25 =? 0 then (ZX_ERR_NOT_SUPPORTED, cfg) else
  let cfg := set_supported true cfg in
  let a := cp_a (cpuid 0x14 0) in
  let b := cp_b (cpuid 0x14 0) in
  let c := cp_c (cpuid 0x14 0) in
  let cfg := if negb (BIT b 2 =? 0) then set_addr_cfg_max 2 cfg else cfg in
  let cfg :=
    if negb (BIT b 1 =? 0) && (1 <=? a) then
      let a1 := cp_a (cpuid 0x14 1) in
      let b1 := cp_b (cpuid 0x14 1) in
      set_masks (Z.land (Z.shiftr a1 16) 0xffff) (Z.land b1 0xffff)
                (Z.land (Z.shiftr b1 16) 0xffff) (Z.land a1 0x7) cfg
    else cfg in
  let cfg :=
    if 0x15 <=? max_leaf then
      let a1 := cp_a (cpuid 0x15 0) in
      let b1 := cp_b (cpuid 0x15 0) in
      if negb (a1 =? 0) && negb (b1 =? 0)
      then set_bus_freq (bus_freq_of a1 b1) cfg else cfg
    else cfg in
  let cfg := set_features b c cfg in
  (ZX_OK, cfg).

End InitOnce.

(** ** insntrace_release

    The two handlers are called directly, not through
    insntrace_ioctl_worker, and their status is dropped;
    zx_handle_close(dev->bti) and free(dev) then end the device, so what
    is returned is the state at that point.  With per_trace_state NULL
    and num_traces > 0 the first loop of ipt_free_trace would read
    through the NULL pointer; the statements about release are for a
    device whose traces are present. *)
Section Release.
Context {hdr : intel_pt_h}.


End Release.


(** ** Vocabulary of the statements *)

Definition ceil_div (a b : Z) : Z := (a + b - 1) / b.

Section Vocabulary.
Context {hdr : intel_pt_h}.

(** A table has room for one data entry and its END entry, and the
    macro is an int constant. *)
Definition table_entries_ok : Prop := 2 <= IPT_TOPA_MAX_TABLE_ENTRIES < 2 ^ 31.

(** I6 as the specification words it. *)
Definition spec_num_end_entries (n : Z) : Z :=
  ceil_div (n - 1) (IPT_TOPA_MAX_TABLE_ENTRIES - 1).
Definition spec_entry_count (n : Z) : Z := n + spec_num_end_entries n.
Definition spec_num_tables (n : Z) : Z :=
  ceil_div (spec_entry_count n) IPT_TOPA_MAX_TABLE_ENTRIES.

(** A slot that went through memset and then had these fields written. *)
Definition slot_with (n order : Z) (circ : bool) (nt : Z)
    (cs ts : option (list io_buffer_t)) : ipt_per_trace_state_t :=
  mk_per_trace 0 n order circ false false nt 0 0 0 0 0
    (replicate (Z.to_nat IPT_MAX_NUM_ADDR_RANGES) (0, 0)) cs ts.

(** The slot as x86_pt_alloc_buffer1 has it when it calls make_topa. *)
Definition slot_built (n order : Z) (circ : bool) (nt : Z)
    (cs ts : list io_buffer_t) : ipt_per_trace_state_t :=
  slot_with n order circ nt (Some cs) (Some ts).

Definition zero_table (b : io_buffer_t) : Prop :=
  io_virt b = replicate (Z.to_nat IPT_TOPA_MAX_TABLE_ENTRIES) 0.

Definition status_of (r : zx_status_t * ipt_per_trace_state_t * world) : zx_status_t :=
  fst (fst r).

(** The allocator was the one to answer ZX_ERR_INVALID_ARGS. *)
Definition allocator_said_invalid (w : world) : Prop :=
  exists k, fst (w_io w k) = ZX_ERR_INVALID_ARGS.

(** Tables as two-level arrays. *)
Definition phys_at (a : option (list io_buffer_t)) (t : Z) : Z := io_phys (buf_at a t).

Definition well_shaped (a : option (list io_buffer_t)) (nt : Z) : Prop :=
  exists ts, a = Some ts /\ length ts = Z.to_nat nt /\
    Forall (fun b => length (io_virt b) = Z.to_nat IPT_TOPA_MAX_TABLE_ENTRIES) ts.

(** An END entry that links to the table at [target_pa]. *)
Definition topa_end_entry (target_pa : Z) : Z :=
  Z.lor (IPT_TOPA_ENTRY_PHYS_ADDR target_pa) IPT_TOPA_ENTRY_END.

(** The word make_topa leaves in slot [e] of table [t]: chunk
    t*(T-1)+e in a data slot (with STOP on the last one of a buffer that
    is not circular), the END entry right after the last chunk, the END
    entry in the last slot of a table that is full, zero elsewhere. *)
Definition topa_expected (q : ipt_per_trace_state_t) (t e : Z) : Z :=
  let D := IPT_TOPA_MAX_TABLE_ENTRIES - 1 in
  let n := num_chunks q in
  if e <? D then
    let g := t * D + e in
    if g <? n then
      if (g =? n - 1) && negb (is_circular q)
      then Z.lor (topa_data_entry q g) IPT_TOPA_ENTRY_STOP
      else topa_data_entry q g
    else if g =? n then topa_end_entry (phys_at (topas q) 0)
    else 0
  else
    if (t + 1) * D <=? n
    then topa_end_entry (phys_at (topas q) ((t + 1) mod num_tables q))
    else 0.

(** Invariant of the first loop of make_topa after [j] chunks. *)
Definition data_inv (q : ipt_per_trace_state_t) (ts : list io_buffer_t)
    (nt j : Z) (c : topa_cursor) : Prop :=
  let D := IPT_TOPA_MAX_TABLE_ENTRIES - 1 in
  well_shaped (tc_topas c) nt /\
  (forall t, phys_at (tc_topas c) t = phys_at (Some ts) t) /\
  0 <= curr_table c /\ 0 <= curr_idx c < D /\
  curr_table c * D + curr_idx c = j /\
  (0 < j -> exists lt li, last_entry c = Some (lt, li) /\
                          0 <= lt /\ 0 <= li < D /\ lt * D + li = j - 1) /\
  (forall t e, 0 <= t -> 0 <= e ->
     table_read (tc_topas c) t e =
     if (e <? D) && (t * D + e <? j) then topa_data_entry q (t * D + e) else 0).

(** The slot vector is there and has num_traces elements. *)
Definition device_wf (dev : insntrace_device_t) : Prop :=
  0 <= num_traces dev /\
  match per_trace_state dev with
  | Some l => length l = Z.to_nat (num_traces dev)
  | None => False
  end.

Definition has_stop (e : Z) : bool := negb (Z.land e IPT_TOPA_ENTRY_STOP =? 0).

(** The STOP flag is a bit of its own in an entry. *)
Record stop_bit_layout : Prop := {
  stop_nonzero : IPT_TOPA_ENTRY_STOP <> 0;
  stop_not_in_addr :
    forall pa, Z.land (IPT_TOPA_ENTRY_PHYS_ADDR pa) IPT_TOPA_ENTRY_STOP = 0;
  stop_not_in_size :
    forall s, Z.land (IPT_TOPA_ENTRY_SIZE s) IPT_TOPA_ENTRY_STOP = 0;
  stop_not_in_end : Z.land IPT_TOPA_ENTRY_END IPT_TOPA_ENTRY_STOP = 0
}.

(** The size field of a data entry reads back, with or without STOP. *)
Definition extract_size_ok : Prop :=
  forall pa s, IPT_TOPA_MIN_SHIFT <= s <= IPT_TOPA_MAX_SHIFT ->
    IPT_TOPA_ENTRY_EXTRACT_SIZE
      (Z.lor (IPT_TOPA_ENTRY_PHYS_ADDR pa) (IPT_TOPA_ENTRY_SIZE s)) = s /\
    IPT_TOPA_ENTRY_EXTRACT_SIZE
      (Z.lor (Z.lor (IPT_TOPA_ENTRY_PHYS_ADDR pa) (IPT_TOPA_ENTRY_SIZE s))
             IPT_TOPA_ENTRY_STOP) = s.

End Vocabulary.

Section ValidationVocabulary.
Context {hdr : intel_pt_h}.
Variable caps : ipt_config_t.

(** A group of bits that a capability gates. *)
Definition gated (b : bool) (m : Z) : Z := if b then m else 0.

(** The settable mask as the specification words it: the base bits,
    then one group per capability. *)
Definition spec_settable_mask : Z :=
  let base :=
    Z.lor (Z.lor (Z.lor (Z.lor IPT_CTL_OS_ALLOWED_MASK IPT_CTL_USER_ALLOWED_MASK)
                        IPT_CTL_TSC_EN_MASK)
                 IPT_CTL_DIS_RETC_MASK)
          IPT_CTL_BRANCH_EN_MASK in
  let ipf k := ipt_config_ip_filtering caps && (k <? ipt_config_num_addr_ranges caps) in
  fold_left Z.lor
    [ gated (ipt_config_ptwrite caps) (Z.lor IPT_CTL_PTW_EN_MASK IPT_CTL_FUP_ON_PTW_MASK);
      gated (ipt_config_cr3_filtering caps) IPT_CTL_CR3_FILTER_MASK;
      gated (ipt_config_mtc caps) (Z.lor IPT_CTL_MTC_EN_MASK IPT_CTL_MTC_FREQ_MASK);
      gated (ipt_config_power_events caps) IPT_CTL_POWER_EVENT_EN_MASK;
      gated (ipf 0) IPT_CTL_ADDR0_MASK;
      gated (ipf 1) IPT_CTL_ADDR1_MASK;
      gated (ipf 2) IPT_CTL_ADDR2_MASK;
      gated (ipf 3) IPT_CTL_ADDR3_MASK;
      gated (ipt_config_psb caps)
        (Z.lor (Z.lor IPT_CTL_CYC_EN_MASK IPT_CTL_PSB_FREQ_MASK) IPT_CTL_CYC_THRESH_MASK) ]
    base.

(** ctl has a bit that the settable mask does not have. *)
Definition ctl_outside_mask (c : Z) : Prop :=
  exists i, 0 <= i < 64 /\ Z.testbit c i = true /\
            Z.testbit (settable_ctl_mask caps) i = false.

Definition ctl_within_mask (c : Z) : Prop :=
  forall i, 0 <= i < 64 -> Z.testbit c i = true ->
            Z.testbit (settable_ctl_mask caps) i = true.

(** A sub-field value that is not zero and whose bit (1 << v) the
    hardware mask does not have. *)
Definition field_absent (v hw_mask : Z) : Prop :=
  v <> 0 /\ Z.testbit hw_mask v = false.

Definition field_allowed (v hw_mask : Z) : Prop :=
  v = 0 \/ Z.testbit hw_mask v = true.

Definition mtc_freq_of (c : Z) : Z :=
  ctl_field c IPT_CTL_MTC_FREQ_MASK IPT_CTL_MTC_FREQ_SHIFT.
Definition cyc_thresh_of (c : Z) : Z :=
  ctl_field c IPT_CTL_CYC_THRESH_MASK IPT_CTL_CYC_THRESH_SHIFT.
Definition psb_freq_of (c : Z) : Z :=
  ctl_field c IPT_CTL_PSB_FREQ_MASK IPT_CTL_PSB_FREQ_SHIFT.

(** The three hardware masks are uint32_t. *)
Definition hw_masks_u32 : Prop :=
  0 <= ipt_config_mtc_freq_mask caps < 2 ^ 32 /\
  0 <= ipt_config_cyc_thresh_mask caps < 2 ^ 32 /\
  0 <= ipt_config_psb_freq_mask caps < 2 ^ 32.

End ValidationVocabulary.

Section LifecycleVocabulary.
Context {hdr : intel_pt_h}.
Variable caps : ipt_config_t.

(** Every slot i < num_traces satisfies [P]. *)
Definition all_slots (dev : insntrace_device_t)
    (P : ipt_per_trace_state_t -> bool) : bool :=
  forallb (fun i => P (slot_at dev (Z.of_nat i)))
          (seq 0 (Z.to_nat (num_traces dev))).

(** slot[d].allocated, for a descriptor of the vector. *)
Definition slot_allocated (dev : insntrace_device_t) (d : Z) : bool :=
  (d <? num_traces dev) && allocated (slot_at dev d).

(** The "Requires" column of the lifecycle table; every operation but
    alloc_trace also needs the traces to be present. *)
Definition lifecycle_precondition (dev : insntrace_device_t)
    (op : ioctl_request) : bool :=
  match op with
  | IOCTL_INSNTRACE_ALLOC_TRACE _ =>
      ipt_config_supported caps && ipt_config_output_topa caps &&
      negb (has_traces dev)
  | IOCTL_INSNTRACE_FREE_TRACE =>
      has_traces dev && negb (active dev) &&
      all_slots dev (fun p => negb (assigned p))
  | IOCTL_INSNTRACE_GET_TRACE_CONFIG => has_traces dev
  | IOCTL_INSNTRACE_ALLOC_BUFFER _ => has_traces dev
  | IOCTL_INSNTRACE_ASSIGN_THREAD_BUFFER _ _ =>
      has_traces dev && negb (is_cpus (mode dev))
  | IOCTL_INSNTRACE_RELEASE_THREAD_BUFFER _ _ =>
      has_traces dev && negb (is_cpus (mode dev))
  | IOCTL_INSNTRACE_GET_BUFFER_CONFIG d =>
      has_traces dev && slot_allocated dev d
  | IOCTL_INSNTRACE_GET_BUFFER_INFO d =>
      has_traces dev && slot_allocated dev d &&
      (negb (is_cpus (mode dev)) || negb (active dev))
  | IOCTL_INSNTRACE_GET_CHUNK_HANDLE d k =>
      has_traces dev && slot_allocated dev d &&
      (k <? num_chunks (slot_at dev d))
  | IOCTL_INSNTRACE_FREE_BUFFER d =>
      has_traces dev && negb (active dev) && slot_allocated dev d &&
      negb (assigned (slot_at dev d))
  | IOCTL_INSNTRACE_START =>
      has_traces dev && negb (active dev) && is_cpus (mode dev) &&
      all_slots dev (fun p => allocated p && negb (assigned p))
  | IOCTL_INSNTRACE_STOP => has_traces dev && active dev
  | IOCTL_INSNTRACE_OTHER => false
  end.

(** The world a rejected operation leaves: the one it found, but that
    the two thread-buffer operations have closed the thread handle by the
    time they answer ZX_ERR_NOT_SUPPORTED. *)
Definition world_when_rejected (w : world) (op : ioctl_request)
    (st : zx_status_t) : world :=
  match op, st with
  | IOCTL_INSNTRACE_ASSIGN_THREAD_BUFFER _ thread, ZX_ERR_NOT_SUPPORTED
  | IOCTL_INSNTRACE_RELEASE_THREAD_BUFFER _ thread, ZX_ERR_NOT_SUPPORTED =>
      zx_handle_close w thread
  | _, _ => w
  end.

(** Operations that answer ZX_ERR_NOT_SUPPORTED by design. *)
Definition may_be_unsupported (op : ioctl_request) : bool :=
  match op with
  | IOCTL_INSNTRACE_ALLOC_TRACE _
  | IOCTL_INSNTRACE_ASSIGN_THREAD_BUFFER _ _
  | IOCTL_INSNTRACE_RELEASE_THREAD_BUFFER _ _ => true
  | _ => false
  end.

(** Size of the reply an operation writes. *)
Definition reply_size (op : ioctl_request) : Z :=
  match op with
  | IOCTL_INSNTRACE_GET_TRACE_CONFIG => sizeof_trace_config
  | IOCTL_INSNTRACE_ALLOC_BUFFER _ => sizeof_descriptor
  | IOCTL_INSNTRACE_GET_BUFFER_CONFIG _ => sizeof_buffer_config
  | IOCTL_INSNTRACE_GET_BUFFER_INFO _ => sizeof_buffer_info
  | IOCTL_INSNTRACE_GET_CHUNK_HANDLE _ _ => sizeof_handle
  | _ => 0
  end.

(** I1 as the code keeps it: a slot that is not allocated has no chunk
    array and no table array. *)
Definition slot_released (p : ipt_per_trace_state_t) : Prop :=
  allocated p = false -> chunks p = None /\ topas p = None.

Definition I1_pointers (dev : insntrace_device_t) : Prop :=
  forall l, per_trace_state dev = Some l -> Forall slot_released l.

(** [w] after the releases [l], the latest first; the streams of
    answers are those of [w]. *)
Definition with_released (l : list released_t) (w : world) : world :=
  mk_world (w_calloc w) (w_io w) (w_mtrace w) (w_handle w)
           (w_num_cpus w) (w_uninit w) (l ++ w_released w).

(** What releasing the first [n] buffers of an array records. *)
Definition released_buffers (a : option (list io_buffer_t)) (n : Z)
  : list released_t :=
  rev (map (fun i => BufferReleased (vmo_handle (buf_at a (Z.of_nat i))))
           (seq 0 (Z.to_nat n))).

(** What x86_pt_free_buffer1 does with one array: nothing when the
    pointer is NULL, else the buffers and then the array. *)
Definition released_array (a : option (list io_buffer_t)) (n : Z)
  : list released_t :=
  match a with
  | Some _ => ArrayFreed :: released_buffers a n
  | None => []
  end.

(** What x86_pt_free_buffer1 records for a slot: the chunks, then the
    tables. *)
Definition released_slot (p : ipt_per_trace_state_t) : list released_t :=
  released_array (topas p) (num_tables p) ++
  released_array (chunks p) (num_chunks p).

End LifecycleVocabulary.

(** ** Vocabulary of the further properties *)

Section MoreBufferVocabulary.
Context {hdr : intel_pt_h}.

(** The chunk sits on a multiple of its own size, 2^order pages. *)
Definition chunk_aligned (order : Z) (b : io_buffer_t) : Prop :=
  io_phys b mod 2 ^ (PAGE_SIZE_SHIFT + order) = 0.

(** The condition of the assert that follows the first loop of make_topa. *)
Definition cursor_assert (per_trace : ipt_per_trace_state_t) (c : topa_cursor) : Prop :=
  curr_table c + 1 = num_tables per_trace \/
  (curr_table c = num_tables per_trace /\ curr_idx c = 0).

End MoreBufferVocabulary.

Section InvariantVocabulary.
Context {hdr : intel_pt_h}.

(** A slot whose flags and arrays agree: assigned only when allocated,
    and an allocated slot has its two arrays, of the lengths the counts
    say. *)
Definition slot_ok (p : ipt_per_trace_state_t) : Prop :=
  (assigned p = true -> allocated p = true) /\
  (allocated p = true ->
     exists cs ts, chunks p = Some cs /\ length cs = Z.to_nat (num_chunks p) /\
                   topas p = Some ts /\ length ts = Z.to_nat (num_tables p)).

Definition slots_in_range (dev : insntrace_device_t)
    (Q : ipt_per_trace_state_t -> Prop) : Prop :=
  forall i, 0 <= i < num_traces dev -> Q (slot_at dev i).

(** What every reachable device state satisfies. *)
Definition device_inv (dev : insntrace_device_t) : Prop :=
  if has_traces dev then
    device_wf dev /\ mode dev = IPT_TRACE_CPUS /\
    slots_in_range dev slot_ok /\
    (active dev = true -> slots_in_range dev (fun p => assigned p = true))
  else active dev = false.

(** The unsigned fields of a request hold unsigned values. *)
Definition request_in_range (op : ioctl_request) : Prop :=
  match op with
  | IOCTL_INSNTRACE_ALLOC_TRACE config => 0 <= tc_num_traces config
  | IOCTL_INSNTRACE_ALLOC_BUFFER config =>
      0 <= bc_num_chunks config /\ 0 <= bc_chunk_order config
  | _ => True
  end.

(** [d] is [dev0] with the first [k] slots staged by ipt_start. *)
Definition staged_upto (dev0 : insntrace_device_t) (k : Z)
    (d : insntrace_device_t) : Prop :=
  num_traces d = num_traces dev0 /\ mode d = mode dev0 /\
  active d = active dev0 /\ device_wf d /\
  forall i, 0 <= i ->
    slot_at d i = if i <? k
                  then set_assigned true (set_owner i (slot_at dev0 i))
                  else slot_at dev0 i.

(** Tracing is off and a slot is still assigned. *)
Definition wedged (dev : insntrace_device_t) : Prop :=
  device_wf dev /\ active dev = false /\
  exists i, 0 <= i < num_traces dev /\
            allocated (slot_at dev i) = true /\ assigned (slot_at dev i) = true.

(** The operations that would get a device out of that state. *)
Definition recovery_op (op : ioctl_request) : bool :=
  match op with
  | IOCTL_INSNTRACE_ALLOC_TRACE _ | IOCTL_INSNTRACE_FREE_TRACE
  | IOCTL_INSNTRACE_START | IOCTL_INSNTRACE_STOP => true
  | _ => false
  end.

End InvariantVocabulary.

Section HandlersVocabulary.
Context {hdr : intel_pt_h}.

(** [d] is [dev0] with the first [k] slots read back and released by
    ipt_stop; [kernel] answers the zx_mtrace_control calls of the loop. *)
Definition unstaged_upto (dev0 : insntrace_device_t)
    (kernel : nat -> zx_status_t * zx_x86_pt_regs_t) (k : Z)
    (d : insntrace_device_t) : Prop :=
  num_traces d = num_traces dev0 /\ mode d = mode dev0 /\
  active d = active dev0 /\ device_wf d /\
  forall i, 0 <= i ->
    slot_at d i =
      if i <? k
      then set_owner 0 (set_assigned false
                          (set_regs (snd (kernel (Z.to_nat i))) (slot_at dev0 i)))
      else slot_at dev0 i.

End HandlersVocabulary.

Section RequestVocabulary.
Context {hdr : intel_pt_h}.

(** Size of the structure an operation reads from [cmd]. *)
Definition cmd_size (op : ioctl_request) : Z :=
  match op with
  | IOCTL_INSNTRACE_ALLOC_TRACE _ => sizeof_trace_config
  | IOCTL_INSNTRACE_ALLOC_BUFFER _ => sizeof_buffer_config
  | IOCTL_INSNTRACE_ASSIGN_THREAD_BUFFER _ _
  | IOCTL_INSNTRACE_RELEASE_THREAD_BUFFER _ _ => sizeof_assign_thread_buffer
  | IOCTL_INSNTRACE_GET_BUFFER_CONFIG _
  | IOCTL_INSNTRACE_GET_BUFFER_INFO _
  | IOCTL_INSNTRACE_FREE_BUFFER _ => sizeof_descriptor
  | IOCTL_INSNTRACE_GET_CHUNK_HANDLE _ _ => sizeof_chunk_handle_req
  | _ => 0
  end.

(** Operations that write a reply. *)
Definition has_reply (op : ioctl_request) : bool :=
  match op with
  | IOCTL_INSNTRACE_GET_TRACE_CONFIG
  | IOCTL_INSNTRACE_ALLOC_BUFFER _
  | IOCTL_INSNTRACE_GET_BUFFER_CONFIG _
  | IOCTL_INSNTRACE_GET_BUFFER_INFO _
  | IOCTL_INSNTRACE_GET_CHUNK_HANDLE _ _ => true
  | _ => false
  end.

(** The reply buffer an operation accepts. *)
Definition reply_fits (op : ioctl_request) (replymax : Z) : Prop :=
  if has_reply op then reply_size op <= replymax else replymax = 0.

(** Operations that look at the result of no call: the device alone
    decides their answer.  FREE_BUFFER is one of them: it releases
    buffers and frees arrays, calls that return nothing. *)
Definition decided_locally (op : ioctl_request) : bool :=
  match op with
  | IOCTL_INSNTRACE_GET_TRACE_CONFIG
  | IOCTL_INSNTRACE_GET_BUFFER_CONFIG _
  | IOCTL_INSNTRACE_GET_BUFFER_INFO _
  | IOCTL_INSNTRACE_FREE_BUFFER _ => true
  | _ => false
  end.

(** Operations that only read the device. *)
Definition is_query (op : ioctl_request) : bool :=
  match op with
  | IOCTL_INSNTRACE_GET_TRACE_CONFIG
  | IOCTL_INSNTRACE_GET_BUFFER_CONFIG _
  | IOCTL_INSNTRACE_GET_BUFFER_INFO _
  | IOCTL_INSNTRACE_GET_CHUNK_HANDLE _ _
  | IOCTL_INSNTRACE_ASSIGN_THREAD_BUFFER _ _
  | IOCTL_INSNTRACE_RELEASE_THREAD_BUFFER _ _
  | IOCTL_INSNTRACE_OTHER => true
  | _ => false
  end.

Definition is_thread_op (op : ioctl_request) : bool :=
  match op with
  | IOCTL_INSNTRACE_ASSIGN_THREAD_BUFFER _ _
  | IOCTL_INSNTRACE_RELEASE_THREAD_BUFFER _ _ => true
  | _ => false
  end.

(** The thread handle a thread-buffer operation is given. *)
Definition thread_handle (op : ioctl_request) : Z :=
  match op with
  | IOCTL_INSNTRACE_ASSIGN_THREAD_BUFFER _ thread
  | IOCTL_INSNTRACE_RELEASE_THREAD_BUFFER _ thread => thread
  | _ => 0
  end.

(** The reply is of the kind the operation produces. *)
Definition reply_kind_ok (op : ioctl_request) (rep : ioctl_reply) : Prop :=
  match op, rep with
  | IOCTL_INSNTRACE_GET_TRACE_CONFIG, ReplyTraceConfig _
  | IOCTL_INSNTRACE_ALLOC_BUFFER _, ReplyDescriptor _
  | IOCTL_INSNTRACE_GET_BUFFER_CONFIG _, ReplyBufferConfig _
  | IOCTL_INSNTRACE_GET_BUFFER_INFO _, ReplyBufferInfo _
  | IOCTL_INSNTRACE_GET_CHUNK_HANDLE _ _, ReplyHandle _ => True
  | _, _ => False
  end.

End RequestVocabulary.


(** ** A concrete header and a cooperative world

    Bit positions follow the architectural layout of IA32_RTIT_CTL and of
    ToPA entries (Intel SDM vol. 3, "Intel Processor Trace"); the number of
    entries of a table is the header's choice and stays an argument. *)

Definition bit (n : Z) : Z := Z.shiftl 1 n.
Definition field_mask (shift len : Z) : Z := Z.shiftl (Z.ones len) shift.

Definition sdm_header (table_entries : Z) : intel_pt_h := {|
  IPT_TOPA_MAX_TABLE_ENTRIES := table_entries;
  IPT_TOPA_MIN_SHIFT := 12;
  IPT_TOPA_MAX_SHIFT := 27;
  IPT_TOPA_ENTRY_PHYS_ADDR := fun x => Z.land (u64 x) (u64 (Z.lnot (Z.ones 12)));
  IPT_TOPA_ENTRY_SIZE := fun size_log2 => u64 (Z.shiftl (size_log2 - 12) 6);
  IPT_TOPA_ENTRY_EXTRACT_SIZE := fun e => u32 (Z.land (Z.shiftr e 6) 15 + 12);
  IPT_TOPA_ENTRY_END := bit 0;
  IPT_TOPA_ENTRY_STOP := bit 4;
  IPT_CTL_OS_ALLOWED_MASK := bit 2;
  IPT_CTL_USER_ALLOWED_MASK := bit 3;
  IPT_CTL_TSC_EN_MASK := bit 10;
  IPT_CTL_DIS_RETC_MASK := bit 11;
  IPT_CTL_BRANCH_EN_MASK := bit 13;
  IPT_CTL_PTW_EN_MASK := bit 12;
  IPT_CTL_FUP_ON_PTW_MASK := bit 5;
  IPT_CTL_CR3_FILTER_MASK := bit 7;
  IPT_CTL_MTC_EN_MASK := bit 9;
  IPT_CTL_MTC_FREQ_MASK := field_mask 14 4;
  IPT_CTL_MTC_FREQ_SHIFT := 14;
  IPT_CTL_POWER_EVENT_EN_MASK := bit 4;
  IPT_CTL_ADDR0_MASK := field_mask 32 4;
  IPT_CTL_ADDR1_MASK := field_mask 36 4;
  IPT_CTL_ADDR2_MASK := field_mask 40 4;
  IPT_CTL_ADDR3_MASK := field_mask 44 4;
  IPT_CTL_CYC_EN_MASK := bit 1;
  IPT_CTL_PSB_FREQ_MASK := field_mask 24 4;
  IPT_CTL_PSB_FREQ_SHIFT := 24;
  IPT_CTL_CYC_THRESH_MASK := field_mask 19 4;
  IPT_CTL_CYC_THRESH_SHIFT := 19;
  IPT_CTL_TOPA_MASK := bit 8;
  IPT_CTL_TRACE_EN_MASK := bit 0;
  IPT_STATUS_ERROR_MASK := bit 4;
  IPT_MAX_NUM_TRACES := 64;
  IPT_MAX_NUM_ADDR_RANGES := 4;
  IPT_MODE_CPUS := 0;
  IPT_MODE_THREADS := 1;
  sizeof_trace_config := 8;
  sizeof_buffer_config := 96;
  sizeof_descriptor := 4;
  sizeof_buffer_info := 8;
  sizeof_chunk_handle_req := 8;
  sizeof_assign_thread_buffer := 8;
  sizeof_handle := 4
|}.

(** Capabilities of a processor with every IPT feature. *)
Definition full_caps : ipt_config_t := {|
  ipt_config_family := 6; ipt_config_model := 0x5e; ipt_config_stepping := 3;
  ipt_config_addr_cfg_max := 2;
  ipt_config_mtc_freq_mask := 0x249;
  ipt_config_cyc_thresh_mask := 0x3fff;
  ipt_config_psb_freq_mask := 0x3f;
  ipt_config_num_addr_ranges := 2;
  ipt_config_bus_freq := 0;
  ipt_config_supported := true;
  ipt_config_cr3_filtering := true;
  ipt_config_psb := true;
  ipt_config_ip_filtering := true;
  ipt_config_mtc := true;
  ipt_config_ptwrite := true;
  ipt_config_power_events := true;
  ipt_config_output_topa := true;
  ipt_config_output_topa_multi := true;
  ipt_config_output_single := true;
  ipt_config_output_transport := false;
  ipt_config_lip := false
|}.

Definition regs_zero : zx_x86_pt_regs_t := mk_regs 0 0 0 0 0 [].

(** Every call succeeds; the n-th buffer sits at (n+1) MiB. *)
Definition good_world (num_cpus : Z) : world := {|
  w_calloc := fun _ => true;
  w_io := fun n => (ZX_OK, (Z.of_nat (S n) * 0x100000, Z.of_nat n + 100));
  w_mtrace := fun _ => (ZX_OK, regs_zero);
  w_handle := fun n => (ZX_OK, Z.of_nat n + 1000);
  w_num_cpus := num_cpus;
  w_uninit := 0xdeadbeef;
  w_released := []
|}.

Definition dev_init : insntrace_device_t :=
  mk_device true IPT_TRACE_CPUS 0 None false 7.

(** ** Scenarios *)

(** A sequence of ioctls on one device, each on the state the previous
    one left. *)
Fixpoint run_ioctls {hdr : intel_pt_h} (caps : ipt_config_t) (w : world)
    (dev : insntrace_device_t) (reqs : list (ioctl_request * Z * Z))
  : list ioctl_result :=
  match reqs with
  | [] => []
  | (op, cmdlen, replymax) :: rest =>
      let r := insntrace_ioctl_worker caps w dev op cmdlen replymax in
      r :: run_ioctls caps (res_world r) (res_dev r) rest
  end.

Definition answers (rs : list ioctl_result)
  : list (zx_status_t * option (ioctl_reply * Z)) :=
  map (fun r => (res_status r, res_reply r)) rs.

Definition final_dev (dev : insntrace_device_t) (rs : list ioctl_result)
  : insntrace_device_t :=
  match last rs with Some r => res_dev r | None => dev end.

Definition final_world (w : world) (rs : list ioctl_result) : world :=
  match last rs with Some r => res_world r | None => w end.

(** Tables of 2048 entries (16 KiB), and tables of 4 entries where whole
    tables are looked at. *)
Definition example_header : intel_pt_h := sdm_header 2048.
Definition small_header : intel_pt_h := sdm_header 4.

(** A processor without Processor Trace. *)
Definition no_ipt_caps : ipt_config_t :=
  mk_ipt_config 6 0x3c 3 0 0 0 0 0 0 false false false false false false false
                false false false false false.

(** full_caps without CR3 filtering. *)
Definition no_cr3_caps : ipt_config_t :=
  mk_ipt_config 6 0x5e 3 2 0x249 0x3fff 0x3f 2 0 true false true true true true
                true true true true false false.

Definition cpus_config (n : Z) : ioctl_insntrace_trace_config_t :=
  {| tc_mode := 0; tc_num_traces := n |}.

Definition buffer_config (n order : Z) (circ : bool) (c : Z)
  : ioctl_insntrace_buffer_config_t :=
  {| bc_num_chunks := n; bc_chunk_order := order; bc_is_circular := circ;
     bc_ctl := c; bc_cr3_match := 0; bc_addr_ranges := replicate 4 (0, 0) |}.

(** ctl = TSC_EN | BRANCH_EN *)
Definition tsc_branch : Z := Z.lor (bit 10) (bit 13).

Definition one_chunk_config : ioctl_insntrace_buffer_config_t :=
  buffer_config 1 0 true tsc_branch.

(** The device after ALLOC_TRACE for one cpu. *)
Definition dev_one_cpu {hdr : intel_pt_h} : insntrace_device_t :=
  mk_device true IPT_TRACE_CPUS 1 (Some [per_trace_zero]) false 7.

(** As good_world, but the k-th zx_mtrace_control call answers [st] with
    the registers [regs]. *)
Definition world_mtrace (num_cpus : Z) (k : nat) (st : zx_status_t)
    (regs : zx_x86_pt_regs_t) : world :=
  mk_world (fun _ => true)
           (fun n => (ZX_OK, (Z.of_nat (S n) * 0x100000, Z.of_nat n + 100)))
           (fun n => if Nat.eqb n k then (st, regs) else (ZX_OK, regs_zero))
           (fun n => (ZX_OK, Z.of_nat n + 1000))
           num_cpus 0xdeadbeef [].

(** A register snapshot in table 0 of the first buffer (at 2 MiB) with
    the largest byte offset. *)
Definition far_offset_regs : zx_x86_pt_regs_t :=
  mk_regs 0 0 0x200000 (Z.shiftl 0xffffffff 32) 0 (replicate 4 (0, 0)).

(** A register snapshot in table 0 of the first buffer whose entry index
    is 2, past the END entry of a one-chunk buffer, with offset 0. *)
Definition past_end_regs : zx_x86_pt_regs_t :=
  mk_regs 0 0 0x200000 (Z.shiftl 2 7) 0 (replicate 4 (0, 0)).

(** Registers in table 1 (at 7 MiB), entry 1, 100 bytes into it. *)
Definition second_table_regs : zx_x86_pt_regs_t :=
  mk_regs 0 0 0x700000 (Z.lor (Z.shiftl 1 7) (Z.shiftl 100 32)) 0 [].

(** ctl = TSC_EN | BRANCH_EN | CR3_FILTER *)
Definition cr3_filter_config : ioctl_insntrace_buffer_config_t :=
  buffer_config 1 0 true (Z.lor tsc_branch (bit 7)).

(** ** More scenarios *)

(** full_caps on a processor whose ToPA output takes one entry only. *)
Definition single_topa_caps : ipt_config_t :=
  mk_ipt_config 6 0x3d 4 2 0x249 0x3fff 0x3f 2 0 true true true true true true
                true true false true false false.

(** A register snapshot whose output base is no table of the buffer. *)
Definition stray_base_regs : zx_x86_pt_regs_t :=
  mk_regs 0 0 0x12345000 0 0 (replicate 4 (0, 0)).

(** ALLOC_TRACE for two cpus, then a one-chunk buffer for each. *)
Definition prepare_two_cpus : list (ioctl_request * Z * Z) :=
  [ (IOCTL_INSNTRACE_ALLOC_TRACE (cpus_config 2), 8, 0);
    (IOCTL_INSNTRACE_ALLOC_BUFFER one_chunk_config, 96, 4);
    (IOCTL_INSNTRACE_ALLOC_BUFFER one_chunk_config, 96, 4) ].

Definition dev_two_buffers : insntrace_device_t :=
  final_dev dev_init
    (@run_ioctls small_header full_caps (good_world 2) dev_init prepare_two_cpus).

(** The same with tracing started. *)
Definition dev_tracing : insntrace_device_t :=
  final_dev dev_init
    (@run_ioctls small_header full_caps (good_world 2) dev_init
       (prepare_two_cpus ++ [ (IOCTL_INSNTRACE_START, 0, 0) ])).

(** The kernel fails on its second call. *)
Definition world_second_fails : world :=
  world_mtrace 2 1 ZX_ERR_INTERNAL regs_zero.

(** START that failed while staging the second cpu. *)
Definition dev_half_staged : insntrace_device_t :=
  res_dev (@ipt_start small_header world_second_fails dev_two_buffers).

(** One cpu with its buffer allocated. *)
Definition dev_one_buffer : insntrace_device_t :=
  snd (fst (@x86_pt_alloc_buffer small_header full_caps (good_world 1)
              (@dev_one_cpu small_header) one_chunk_config)).

(** ALLOC_TRACE for three cpus, then a one-chunk buffer: slot 0 is
    allocated, slots 1 and 2 are free. *)
Definition prepare_three_cpus : list (ioctl_request * Z * Z) :=
  [ (IOCTL_INSNTRACE_ALLOC_TRACE (cpus_config 3), 8, 0);
    (IOCTL_INSNTRACE_ALLOC_BUFFER one_chunk_config, 96, 4) ].

Definition dev_three_cpus : insntrace_device_t :=
  final_dev dev_init
    (@run_ioctls small_header full_caps (good_world 3) dev_init prepare_three_cpus).

Definition world_three_cpus : world :=
  final_world (good_world 3)
    (@run_ioctls small_header full_caps (good_world 3) dev_init prepare_three_cpus).

(** As good_world, but the k-th io_buffer_init call fails. *)
Definition world_io_fails (num_cpus : Z) (k : nat) : world :=
  mk_world (fun _ => true)
           (fun n => if Nat.eqb n k then (ZX_ERR_NO_MEMORY, (0, 0))
                     else (ZX_OK, (Z.of_nat (S n) * 0x100000, Z.of_nat n + 100)))
           (fun _ => (ZX_OK, regs_zero))
           (fun n => (ZX_OK, Z.of_nat n + 1000))
           num_cpus 0xdeadbeef [].

(** cpuid of a processor with Processor Trace: signature 0x506e3,
    leaf 7 ebx bit 25, leaf 0x14 with every feature. *)
Definition pt_cpuid (leaf subleaf : Z) : cpuid_regs :=
  if leaf =? 1 then mk_cpuid 0x506e3 0 0 0
  else if leaf =? 7 then mk_cpuid 0 (bit 25) 0 0
  else if leaf =? 0x14 then
    if subleaf =? 0 then mk_cpuid 1 0x3f 0x7 0
    else mk_cpuid 0x02490002 0x003f3fff 0 0
  else if leaf =? 0x15 then mk_cpuid 2 0x100 0 0
  else mk_cpuid 0 0 0 0.

(** * Proofs *)

Section Proofs.
Context {hdr : intel_pt_h}.
Variable caps : ipt_config_t.

(** ** Arithmetic *)

Lemma u32_small x : 0 <= x < 2 ^ 32 -> u32 x = x.
Proof. intros H. unfold u32. apply Z.mod_small. exact H. Qed.

Lemma u64_small x : 0 <= x < 2 ^ 64 -> u64 x = x.
Proof. intros H. unfold u64. apply Z.mod_small. exact H. Qed.

Lemma ceil_div_bounds a b : 0 < b -> b * (ceil_div a b - 1) < a <= b * ceil_div a b.
Proof.
  intros Hb. unfold ceil_div.
  pose proof (Z.div_mod (a + b - 1) b ltac:(lia)) as E.
  pose proof (Z.mod_pos_bound (a + b - 1) b Hb) as B.
  lia.
Qed.

Lemma ceil_div_unique a b q : 0 < b -> b * (q - 1) < a <= b * q -> ceil_div a b = q.
Proof.
  intros Hb H. pose proof (ceil_div_bounds a b Hb) as B.
  nia.
Qed.

Lemma compute_topa_entry_count_eq p :
  table_entries_ok -> 0 <= num_chunks p <= MAX_NUM_CHUNKS ->
  compute_topa_entry_count p =
    num_chunks p + ceil_div (num_chunks p) (IPT_TOPA_MAX_TABLE_ENTRIES - 1).
Proof.
  unfold table_entries_ok, MAX_NUM_CHUNKS. intros HT Hn.
  unfold compute_topa_entry_count, ceil_div.
  rewrite (u32_small (num_chunks p + _ - 2)) by lia.
  rewrite (u32_small (IPT_TOPA_MAX_TABLE_ENTRIES - 1)) by lia.
  replace (num_chunks p + (IPT_TOPA_MAX_TABLE_ENTRIES - 1) - 1)
    with (num_chunks p + IPT_TOPA_MAX_TABLE_ENTRIES - 2) by lia.
  apply u32_small.
  set (D := IPT_TOPA_MAX_TABLE_ENTRIES - 1).
  assert (0 <= (num_chunks p + IPT_TOPA_MAX_TABLE_ENTRIES - 2) / D <= num_chunks p).
  { pose proof (ceil_div_bounds (num_chunks p) D ltac:(subst D; lia)) as B.
    unfold ceil_div in B.
    replace (num_chunks p + D - 1)
      with (num_chunks p + IPT_TOPA_MAX_TABLE_ENTRIES - 2) in B by (subst D; lia).
    split; [apply Z.div_pos; subst D; lia | subst D; nia]. }
  lia.
Qed.

(* tables needed = ceil(n / (T-1)) *)
Lemma table_count_eq n :
  table_entries_ok -> 0 <= n ->
  ceil_div (n + ceil_div n (IPT_TOPA_MAX_TABLE_ENTRIES - 1)) IPT_TOPA_MAX_TABLE_ENTRIES
  = ceil_div n (IPT_TOPA_MAX_TABLE_ENTRIES - 1).
Proof.
  unfold table_entries_ok. intros HT Hn.
  assert (HD : 0 < IPT_TOPA_MAX_TABLE_ENTRIES - 1). { lia. }
  pose proof (ceil_div_bounds n (IPT_TOPA_MAX_TABLE_ENTRIES - 1) HD) as B.
  apply ceil_div_unique; [lia|].
  set (q := ceil_div n (IPT_TOPA_MAX_TABLE_ENTRIES - 1)) in *.
  set (T := IPT_TOPA_MAX_TABLE_ENTRIES) in *.
  replace (T * (q - 1)) with ((T - 1) * (q - 1) + (q - 1)) by ring.
  replace (T * q) with ((T - 1) * q + q) by ring.
  lia.
Qed.

Lemma spec_table_count_eq n :
  table_entries_ok -> 1 <= n ->
  ceil_div (n + ceil_div (n - 1) (IPT_TOPA_MAX_TABLE_ENTRIES - 1)) IPT_TOPA_MAX_TABLE_ENTRIES
  = ceil_div n (IPT_TOPA_MAX_TABLE_ENTRIES - 1).
Proof.
  unfold table_entries_ok. intros HT Hn.
  assert (HD : 0 < IPT_TOPA_MAX_TABLE_ENTRIES - 1) by lia.
  pose proof (ceil_div_bounds n (IPT_TOPA_MAX_TABLE_ENTRIES - 1) HD) as B.
  pose proof (ceil_div_bounds (n-1) (IPT_TOPA_MAX_TABLE_ENTRIES - 1) HD) as B'.
  apply ceil_div_unique; [lia|].
  set (q := ceil_div n (IPT_TOPA_MAX_TABLE_ENTRIES - 1)) in *.
  set (q' := ceil_div (n - 1) (IPT_TOPA_MAX_TABLE_ENTRIES - 1)) in *.
  set (T := IPT_TOPA_MAX_TABLE_ENTRIES) in *.
  assert (q - 1 <= q' <= q) by nia.
  replace (T * (q - 1)) with ((T - 1) * (q - 1) + (q - 1)) by ring.
  replace (T * q) with ((T - 1) * q + q) by ring.
  lia.
Qed.

Lemma for_loop_ind {R S : Type} (P : Z -> S -> Prop) (Q : R -> Prop)
    (body : Z -> S -> loop_step R S) fuel i s :
  P i s ->
  (forall j t, i <= j < i + Z.of_nat fuel -> P j t ->
     match body j t with Return r => Q r | Continue t' => P (j + 1) t' end) ->
  match for_loop fuel i body s with
  | Return r => Q r
  | Continue s' => P (i + Z.of_nat fuel) s'
  end.
Proof.
  revert i s. induction fuel as [|k IH]; intros i s Hs Hstep; simpl.
  - replace (i + Z.of_nat 0) with i by lia. exact Hs.
  - pose proof (Hstep i s ltac:(lia) Hs) as Hb.
    destruct (body i s) as [r|s1]; [exact Hb|].
    replace (i + Z.of_nat (Datatypes.S k)) with ((i + 1) + Z.of_nat k) by lia.
    apply IH; [exact Hb|].
    intros j t Hj. apply Hstep. lia.
Qed.

Lemma for_u32_ind {R S : Type} (P : Z -> S -> Prop) (Q : R -> Prop)
    (body : Z -> S -> loop_step R S) lo hi s :
  lo <= hi ->
  P lo s ->
  (forall j t, lo <= j < hi -> P j t ->
     match body j t with Return r => Q r | Continue t' => P (j + 1) t' end) ->
  match for_u32 lo hi body s with
  | Return r => Q r
  | Continue s' => P hi s'
  end.
Proof.
  intros Hle Hs Hstep. unfold for_u32.
  pose proof (for_loop_ind P Q body (Z.to_nat (hi - lo)) lo s Hs) as L.
  replace (lo + Z.of_nat (Z.to_nat (hi - lo))) with hi in L by lia.
  apply L. intros j t Hj. apply Hstep. lia.
Qed.


Lemma is_ok_true st : is_ok st = true <-> st = ZX_OK.
Proof. destruct st; simpl; split; congruence. Qed.

Lemma alloc_chunk_loop w0 w num order :
  0 <= num < 2 ^ 32 ->
  (forall k, w_io w k = w_io w0 k) ->
  match for_u32 0 num (alloc_chunk_step order (Z.shiftl 1 order))
          (slot_with 0 0 false 0 (Some (replicate (Z.to_nat num) io_buffer_zero)) None,
           w) with
  | Return r =>
      status_of r <> ZX_OK /\
      (status_of r = ZX_ERR_INVALID_ARGS -> allocator_said_invalid w0)
  | Continue (p, w') =>
      exists cs, length cs = Z.to_nat num /\
                 p = slot_with num 0 false 0 (Some cs) None
  end.
Proof.
  intros Hnum Hw.
  set (P := fun (j : Z) (st : ipt_per_trace_state_t * world) =>
              (exists cs, length cs = Z.to_nat num /\
                          fst st = slot_with j 0 false 0 (Some cs) None) /\
              (forall k, w_io (snd st) k = w_io w0 (Z.to_nat j + k)%nat)).
  set (Q := fun r : zx_status_t * ipt_per_trace_state_t * world =>
              status_of r <> ZX_OK /\
              (status_of r = ZX_ERR_INVALID_ARGS -> allocator_said_invalid w0)).
  pose proof (for_u32_ind P Q (alloc_chunk_step order (Z.shiftl 1 order)) 0 num
    (slot_with 0 0 false 0 (Some (replicate (Z.to_nat num) io_buffer_zero)) None, w)
    ltac:(lia)) as L.
  match type of L with ?A -> ?B -> ?C => assert (HA : A); [|assert (HB : B);
     [|specialize (L HA HB)]] end.
  - split; simpl; [eexists; split; [apply length_replicate|reflexivity]|exact Hw].
  - intros j [p w1] Hj [[cs [Hlen Hp]] Hio]. simpl in Hp, Hio. subst p.
    unfold alloc_chunk_step, io_buffer_init_aligned, io_buffer_init.
    pose proof (Hio O) as Hio0.
    destruct (w_io w1 O) as [st [pa h]] eqn:Eio.
    destruct (is_ok st) eqn:Est; simpl.
    + match goal with |- context [negb (?c =? 0)] => destruct (c =? 0) end; simpl.
      * split; simpl.
        -- exists (<[Z.to_nat j:=mk_io_buffer pa h
                     (replicate (Z.to_nat (Z.shiftl 1 order * PAGE_SIZE / 8)) 0)]> cs).
           split; [rewrite length_insert; exact Hlen|].
           unfold slot_with, set_num_chunks, set_chunks; simpl.
           rewrite u32_small by lia. reflexivity.
        -- intros k. unfold tl_stream. rewrite Hio. f_equal. lia.
      * split; unfold status_of; simpl; congruence.
    + split; unfold status_of; simpl.
      * intros ->. discriminate.
      * intros ->. exists (Z.to_nat j + 0)%nat. rewrite <- Hio0. reflexivity.
  - destruct (for_u32 _ _ _ _) as [r|[p w']]; [exact L|].
    destruct L as [[cs [Hlen Hp]] _]. simpl in Hp. eauto.
Qed.

Lemma alloc_table_loop w cs num order circ nt :
  0 <= nt < 2 ^ 32 ->
  match for_u32 0 nt alloc_table_step
          (slot_with num order circ 0 (Some cs)
             (Some (replicate (Z.to_nat nt) io_buffer_zero)), w) with
  | Return r => status_of r = ZX_ERR_NO_MEMORY
  | Continue (p, w') =>
      exists ts, length ts = Z.to_nat nt /\ Forall zero_table ts /\
                 p = slot_built num order circ nt cs ts
  end.
Proof.
  intros Hnt.
  set (P := fun (j : Z) (st : ipt_per_trace_state_t * world) =>
              exists ts, length ts = Z.to_nat nt /\
                (forall t b, (t < Z.to_nat j)%nat -> ts !! t = Some b -> zero_table b) /\
                fst st = slot_built num order circ j cs ts).
  set (Q := fun r : zx_status_t * ipt_per_trace_state_t * world =>
              status_of r = ZX_ERR_NO_MEMORY).
  pose proof (for_u32_ind P Q alloc_table_step 0 nt
    (slot_with num order circ 0 (Some cs)
       (Some (replicate (Z.to_nat nt) io_buffer_zero)), w) ltac:(lia)) as L.
  match type of L with ?A -> ?B -> ?C => assert (HA : A); [|assert (HB : B);
     [|specialize (L HA HB)]] end.
  - eexists; split; [apply length_replicate|split; [|reflexivity]].
    intros t b Ht. lia.
  - intros j [p w1] Hj [ts [Hlen [Hz Hp]]]. simpl in Hp. subst p.
    unfold alloc_table_step, io_buffer_init.
    destruct (w_io w1 O) as [st [pa h]] eqn:Eio.
    destruct (is_ok st) eqn:Est; simpl; [|reflexivity].
    exists (<[Z.to_nat j:=mk_io_buffer pa h
               (replicate (Z.to_nat (8 * IPT_TOPA_MAX_TABLE_ENTRIES / 8)) 0)]> ts).
    split; [rewrite length_insert; exact Hlen|split].
    + intros t b Ht Hb.
      destruct (decide (t = Z.to_nat j)) as [->|Hne].
      * rewrite list_lookup_insert_eq in Hb by lia.
        inversion Hb; subst b. unfold zero_table; simpl.
        rewrite Z.mul_comm, Z.div_mul by lia. reflexivity.
      * rewrite list_lookup_insert_ne in Hb by congruence.
        apply (Hz t b); [lia|exact Hb].
    + unfold slot_built, slot_with, set_num_tables, set_topas; simpl.
      rewrite u32_small by lia. reflexivity.
  - destruct (for_u32 _ _ _ _) as [r|[p w']]; [exact L|].
    destruct L as [ts [Hlen [Hz Hp]]]. simpl in Hp.
    exists ts; split; [exact Hlen|split; [|exact Hp]].
    apply Forall_lookup. intros t b Hb. apply (Hz t b); [|exact Hb].
    apply lookup_lt_Some in Hb. lia.
Qed.


Lemma alloc_buffer1_spec w p0 num order circ :
  table_entries_ok -> 0 <= num <= MAX_NUM_CHUNKS ->
  let r := x86_pt_alloc_buffer1 caps w p0 num order circ in
  let nt := ceil_div num (IPT_TOPA_MAX_TABLE_ENTRIES - 1) in
  (status_of r = ZX_OK ->
     1 <= num /\
     exists cs ts, length cs = Z.to_nat num /\ length ts = Z.to_nat nt /\
       Forall zero_table ts /\
       snd (fst r) = make_topa (slot_built num order circ nt cs ts)) /\
  (status_of r = ZX_ERR_INVALID_ARGS -> num = 0 \/ allocator_said_invalid w).
Proof.
  intros HT Hnum r nt. subst r.
  pose proof HT as HT'. unfold table_entries_ok in HT'.
  pose proof Hnum as Hnum'. unfold MAX_NUM_CHUNKS in Hnum'.
  assert (HD : 0 < IPT_TOPA_MAX_TABLE_ENTRIES - 1) by lia.
  pose proof (ceil_div_bounds num _ HD) as Hnt. fold nt in Hnt.
  unfold x86_pt_alloc_buffer1, calloc.
  destruct (w_calloc w O) eqn:Ecal; cbn [negb fst snd];
    [|unfold status_of; cbn [fst]; repeat split; congruence].
  set (w1 := mk_world _ _ _ _ _ _ _).
  pose proof (alloc_chunk_loop w w1 num order ltac:(lia) ltac:(reflexivity)) as L1.
  change (set_chunks (Some (replicate (Z.to_nat num) io_buffer_zero)) per_trace_zero)
    with (slot_with 0 0 false 0 (Some (replicate (Z.to_nat num) io_buffer_zero)) None).
  destruct (for_u32 0 num _ _) as [r|[p w2]].
  { destruct L1 as [L1 L2]. split; [tauto|]. intros E. right. exact (L2 E). }
  destruct L1 as [cs [Hcs ->]].
  change (set_is_circular circ (set_chunk_order order (slot_with num 0 false 0 (Some cs) None)))
    with (slot_with num order circ 0 (Some cs) None).
  rewrite compute_topa_entry_count_eq by (cbn [num_chunks slot_with]; assumption).
  cbn [num_chunks slot_with]. fold nt.
  assert (Htc : u32 (num + nt + IPT_TOPA_MAX_TABLE_ENTRIES - 1) /
                u32 IPT_TOPA_MAX_TABLE_ENTRIES = nt).
  { rewrite !u32_small by nia.
    pose proof (table_count_eq num HT ltac:(lia)) as E. fold nt in E.
    unfold ceil_div in E at 1. exact E. }
  rewrite Htc.
  destruct (num + nt <? 2) eqn:Ecnt.
  { unfold status_of; cbn [fst]. split; [congruence|]. intros _. left.
    apply Z.ltb_lt in Ecnt. nia. }
  apply Z.ltb_ge in Ecnt.
  destruct (negb (ipt_config_output_topa_multi caps) && (2 <? num + nt)).
  { unfold status_of; cbn [fst]. split; congruence. }
  destruct (w_calloc w2 O); cbn [negb fst snd];
    [|unfold status_of; cbn [fst]; split; congruence].
  set (w3 := mk_world _ _ _ _ _ _ _).
  change (set_topas (Some (replicate (Z.to_nat nt) io_buffer_zero))
            (slot_with num order circ 0 (Some cs) None))
    with (slot_with num order circ 0 (Some cs)
            (Some (replicate (Z.to_nat nt) io_buffer_zero))).
  pose proof (alloc_table_loop w3 cs num order circ nt ltac:(nia)) as L2.
  destruct (for_u32 0 nt _ _) as [r|[p w4]].
  { unfold status_of in *. cbn [fst snd]. rewrite L2. split; intros E; discriminate E. }
  destruct L2 as [ts [Hts [Hz ->]]].
  unfold status_of; cbn [fst snd]. split; [|congruence].
  intros _. split; [nia|]. exists cs, ts. auto.
Qed.

Lemma alloc_buffer1_zero w p0 order circ :
  table_entries_ok -> w_calloc w O = true ->
  status_of (x86_pt_alloc_buffer1 caps w p0 0 order circ) = ZX_ERR_INVALID_ARGS.
Proof.
  intros HT Hc. pose proof HT as HT'. unfold table_entries_ok in HT'.
  unfold x86_pt_alloc_buffer1, calloc. rewrite Hc. cbn [negb fst snd].
  unfold for_u32. change (Z.to_nat (0 - 0)) with 0%nat. cbn [for_loop].
  rewrite compute_topa_entry_count_eq
    by (cbn; unfold MAX_NUM_CHUNKS; first [assumption | lia]).
  cbn [num_chunks set_is_circular set_chunk_order set_chunks per_trace_zero].
  assert (E : ceil_div 0 (IPT_TOPA_MAX_TABLE_ENTRIES - 1) = 0).
  { apply ceil_div_unique; lia. }
  rewrite E. reflexivity.
Qed.

(** *** Tables as two-level arrays *)

Lemma table_write_spec a nt t e v :
  well_shaped a nt -> 0 <= t < nt -> 0 <= e < IPT_TOPA_MAX_TABLE_ENTRIES ->
  well_shaped (table_write a t e v) nt /\
  (forall t', phys_at (table_write a t e v) t' = phys_at a t') /\
  (forall t' e', 0 <= t' -> 0 <= e' ->
     table_read (table_write a t e v) t' e' =
     if (t' =? t) && (e' =? e) then v else table_read a t' e').
Proof.
  intros [ts [-> [Hlen Hsh]]] Ht He.
  assert (Hin : (Z.to_nat t < length ts)%nat) by lia.
  destruct (lookup_lt_is_Some_2 ts _ Hin) as [b Hb].
  assert (Hbl : length (io_virt b) = Z.to_nat IPT_TOPA_MAX_TABLE_ENTRIES).
  { rewrite Forall_lookup in Hsh. exact (Hsh _ _ Hb). }
  unfold table_write, buf_store, buf_at. rewrite Hb. cbn.
  split; [|split].
  - eexists; split; [reflexivity|]. split; [rewrite length_insert; exact Hlen|].
    apply Forall_insert; [exact Hsh|]. cbn. rewrite length_insert. exact Hbl.
  - intros t'. unfold phys_at, buf_at.
    destruct (decide (Z.to_nat t' = Z.to_nat t)) as [E|E].
    + rewrite E, list_lookup_insert_eq, Hb by exact Hin. reflexivity.
    + rewrite list_lookup_insert_ne by congruence. reflexivity.
  - intros t' e' Ht' He'. unfold table_read, buf_at.
    destruct (Z.eqb_spec t' t) as [->|Hne]; cbn [andb].
    + rewrite list_lookup_insert_eq, Hb by exact Hin. cbn.
      destruct (Z.eqb_spec e' e) as [->|Hne'].
      * rewrite list_lookup_insert_eq by lia. reflexivity.
      * rewrite list_lookup_insert_ne by lia. reflexivity.
    + rewrite list_lookup_insert_ne by lia. reflexivity.
Qed.

Lemma zero_tables_read ts t e :
  Forall zero_table ts -> table_read (Some ts) t e = 0.
Proof.
  intros Hz. unfold table_read, buf_at.
  destruct (ts !! Z.to_nat t) as [b|] eqn:Hb; cbn.
  - rewrite Forall_lookup in Hz. rewrite (Hz _ _ Hb).
    destruct (replicate _ 0 !! Z.to_nat e) as [x|] eqn:Hx; [|reflexivity].
    apply lookup_replicate in Hx. cbn. tauto.
  - destruct (Z.to_nat e); reflexivity.
Qed.

Lemma zero_tables_shaped ts nt :
  length ts = Z.to_nat nt -> Forall zero_table ts -> well_shaped (Some ts) nt.
Proof.
  intros Hlen Hz. exists ts. split; [reflexivity|split; [exact Hlen|]].
  eapply Forall_impl; [exact Hz|]. intros b Hb. unfold zero_table in Hb.
  rewrite Hb. apply length_replicate.
Qed.

(** *** What make_topa writes *)

Lemma position_unique D t e t' e' :
  0 <= e < D -> 0 <= e' < D -> t * D + e = t' * D + e' -> t = t' /\ e = e'.
Proof.
  intros He He' E.
  assert (t = t') by nia. subst t'. lia.
Qed.

Lemma make_topa_data_loop q ts nt n :
  table_entries_ok ->
  0 <= n <= nt * (IPT_TOPA_MAX_TABLE_ENTRIES - 1) -> 0 <= nt < 2 ^ 31 ->
  well_shaped (Some ts) nt -> (forall t e, table_read (Some ts) t e = 0) ->
  exists c, for_u32 0 n (make_topa_data_step q) (mk_cursor (Some ts) 0 0 None)
            = Continue c /\ data_inv q ts nt n c.
Proof.
  intros HT Hn Hnt Hsh Hzero. pose proof HT as HT'. unfold table_entries_ok in HT'.
  pose proof (for_u32_ind (data_inv q ts nt) (fun _ : unit => False)
                (make_topa_data_step q) 0 n (mk_cursor (Some ts) 0 0 None)
                ltac:(lia)) as L.
  match type of L with ?A -> ?B -> ?C => assert (HA : A); [|assert (HB : B);
     [|specialize (L HA HB)]] end.
  - unfold data_inv; cbn [tc_topas curr_table curr_idx last_entry].
    repeat split; try lia; try assumption.
    intros t e Ht He. rewrite Hzero.
    destruct (e <? _); cbn [andb]; [|reflexivity].
    destruct (Z.ltb_spec (t * (IPT_TOPA_MAX_TABLE_ENTRIES - 1) + e) 0); [nia|reflexivity].
  - intros j c Hj (Hs & Hp & Hct & Hci & Hpos & Hlast & Hread).
    set (D := IPT_TOPA_MAX_TABLE_ENTRIES - 1) in *.
    assert (Hctn : curr_table c < nt) by nia.
    destruct (table_write_spec (tc_topas c) nt (curr_table c) (curr_idx c)
                (topa_data_entry q j) Hs ltac:(lia) ltac:(lia)) as (Hs' & Hp' & Hr').
    assert (Hread' : forall t e, 0 <= t -> 0 <= e ->
      table_read (table_write (tc_topas c) (curr_table c) (curr_idx c)
                    (topa_data_entry q j)) t e =
      if (e <? D) && (t * D + e <? j + 1) then topa_data_entry q (t * D + e) else 0).
    { intros t e Ht He. rewrite Hr', Hread by assumption.
      destruct (Z.eqb_spec t (curr_table c)) as [->|Ne1]; cbn [andb].
      - destruct (Z.eqb_spec e (curr_idx c)) as [->|Ne2].
        + destruct (Z.ltb_spec (curr_idx c) D); [|lia]. cbn [andb].
          destruct (Z.ltb_spec (curr_table c * D + curr_idx c) (j + 1)); [|lia].
          rewrite Hpos. reflexivity.
        + destruct (Z.ltb_spec e D); cbn [andb]; [|reflexivity].
          destruct (Z.ltb_spec (curr_table c * D + e) j),
                   (Z.ltb_spec (curr_table c * D + e) (j + 1));
            try reflexivity; lia.
      - destruct (Z.ltb_spec e D); cbn [andb]; [|reflexivity].
        destruct (Z.ltb_spec (t * D + e) j), (Z.ltb_spec (t * D + e) (j + 1));
          try reflexivity; try lia.
        exfalso. apply Ne1.
        apply (position_unique D t e (curr_table c) (curr_idx c)); lia. }
    unfold make_topa_data_step. fold D.
    replace (u32 (IPT_TOPA_MAX_TABLE_ENTRIES - 2)) with (D - 1)
      by (rewrite u32_small; subst D; lia).
    destruct (Z.leb_spec (D - 1) (curr_idx c)) as [Hwrap|Hnowrap].
    + unfold data_inv; cbn [tc_topas curr_table curr_idx last_entry]. fold D.
      rewrite u32_small by lia.
      repeat split; try lia; try assumption.
      * intros t. rewrite Hp'. apply Hp.
      * intros _. exists (curr_table c), (curr_idx c). repeat split; lia.
    + unfold data_inv; cbn [tc_topas curr_table curr_idx last_entry]. fold D.
      rewrite u32_small by lia.
      repeat split; try lia; try assumption.
      * intros t. rewrite Hp'. apply Hp.
      * intros _. exists (curr_table c), (curr_idx c). repeat split; lia.
  - destruct (for_u32 0 n _ _) as [r|c]; [contradiction|]. eauto.
Qed.

Lemma make_topa_end_loop q ts nt tabs0 ct :
  table_entries_ok -> num_tables q = nt -> 0 <= ct <= nt -> nt < 2 ^ 31 ->
  well_shaped tabs0 nt -> (forall t, phys_at tabs0 t = phys_at (Some ts) t) ->
  exists tabs,
    for_u32 0 ct (make_topa_end_step q) tabs0 = Continue tabs /\
    well_shaped tabs nt /\
    (forall t, phys_at tabs t = phys_at (Some ts) t) /\
    (forall t e, 0 <= t -> 0 <= e ->
       table_read tabs t e =
       if (e =? IPT_TOPA_MAX_TABLE_ENTRIES - 1) && (t <? ct)
       then topa_end_entry (phys_at (Some ts) ((t + 1) mod nt))
       else table_read tabs0 t e).
Proof.
  intros HT Hq Hct Hnt Hsh Hph. pose proof HT as HT'. unfold table_entries_ok in HT'.
  set (D := IPT_TOPA_MAX_TABLE_ENTRIES - 1) in *.
  set (P := fun (i : Z) (tabs : option (list io_buffer_t)) =>
    well_shaped tabs nt /\
    (forall t, phys_at tabs t = phys_at (Some ts) t) /\
    (forall t e, 0 <= t -> 0 <= e ->
       table_read tabs t e =
       if (e =? D) && (t <? i)
       then topa_end_entry (phys_at (Some ts) ((t + 1) mod nt))
       else table_read tabs0 t e)).
  pose proof (for_u32_ind P (fun _ : unit => False) (make_topa_end_step q) 0 ct tabs0
                ltac:(lia)) as L.
  match type of L with ?A -> ?B -> ?C => assert (HA : A); [|assert (HB : B);
     [|specialize (L HA HB)]] end.
  - split; [exact Hsh|split; [exact Hph|]].
    intros t e Ht He. destruct (e =? D); cbn [andb]; [|reflexivity].
    destruct (Z.ltb_spec t 0); [lia|reflexivity].
  - intros i tabs Hi (Hs & Hp & Hr).
    unfold make_topa_end_step. rewrite Hq.
    rewrite (u32_small (nt - 1)) by lia.
    replace (u32 (IPT_TOPA_MAX_TABLE_ENTRIES - 1)) with D
      by (rewrite u32_small; subst D; lia).
    assert (Enext : io_phys (if i =? nt - 1 then buf_at tabs 0 else buf_at tabs (i + 1))
                    = phys_at (Some ts) ((i + 1) mod nt)).
    { destruct (Z.eqb_spec i (nt - 1)) as [->|Hne].
      - replace (nt - 1 + 1) with nt by lia. rewrite Z_mod_same_full. apply Hp.
      - rewrite Z.mod_small by lia. apply Hp. }
    rewrite Enext. fold (topa_end_entry (phys_at (Some ts) ((i + 1) mod nt))).
    destruct (table_write_spec tabs nt i D
                (topa_end_entry (phys_at (Some ts) ((i + 1) mod nt)))
                Hs ltac:(lia) ltac:(subst D; lia)) as (Hs' & Hp' & Hr').
    split; [exact Hs'|split].
    + intros t. rewrite Hp'. apply Hp.
    + intros t e Ht He. rewrite Hr', Hr by assumption.
      destruct (Z.eqb_spec t i) as [->|Ne1]; cbn [andb].
      * destruct (Z.eqb_spec e D) as [->|Ne2]; cbn [andb].
        -- destruct (Z.ltb_spec i (i + 1)); [reflexivity|lia].
        -- reflexivity.
      * destruct (e =? D); cbn [andb]; [|reflexivity].
        destruct (Z.ltb_spec t i), (Z.ltb_spec t (i + 1)); try reflexivity; lia.
  - destruct (for_u32 0 ct _ _) as [r|tabs]; [contradiction|].
    exists tabs. split; [reflexivity|exact L].
Qed.

Lemma make_topa_spec n order circ cs ts :
  table_entries_ok -> 1 <= n <= MAX_NUM_CHUNKS ->
  let nt := ceil_div n (IPT_TOPA_MAX_TABLE_ENTRIES - 1) in
  let q := slot_built n order circ nt cs ts in
  length ts = Z.to_nat nt -> Forall zero_table ts ->
  exists tabs,
    make_topa q = set_topas tabs q /\
    well_shaped tabs nt /\
    (forall t, phys_at tabs t = phys_at (Some ts) t) /\
    (forall t e, 0 <= t < nt -> 0 <= e < IPT_TOPA_MAX_TABLE_ENTRIES ->
       table_read tabs t e = topa_expected q t e).
Proof.
  intros HT Hn nt q Hlen Hz.
  pose proof HT as HT'. unfold table_entries_ok in HT'.
  pose proof Hn as Hn'. unfold MAX_NUM_CHUNKS in Hn'.
  set (D := IPT_TOPA_MAX_TABLE_ENTRIES - 1) in *.
  assert (HD : 0 < D) by (subst D; lia).
  assert (HDT : D + 1 = IPT_TOPA_MAX_TABLE_ENTRIES) by (subst D; lia).
  pose proof (ceil_div_bounds n D HD) as Bnt. fold nt in Bnt.
  assert (Hnt : 1 <= nt <= n) by nia.
  destruct (make_topa_data_loop q ts nt n HT ltac:(fold D; lia) ltac:(lia)
              (zero_tables_shaped ts nt Hlen Hz)
              (fun t e => zero_tables_read ts t e Hz))
    as (c & Ec & Hs1 & Hp1 & Hct & Hci & Hpos & Hlast & Hr1).
  fold D in Hci, Hpos, Hlast, Hr1.
  assert (Hctnt : curr_table c <= nt) by nia.
  destruct (make_topa_end_loop q ts nt (tc_topas c) (curr_table c) HT eq_refl
              ltac:(lia) ltac:(lia) Hs1 Hp1)
    as (tabs2 & E2 & Hs2 & Hp2 & Hr2).
  fold D in Hr2.
  unfold make_topa.
  change (num_chunks q) with n. change (topas q) with (Some ts).
  change (num_tables q) with nt. change (is_circular q) with circ.
  rewrite Ec. cbn [loop_result]. rewrite E2. cbn [loop_result].
  (* the END entry of a last table that is not full *)
  set (tabs3 := if curr_table c <? nt
                then table_write tabs2 (curr_table c) (curr_idx c)
                       (Z.lor (IPT_TOPA_ENTRY_PHYS_ADDR (io_phys (buf_at tabs2 0)))
                              IPT_TOPA_ENTRY_END)
                else tabs2).
  assert (H3 : well_shaped tabs3 nt /\
               (forall t, phys_at tabs3 t = phys_at (Some ts) t) /\
               (forall t e, 0 <= t -> 0 <= e ->
                  table_read tabs3 t e =
                  if (curr_table c <? nt) && (t =? curr_table c) && (e =? curr_idx c)
                  then topa_end_entry (phys_at (Some ts) 0)
                  else table_read tabs2 t e)).
  { subst tabs3. destruct (Z.ltb_spec (curr_table c) nt) as [Hlt|Hge]; cbn [andb].
    - change (io_phys (buf_at tabs2 0)) with (phys_at tabs2 0). rewrite Hp2.
      fold (topa_end_entry (phys_at (Some ts) 0)).
      destruct (table_write_spec tabs2 nt (curr_table c) (curr_idx c)
                  (topa_end_entry (phys_at (Some ts) 0)) Hs2 ltac:(lia)
                  ltac:(lia)) as (Hs' & Hp' & Hr').
      split; [exact Hs'|split].
      + intros t. rewrite Hp'. apply Hp2.
      + exact Hr'.
    - split; [exact Hs2|split; [exact Hp2|reflexivity]]. }
  destruct H3 as (Hs3 & Hp3 & Hr3).
  destruct (Hlast ltac:(lia)) as (lt & li & El & Hlt & Hli & Hlpos).
  rewrite El.
  assert (Hltnt : lt < nt) by nia.
  set (tabs4 := if negb circ
                then table_write tabs3 lt li
                       (Z.lor (table_read tabs3 lt li) IPT_TOPA_ENTRY_STOP)
                else tabs3).
  assert (H4 : well_shaped tabs4 nt /\
               (forall t, phys_at tabs4 t = phys_at (Some ts) t) /\
               (forall t e, 0 <= t -> 0 <= e ->
                  table_read tabs4 t e =
                  if negb circ && (t =? lt) && (e =? li)
                  then Z.lor (table_read tabs3 lt li) IPT_TOPA_ENTRY_STOP
                  else table_read tabs3 t e)).
  { subst tabs4. destruct circ; cbn [negb andb].
    - split; [exact Hs3|split; [exact Hp3|reflexivity]].
    - destruct (table_write_spec tabs3 nt lt li
                  (Z.lor (table_read tabs3 lt li) IPT_TOPA_ENTRY_STOP) Hs3 ltac:(lia)
                  ltac:(lia)) as (Hs' & Hp' & Hr').
      split; [exact Hs'|split].
      + intros t. rewrite Hp'. apply Hp3.
      + exact Hr'. }
  destruct H4 as (Hs4 & Hp4 & Hr4).
  exists tabs4. split; [reflexivity|split; [exact Hs4|split; [exact Hp4|]]].
  intros t e Ht He.
  assert (Elast : table_read tabs3 lt li = topa_data_entry q (n - 1)).
  { rewrite Hr3, Hr2, Hr1 by lia.
    destruct (Z.eqb_spec lt (curr_table c)) as [E1|N1];
      destruct (Z.eqb_spec li (curr_idx c)) as [E3|N3];
      destruct (Z.ltb_spec (curr_table c) nt); cbn [andb]; try lia.
    all: destruct (Z.eqb_spec li D); [lia|]; cbn [andb].
    all: destruct (Z.ltb_spec li D); [|lia]; cbn [andb].
    all: destruct (Z.ltb_spec (lt * D + li) n); [|lia].
    all: rewrite Hlpos; reflexivity. }
  rewrite Hr4, Elast, Hr3, Hr2, Hr1 by lia.
  unfold topa_expected. fold D.
  change (num_chunks q) with n. change (topas q) with (Some ts).
  change (num_tables q) with nt. change (is_circular q) with circ.
  destruct (Z.ltb_spec e D) as [HeD|HeD].
  - (* a slot for data *)
    destruct (Z.eqb_spec e D); [lia|]. cbn [andb].
    destruct (Z.ltb_spec (t * D + e) n) as [Hg|Hg].
    + (* data entry *)
      assert (Hne : ((curr_table c <? nt) && (t =? curr_table c) && (e =? curr_idx c)) = false).
      { destruct (Z.eqb_spec t (curr_table c)), (Z.eqb_spec e (curr_idx c));
          rewrite ?andb_false_r; try reflexivity. subst. lia. }
      rewrite Hne.
      destruct (Z.eqb_spec (t * D + e) (n - 1)) as [Eg|Ng]; cbn [andb].
      * destruct (position_unique D t e lt li ltac:(lia) ltac:(lia) ltac:(lia))
          as [-> ->].
        rewrite !Z.eqb_refl, !andb_true_r, Hlpos. destruct circ; reflexivity.
      * assert (Hne2 : (negb circ && (t =? lt) && (e =? li)) = false).
        { destruct (Z.eqb_spec t lt), (Z.eqb_spec e li);
            rewrite ?andb_false_r; try reflexivity. subst. lia. }
        rewrite Hne2. reflexivity.
    + assert (Hne2 : (negb circ && (t =? lt) && (e =? li)) = false).
      { destruct (Z.eqb_spec t lt), (Z.eqb_spec e li);
          rewrite ?andb_false_r; try reflexivity. subst. lia. }
      rewrite Hne2.
      destruct (Z.eqb_spec (t * D + e) n) as [Eg|Ng].
      * destruct (position_unique D t e (curr_table c) (curr_idx c)
                    ltac:(lia) ltac:(lia) ltac:(lia)) as [-> ->].
        rewrite !Z.eqb_refl. destruct (Z.ltb_spec (curr_table c) nt); [|lia].
        reflexivity.
      * assert (Hne : ((curr_table c <? nt) && (t =? curr_table c) && (e =? curr_idx c)) = false).
        { destruct (Z.eqb_spec t (curr_table c)), (Z.eqb_spec e (curr_idx c));
            rewrite ?andb_false_r; try reflexivity. subst. lia. }
        rewrite Hne. reflexivity.
  - (* the last slot of the table *)
    assert (e = D) by lia. subst e.
    assert (Hne2 : (negb circ && (t =? lt) && (D =? li)) = false).
    { destruct (Z.eqb_spec D li); rewrite ?andb_false_r; [lia|reflexivity]. }
    assert (Hne : ((curr_table c <? nt) && (t =? curr_table c) && (D =? curr_idx c)) = false).
    { destruct (Z.eqb_spec D (curr_idx c)); rewrite ?andb_false_r; [lia|reflexivity]. }
    rewrite Hne2, Hne, Z.eqb_refl. cbn [andb].
    destruct (Z.ltb_spec D D); [lia|]. cbn [andb].
    destruct (Z.ltb_spec t (curr_table c)), (Z.leb_spec ((t + 1) * D) n);
      try reflexivity; exfalso.
    + assert ((t + 1) * D <= curr_table c * D)
        by (apply Z.mul_le_mono_nonneg_r; lia).
      lia.
    + assert ((curr_table c + 1) * D <= (t + 1) * D)
        by (apply Z.mul_le_mono_nonneg_r; lia).
      lia.
Qed.

End Proofs.

(** ** Buffers: allocation, tables, capture *)

Section Buffers.
Context {hdr : intel_pt_h}.
Variable caps : ipt_config_t.

Lemma find_unallocated_spec dev :
  0 <= num_traces dev ->
  find_unallocated dev = num_traces dev \/
  (0 <= find_unallocated dev < num_traces dev /\
   allocated (slot_at dev (find_unallocated dev)) = false).
Proof.
  intros Hn. unfold find_unallocated.
  pose proof (for_u32_ind (fun _ (_ : unit) => True)
                (fun d => 0 <= d < num_traces dev /\ allocated (slot_at dev d) = false)
                (fun descriptor (_ : unit) =>
                   if negb (allocated (slot_at dev descriptor))
                   then Return descriptor else Continue tt)
                0 (num_traces dev) tt Hn I) as L.
  match type of L with ?B -> ?C => assert (HB : B); [|specialize (L HB)] end.
  - intros j [] Hj _. destruct (allocated (slot_at dev j)) eqn:E; cbn [negb]; [exact I|].
    split; [lia|exact E].
  - destruct (for_u32 _ _ _ _) as [d|u]; [right; exact L|left; reflexivity].
Qed.

Lemma slot_at_store dev d p :
  device_wf dev -> 0 <= d < num_traces dev ->
  slot_at (slot_store dev d p) d = p.
Proof.
  intros [Hn Hl] Hd. unfold slot_at, slot_store.
  destruct (per_trace_state dev) as [l|]; [|contradiction].
  cbn. rewrite list_lookup_insert_eq by lia. reflexivity.
Qed.

Ltac step_if E :=
  match type of E with
  | (if ?c then _ else _) = _ =>
      let H := fresh "Hc" in
      destruct c eqn:H; cbv iota in E; [discriminate E|]
  end.

(** C1 (amended): the table count of a successful alloc_buffer, with one
    END entry per table. *)
Theorem alloc_buffer_table_count w dev config d dev' w' :
  table_entries_ok -> device_wf dev ->
  1 <= bc_num_chunks config <= MAX_NUM_CHUNKS ->
  x86_pt_alloc_buffer caps w dev config = (ZX_OK, d, dev', w') ->
  let n := bc_num_chunks config in
  let num_end_entries := ceil_div n (IPT_TOPA_MAX_TABLE_ENTRIES - 1) in
  num_chunks (slot_at dev' d) = n /\
  num_tables (slot_at dev' d)
    = ceil_div (n + num_end_entries) IPT_TOPA_MAX_TABLE_ENTRIES /\
  num_tables (slot_at dev' d) = spec_num_tables n /\
  2 <= n + num_end_entries /\
  (forall w1 p1 num order circ,
     0 <= num <= MAX_NUM_CHUNKS ->
     num + ceil_div num (IPT_TOPA_MAX_TABLE_ENTRIES - 1) < 2 ->
     w_calloc w1 O = true ->
     status_of (x86_pt_alloc_buffer1 caps w1 p1 num order circ) = ZX_ERR_INVALID_ARGS).
Proof.
  intros HT Hwf Hn E n nee.
  pose proof HT as HT'. unfold table_entries_ok in HT'.
  assert (HD : 0 < IPT_TOPA_MAX_TABLE_ENTRIES - 1) by lia.
  pose proof (ceil_div_bounds n _ HD) as Bnee. fold nee in Bnee.
  unfold x86_pt_alloc_buffer in E.
  do 5 step_if E.
  unfold x86_pt_alloc_buffer_slot in E. fold n in E.
  pose proof (find_unallocated_spec dev (proj1 Hwf)) as Hd.
  step_if E. apply Z.eqb_neq in Hc4.
  destruct Hd as [Hd|[Hd _]]; [contradiction|].
  pose proof (alloc_buffer1_spec caps w per_trace_zero n (bc_chunk_order config)
                (bc_is_circular config) HT ltac:(fold n in Hn; lia)) as [S1 _].
  destruct (x86_pt_alloc_buffer1 caps w per_trace_zero n _ _) as [[st p] w1].
  unfold status_of in S1. cbn [fst snd] in S1.
  cbv beta iota zeta in E.
  destruct (is_ok st) eqn:Est; cbn [negb] in E; cbv iota in E;
    [|injection E as E _ _; rewrite E in Est; discriminate Est].
  apply is_ok_true in Est. specialize (S1 Est).
  destruct S1 as (_ & cs & ts & Hcs & Hts & Hz & ->).
  injection E as <- <- <-.
  rewrite slot_at_store by assumption.
  destruct (make_topa_spec n (bc_chunk_order config) (bc_is_circular config) cs ts
              HT ltac:(fold n in Hn; lia) Hts Hz) as (tabs & -> & _).
  cbn [num_chunks num_tables set_allocated set_regs set_topas slot_built slot_with].
  fold nee.
  split; [reflexivity|]. split.
  { symmetry. apply table_count_eq; [exact HT|lia]. }
  split.
  { unfold spec_num_tables, spec_entry_count, spec_num_end_entries.
    symmetry. apply spec_table_count_eq; [exact HT|lia]. }
  split; [nia|].
  intros w1' p1 num order circ Hnum Hcnt Hcal.
  assert (num = 0).
  { pose proof (ceil_div_bounds num _ HD). nia. }
  subst num. apply alloc_buffer1_zero; assumption.
Qed.

Lemma alloc_buffer1_tables w p0 num order circ p w' :
  table_entries_ok -> 1 <= num <= MAX_NUM_CHUNKS ->
  x86_pt_alloc_buffer1 caps w p0 num order circ = (ZX_OK, p, w') ->
  num_chunks p = num /\ chunk_order p = order /\ is_circular p = circ /\
  num_tables p = ceil_div num (IPT_TOPA_MAX_TABLE_ENTRIES - 1) /\
  1 <= num_tables p <= num /\
  (IPT_TOPA_MAX_TABLE_ENTRIES - 1) * (num_tables p - 1) < num
     <= (IPT_TOPA_MAX_TABLE_ENTRIES - 1) * num_tables p /\
  well_shaped (topas p) (num_tables p) /\
  (forall t e, 0 <= t < num_tables p -> 0 <= e < IPT_TOPA_MAX_TABLE_ENTRIES ->
     table_read (topas p) t e = topa_expected p t e).
Proof.
  intros HT Hn E. pose proof HT as HT'. unfold table_entries_ok in HT'.
  assert (HD : 0 < IPT_TOPA_MAX_TABLE_ENTRIES - 1) by lia.
  pose proof (ceil_div_bounds num _ HD) as B.
  pose proof (alloc_buffer1_spec caps w p0 num order circ HT ltac:(lia)) as [S1 _].
  rewrite E in S1. unfold status_of in S1. cbn [fst snd] in S1.
  destruct (S1 eq_refl) as (_ & cs & ts & Hcs & Hts & Hz & ->).
  destruct (make_topa_spec num order circ cs ts HT Hn Hts Hz)
    as (tabs & -> & Hsh & Hph & Hrd).
  cbn [num_chunks chunk_order is_circular num_tables topas set_topas slot_built slot_with].
  repeat split; try reflexivity; try nia; try exact Hsh.
  intros t e Ht He. rewrite Hrd by assumption.
  unfold topa_expected, topa_data_entry.
  cbn [num_chunks chunk_order is_circular num_tables topas chunks set_topas
       slot_built slot_with].
  rewrite !Hph. reflexivity.
Qed.

(** C10: with num_chunks past the range check the entry count is at
    least num_chunks + 1, so the test [entry_count < 2] is never true; an
    ZX_ERR_INVALID_ARGS out of x86_pt_alloc_buffer1 is then the allocator's. *)
Theorem entry_count_guard_unreachable n :
  table_entries_ok ->
  0 <= n < 2 ^ 32 ->
  (n =? 0) || (MAX_NUM_CHUNKS <? n) = false ->
  (forall p, num_chunks p = n ->
     n + 1 <= compute_topa_entry_count p /\
     2 <= compute_topa_entry_count p /\
     (compute_topa_entry_count p <? 2) = false) /\
  (forall w p0 order circ,
     status_of (x86_pt_alloc_buffer1 caps w p0 n order circ) = ZX_ERR_INVALID_ARGS ->
     allocator_said_invalid w).
Proof.
  intros HT Hu Hrange. pose proof HT as HT'. unfold table_entries_ok in HT'.
  apply orb_false_iff in Hrange. destruct Hrange as [H0 HM].
  apply Z.eqb_neq in H0. apply Z.ltb_ge in HM.
  assert (HD : 0 < IPT_TOPA_MAX_TABLE_ENTRIES - 1) by lia.
  pose proof (ceil_div_bounds n _ HD) as B.
  split.
  - intros p Hp. rewrite compute_topa_entry_count_eq by (rewrite ?Hp; first [assumption|lia]).
    rewrite Hp.
    assert (1 <= ceil_div n (IPT_TOPA_MAX_TABLE_ENTRIES - 1)) by nia.
    repeat split; lia.
  - intros w p0 order circ E.
    destruct (alloc_buffer1_spec caps w p0 n order circ HT ltac:(lia)) as [_ S2].
    destruct (S2 E) as [?|?]; [lia|assumption].
Qed.

(** C5 (amended): every table ends in an END entry that links to the
    next table of the ring; it sits in the last slot of a full table and
    right after the last chunk in a last table that is not full. *)
Theorem topa_ring_links w p0 num order circ p w' :
  table_entries_ok -> 1 <= num <= MAX_NUM_CHUNKS ->
  x86_pt_alloc_buffer1 caps w p0 num order circ = (ZX_OK, p, w') ->
  forall i, 0 <= i < num_tables p ->
    let D := IPT_TOPA_MAX_TABLE_ENTRIES - 1 in
    let end_slot := if (i + 1) * D <=? num then D else num - i * D in
    0 <= end_slot <= D /\
    (end_slot < D -> i = num_tables p - 1) /\
    table_read (topas p) i end_slot
      = topa_end_entry (phys_at (topas p) ((i + 1) mod num_tables p)).
Proof.
  intros HT Hn E i Hi D end_slot. pose proof HT as HT'. unfold table_entries_ok in HT'.
  destruct (alloc_buffer1_tables w p0 num order circ p w' HT Hn E)
    as (Hnc & _ & _ & _ & Hnt & B & _ & Hrd).
  fold D in B.
  assert (HD : 0 < D) by (unfold D; lia).
  assert (HDT : D + 1 = IPT_TOPA_MAX_TABLE_ENTRIES) by (unfold D; lia).
  subst end_slot.
  destruct (Z.leb_spec ((i + 1) * D) num) as [Hfull|Hpart].
  - split; [lia|split; [lia|]].
    rewrite Hrd by lia. unfold topa_expected. fold D. rewrite Hnc.
    destruct (Z.ltb_spec D D); [lia|].
    destruct (Z.leb_spec ((i + 1) * D) num); [reflexivity|lia].
  - assert (Hlast : i = num_tables p - 1) by nia.
    split; [nia|split; [intros _; exact Hlast|]].
    rewrite Hrd by nia. unfold topa_expected. fold D. rewrite Hnc.
    destruct (Z.ltb_spec (num - i * D) D); [|nia].
    replace (i * D + (num - i * D)) with num by lia.
    rewrite Z.ltb_irrefl, Z.eqb_refl.
    replace (i + 1) with (num_tables p) by lia.
    rewrite Z_mod_same_full. reflexivity.
Qed.

Lemma has_stop_data q g :
  stop_bit_layout -> has_stop (topa_data_entry q g) = false.
Proof.
  intros L. unfold has_stop, topa_data_entry.
  rewrite Z.land_lor_distr_l, (stop_not_in_addr L), (stop_not_in_size L).
  reflexivity.
Qed.

Lemma has_stop_data_stop q g :
  stop_bit_layout ->
  has_stop (Z.lor (topa_data_entry q g) IPT_TOPA_ENTRY_STOP) = true.
Proof.
  intros L. pose proof (has_stop_data q g L) as H. unfold has_stop in *.
  rewrite Z.land_lor_distr_l, Z.land_diag.
  destruct (Z.eqb_spec (Z.land (topa_data_entry q g) IPT_TOPA_ENTRY_STOP) 0) as [E|];
    [|discriminate H].
  rewrite E, Z.lor_0_l.
  destruct (Z.eqb_spec IPT_TOPA_ENTRY_STOP 0) as [E0|]; [|reflexivity].
  exfalso. exact (stop_nonzero L E0).
Qed.

Lemma has_stop_end pa : stop_bit_layout -> has_stop (topa_end_entry pa) = false.
Proof.
  intros L. unfold has_stop, topa_end_entry.
  rewrite Z.land_lor_distr_l, (stop_not_in_addr L), (stop_not_in_end L).
  reflexivity.
Qed.

(** C6: STOP is on the last data entry exactly when the buffer is not
    circular, and on no other slot of any table. *)
Theorem topa_stop_bit w p0 num order circ p w' :
  table_entries_ok -> stop_bit_layout -> 1 <= num <= MAX_NUM_CHUNKS ->
  x86_pt_alloc_buffer1 caps w p0 num order circ = (ZX_OK, p, w') ->
  forall t e, 0 <= t < num_tables p -> 0 <= e < IPT_TOPA_MAX_TABLE_ENTRIES ->
    has_stop (table_read (topas p) t e) =
    negb circ && (e <? IPT_TOPA_MAX_TABLE_ENTRIES - 1) &&
    (t * (IPT_TOPA_MAX_TABLE_ENTRIES - 1) + e =? num - 1).
Proof.
  intros HT L Hn E t e Ht He.
  destruct (alloc_buffer1_tables w p0 num order circ p w' HT Hn E)
    as (Hnc & _ & Hc & _ & _ & _ & _ & Hrd).
  rewrite Hrd by assumption. unfold topa_expected. rewrite Hnc, Hc.
  set (D := IPT_TOPA_MAX_TABLE_ENTRIES - 1).
  destruct (Z.ltb_spec e D); rewrite ?andb_true_r, ?andb_false_r; cbn [andb].
  - destruct (Z.ltb_spec (t * D + e) num).
    + destruct (Z.eqb_spec (t * D + e) (num - 1)); cbn [andb].
      * destruct circ; cbn [negb].
        -- apply has_stop_data; exact L.
        -- apply has_stop_data_stop; exact L.
      * rewrite andb_false_r. apply has_stop_data; exact L.
    + destruct (Z.eqb_spec (t * D + e) (num - 1)); [lia|]. rewrite andb_false_r.
      destruct (t * D + e =? num); [apply has_stop_end; exact L|reflexivity].
  - destruct (_ <=? _); [apply has_stop_end; exact L|reflexivity].
Qed.

Lemma capture_walk_table_spec pt j total s :
  table_entries_ok ->
  let D := IPT_TOPA_MAX_TABLE_ENTRIES - 1 in
  let idx := Z.shiftr (u32 (output_mask_ptrs pt)) 7 in
  let off := u32 (Z.shiftr (output_mask_ptrs pt) 32) in
  0 <= s < 32 -> 0 <= total -> total + D * 2 ^ s < 2 ^ 63 ->
  0 <= idx < D ->
  (forall e, 0 <= e < D -> phys_at (topas pt) j <> output_base pt \/ e < idx ->
     IPT_TOPA_ENTRY_EXTRACT_SIZE (table_read (topas pt) j e) = s) ->
  match capture_walk_table pt j total with
  | Return r => phys_at (topas pt) j = output_base pt /\
                r = total + idx * 2 ^ s + off
  | Continue tot => phys_at (topas pt) j <> output_base pt /\
                    tot = total + D * 2 ^ s
  end.
Proof.
  intros HT D idx off Hs Htot Hbound Hidx Hsz.
  pose proof HT as HT'. unfold table_entries_ok in HT'.
  assert (HD : 0 < D) by (unfold D; lia).
  assert (Hoff : 0 <= off < 2 ^ 32) by (apply Z.mod_pos_bound; lia).
  assert (HS : 0 < 2 ^ s) by (apply Z.pow_pos_nonneg; lia).
  assert (HS' : 2 ^ s < 2 ^ 32) by (apply Z.pow_lt_mono_r; lia).
  unfold capture_walk_table. fold idx off. fold (phys_at (topas pt) j).
  replace (u32 (IPT_TOPA_MAX_TABLE_ENTRIES - 1)) with D
    by (rewrite u32_small; unfold D; lia).
  set (body := fun (entry total_size : Z) => _).
  pose proof (for_u32_ind
    (fun e tot => tot = total + e * 2 ^ s /\
                  (phys_at (topas pt) j = output_base pt -> e <= idx))
    (fun r => phys_at (topas pt) j = output_base pt /\ r = total + idx * 2 ^ s + off)
    body 0 D total ltac:(lia)) as L.
  match type of L with ?A -> ?B -> ?C => assert (HA : A); [|assert (HB : B);
     [|specialize (L HA HB)]] end.
  - split; lia.
  - intros e tot He [-> Hle]. subst body. cbv beta.
    destruct (Z.eqb_spec (phys_at (topas pt) j) (output_base pt)) as [Eb|Nb];
      cbn [andb].
    + specialize (Hle Eb).
      destruct (Z.leb_spec idx e) as [Hge|Hlt].
      * assert (e = idx) by lia. subst e. split; [exact Eb|].
        apply u64_small. nia.
      * rewrite (Hsz e He (or_intror Hlt)).
        rewrite Z.shiftl_1_l. rewrite (u64_small (2 ^ s)) by lia.
        rewrite u64_small by nia. split; [lia|intros _; lia].
    + rewrite (Hsz e He (or_introl Nb)).
      rewrite Z.shiftl_1_l. rewrite (u64_small (2 ^ s)) by lia.
      rewrite u64_small by nia. split; [lia|intros ?; contradiction].
  - destruct (for_u32 0 D body total) as [r|tot]; [exact L|].
    destruct L as [-> Hle]. split; [|reflexivity].
    intros Eb. specialize (Hle Eb). lia.
Qed.

Lemma extract_size_expected p g s :
  extract_size_ok -> IPT_TOPA_MIN_SHIFT <= s <= IPT_TOPA_MAX_SHIFT ->
  chunk_order p + PAGE_SIZE_SHIFT = s ->
  IPT_TOPA_ENTRY_EXTRACT_SIZE (topa_data_entry p g) = s /\
  IPT_TOPA_ENTRY_EXTRACT_SIZE (Z.lor (topa_data_entry p g) IPT_TOPA_ENTRY_STOP) = s.
Proof.
  intros Hx Hs Ho. unfold topa_data_entry. rewrite Ho. apply Hx. exact Hs.
Qed.

(** A table whose address is not the saved output base, or any table
    when the saved entry index is past the entries walked, is walked to
    its end. *)
Lemma capture_walk_table_continues pt j total :
  table_entries_ok ->
  phys_at (topas pt) j <> output_base pt \/
  IPT_TOPA_MAX_TABLE_ENTRIES - 1 <= Z.shiftr (u32 (output_mask_ptrs pt)) 7 ->
  exists tot, capture_walk_table pt j total = Continue tot.
Proof.
  intros HT Hwhy. pose proof HT as HT'. unfold table_entries_ok in HT'.
  unfold capture_walk_table. fold (phys_at (topas pt) j).
  rewrite u32_small by lia.
  set (body := fun (entry total_size : Z) => _).
  assert (HD : 0 <= IPT_TOPA_MAX_TABLE_ENTRIES - 1) by lia.
  pose proof (for_u32_ind (fun _ _ => True) (fun _ : Z => False) body
                0 (IPT_TOPA_MAX_TABLE_ENTRIES - 1) total HD I) as L.
  destruct (for_u32 0 _ body total) as [r|tot].
  - exfalso. apply L. intros e tot He _. subst body. cbv beta.
    destruct Hwhy as [Hne|Hidx].
    + destruct (Z.eqb_spec (phys_at (topas pt) j) (output_base pt)); [contradiction|].
      exact I.
    + destruct (Z.leb_spec (Z.shiftr (u32 (output_mask_ptrs pt)) 7) e); [lia|].
      rewrite andb_false_r. exact I.
  - eexists. reflexivity.
Qed.

Lemma capture_size_zero pt :
  table_entries_ok -> 0 <= num_tables pt ->
  (forall j, 0 <= j < num_tables pt -> phys_at (topas pt) j <> output_base pt) \/
  IPT_TOPA_MAX_TABLE_ENTRIES - 1 <= Z.shiftr (u32 (output_mask_ptrs pt)) 7 ->
  compute_capture_size pt = 0.
Proof.
  intros HT Hnt Hwhy. unfold compute_capture_size.
  pose proof (for_u32_ind (fun _ _ => True) (fun _ : Z => False)
                (capture_walk_table pt) 0 (num_tables pt) 0 Hnt I) as L.
  destruct (for_u32 0 (num_tables pt) (capture_walk_table pt) 0) as [r|tot];
    [|reflexivity].
  exfalso. apply L. intros j tot Hj _.
  assert (Hj' : phys_at (topas pt) j <> output_base pt \/
                IPT_TOPA_MAX_TABLE_ENTRIES - 1
                <= Z.shiftr (u32 (output_mask_ptrs pt)) 7)
    by (destruct Hwhy as [Hne|Hidx]; [left; exact (Hne j Hj)|right; exact Hidx]).
  destruct (capture_walk_table_continues pt j tot HT Hj') as (tot' & ->).
  exact I.
Qed.

(** The walk over a buffer as x86_pt_alloc_buffer1 leaves it, with the
    saved registers [r]: [res] is what the walk returns when it stops in
    table [j], the tables before [j] being walked to their end. *)
Lemma capture_walk_alloc w p0 num order circ p w' r t (Q : Z -> Prop) :
  table_entries_ok -> extract_size_ok ->
  1 <= num <= MAX_NUM_CHUNKS -> 0 <= order <= MAX_CHUNK_ORDER ->
  IPT_TOPA_MIN_SHIFT <= order + PAGE_SIZE_SHIFT <= IPT_TOPA_MAX_SHIFT ->
  x86_pt_alloc_buffer1 caps w p0 num order circ = (ZX_OK, p, w') ->
  let D := IPT_TOPA_MAX_TABLE_ENTRIES - 1 in
  let idx := Z.shiftr (u32 (r_output_mask_ptrs r)) 7 in
  let off := u32 (Z.shiftr (r_output_mask_ptrs r) 32) in
  0 <= t < num_tables p ->
  r_output_base r = phys_at (topas p) t ->
  idx < D -> t * D + idx <= num ->
  (forall j, 0 <= j <= t -> phys_at (topas p) j = r_output_base r ->
     (forall j', 0 <= j' < j -> phys_at (topas p) j' <> r_output_base r) ->
     Q ((j * D + idx) * (2 ^ order * PAGE_SIZE) + off)) ->
  Q (compute_capture_size (set_regs r p)).
Proof.
  intros HT Hx Hn Ho Hshift E D idx off Ht Hbase Hidx Hpos HQ.
  pose proof HT as HT'. unfold table_entries_ok in HT'.
  destruct (alloc_buffer1_tables w p0 num order circ p w' HT Hn E)
    as (Hnc & Hord & Hc & _ & Hnt & B & _ & Hrd).
  fold D in Hrd, Hnt, B.
  set (s := order + PAGE_SIZE_SHIFT).
  assert (HD : 0 < D) by (unfold D; lia).
  unfold MAX_CHUNK_ORDER, MAX_NUM_CHUNKS in *.
  assert (Hs : 0 <= s < 32) by (unfold s, PAGE_SIZE_SHIFT; lia).
  assert (ES : 2 ^ order * PAGE_SIZE = 2 ^ s).
  { unfold s, PAGE_SIZE_SHIFT, PAGE_SIZE. rewrite Z.pow_add_r by lia. reflexivity. }
  rewrite ES in HQ.
  assert (HS : 0 < 2 ^ s) by (apply Z.pow_pos_nonneg; lia).
  assert (HS' : 2 ^ s <= 2 ^ 20).
  { apply Z.pow_le_mono_r; unfold s, PAGE_SIZE_SHIFT; lia. }
  assert (Hidx0 : 0 <= idx).
  { unfold idx. apply Z.shiftr_nonneg. apply Z.mod_pos_bound. lia. }
  set (pt := set_regs r p).
  assert (Etop : topas pt = topas p) by reflexivity.
  assert (Ent : num_tables pt = num_tables p) by reflexivity.
  assert (Ebase : output_base pt = r_output_base r) by reflexivity.
  assert (Emp : output_mask_ptrs pt = r_output_mask_ptrs r) by reflexivity.
  unfold compute_capture_size. rewrite Ent.
  pose proof (for_u32_ind
    (fun j tot => tot = j * D * 2 ^ s /\
                  forall j', 0 <= j' < j -> phys_at (topas p) j' <> r_output_base r)
    Q
    (capture_walk_table pt) 0 (num_tables p) 0 ltac:(lia)) as L.
  match type of L with ?A -> ?B -> ?C => assert (HA : A); [|assert (HB : B);
     [|specialize (L HA HB)]] end.
  - split; [lia|]. intros j' Hj'. lia.
  - intros j tot Hj [-> Hnone].
    assert (Hjt : j <= t).
    { destruct (Z.le_gt_cases j t) as [|Hgt]; [assumption|].
      exfalso. apply (Hnone t); [lia|]. congruence. }
    assert (A0 : 0 <= j * D) by (apply Z.mul_nonneg_nonneg; lia).
    assert (A1 : 0 <= j * D * 2 ^ s) by (apply Z.mul_nonneg_nonneg; lia).
    pose proof (capture_walk_table_spec pt j (j * D * 2 ^ s) s HT Hs A1) as W.
    cbv zeta in W. fold D in W. rewrite Emp, Etop, Ebase in W. fold idx off in W.
    assert (HW : j * D * 2 ^ s + D * 2 ^ s < 2 ^ 63).
    { assert (B1 : (j + 1) * D <= 4096 * D)
        by (apply Z.mul_le_mono_nonneg_r; lia).
      assert (B2 : 0 <= (j + 1) * D) by (apply Z.mul_nonneg_nonneg; lia).
      assert (B3 : (j + 1) * D * 2 ^ s <= 4096 * D * 2 ^ 20)
        by (apply Z.mul_le_mono_nonneg; lia).
      assert (B4 : 4096 * D * 2 ^ 20 < 2 ^ 63) by (unfold D; lia).
      replace (j * D * 2 ^ s + D * 2 ^ s) with ((j + 1) * D * 2 ^ s) by ring.
      lia. }
    specialize (W HW ltac:(lia)).
    assert (Hsz : forall e, 0 <= e < D ->
              phys_at (topas p) j <> r_output_base r \/ e < idx ->
              IPT_TOPA_ENTRY_EXTRACT_SIZE (table_read (topas p) j e) = s).
    { intros e He Hwhy.
      assert (Hdata : j * D + e < num).
      { destruct Hwhy as [Hne|Hlt].
        - assert (j <> t) by congruence.
          assert ((j + 1) * D <= t * D) by (apply Z.mul_le_mono_nonneg_r; lia).
          lia.
        - assert (j * D <= t * D) by (apply Z.mul_le_mono_nonneg_r; lia).
          lia. }
      rewrite Hrd by (unfold D in *; lia). unfold topa_expected. fold D.
      rewrite Hnc. destruct (Z.ltb_spec e D); [|lia].
      destruct (Z.ltb_spec (j * D + e) num); [|lia].
      destruct (extract_size_expected p (j * D + e) s Hx Hshift
                  ltac:(rewrite Hord; reflexivity)) as [X1 X2].
      destruct (_ && _); assumption. }
    specialize (W Hsz).
    destruct (capture_walk_table pt j (j * D * 2 ^ s)) as [res|tot].
    + destruct W as [Eb ->].
      replace (j * D * 2 ^ s + idx * 2 ^ s + off)
        with ((j * D + idx) * 2 ^ s + off) by ring.
      apply HQ; [lia|exact Eb|exact Hnone].
    + destruct W as [Hne ->]. split; [ring|].
      intros j' Hj'. destruct (Z.eq_dec j' j) as [->|]; [exact Hne|].
      apply Hnone. lia.
  - destruct (for_u32 0 (num_tables p) _ 0) as [res|tot]; [exact L|].
    exfalso. destruct L as [_ Hnone]. apply (Hnone t Ht). congruence.
Qed.

(** With the saved output base at the first table of that address. *)
Lemma capture_size_first_match w p0 num order circ p w' r t :
  table_entries_ok -> extract_size_ok ->
  1 <= num <= MAX_NUM_CHUNKS -> 0 <= order <= MAX_CHUNK_ORDER ->
  IPT_TOPA_MIN_SHIFT <= order + PAGE_SIZE_SHIFT <= IPT_TOPA_MAX_SHIFT ->
  x86_pt_alloc_buffer1 caps w p0 num order circ = (ZX_OK, p, w') ->
  let idx := Z.shiftr (u32 (r_output_mask_ptrs r)) 7 in
  let off := u32 (Z.shiftr (r_output_mask_ptrs r) 32) in
  0 <= t < num_tables p ->
  r_output_base r = phys_at (topas p) t ->
  (forall j, 0 <= j < t -> phys_at (topas p) j <> r_output_base r) ->
  idx < IPT_TOPA_MAX_TABLE_ENTRIES - 1 ->
  t * (IPT_TOPA_MAX_TABLE_ENTRIES - 1) + idx <= num ->
  compute_capture_size (set_regs r p) =
    (t * (IPT_TOPA_MAX_TABLE_ENTRIES - 1) + idx) * (2 ^ order * PAGE_SIZE) + off.
Proof.
  intros HT Hx Hn Ho Hshift E idx off Ht Hbase Hfirst Hidx Hpos.
  apply (capture_walk_alloc w p0 num order circ p w' r t
           (fun res => res = (t * (IPT_TOPA_MAX_TABLE_ENTRIES - 1) + idx)
                             * (2 ^ order * PAGE_SIZE) + off)
           HT Hx Hn Ho Hshift E Ht Hbase Hidx Hpos).
  intros j Hj Eb _.
  assert (j = t) as ->; [|reflexivity].
  destruct (Z.eq_dec j t) as [|Nj]; [assumption|].
  exfalso. apply (Hfirst j); [lia|exact Eb].
Qed.

(** C9 (amended): the capture size of a buffer as x86_pt_alloc_buffer1
    leaves it, whatever the saved registers.  It is 0 when the saved
    output base is the address of no table of the slot, or the saved
    entry index is past the entries walked.  When the output base is the
    address of table t, the index is one of the entries walked and the
    position designated is at most num_chunks, the capture size is
    within the buffer as soon as the offset is within what is left of
    it; with t the first table of that address the capture size is the
    position times the chunk size plus the offset, and it is within the
    buffer exactly when the offset is within what is left. *)
Theorem capture_within_buffer w p0 num order circ p w' r :
  table_entries_ok -> extract_size_ok ->
  1 <= num <= MAX_NUM_CHUNKS -> 0 <= order <= MAX_CHUNK_ORDER ->
  IPT_TOPA_MIN_SHIFT <= order + PAGE_SIZE_SHIFT <= IPT_TOPA_MAX_SHIFT ->
  x86_pt_alloc_buffer1 caps w p0 num order circ = (ZX_OK, p, w') ->
  let D := IPT_TOPA_MAX_TABLE_ENTRIES - 1 in
  let idx := Z.shiftr (u32 (r_output_mask_ptrs r)) 7 in
  let off := u32 (Z.shiftr (r_output_mask_ptrs r) 32) in
  let chunk := 2 ^ order * PAGE_SIZE in
  let size := compute_capture_size (set_regs r p) in
  ((forall t, 0 <= t < num_tables p -> phys_at (topas p) t <> r_output_base r) \/
   D <= idx -> size = 0) /\
  (forall t, 0 <= t < num_tables p -> r_output_base r = phys_at (topas p) t ->
     idx < D -> t * D + idx <= num ->
     (off <= (num - (t * D + idx)) * chunk -> 0 <= size <= num * chunk) /\
     ((forall j, 0 <= j < t -> phys_at (topas p) j <> r_output_base r) ->
      size = (t * D + idx) * chunk + off /\
      (size <= num * chunk <-> off <= (num - (t * D + idx)) * chunk))).
Proof.
  intros HT Hx Hn Ho Hshift E D idx off chunk size.
  pose proof HT as HT'. unfold table_entries_ok in HT'.
  assert (HD : 0 < D) by (unfold D; lia).
  assert (Hidx0 : 0 <= idx).
  { unfold idx. apply Z.shiftr_nonneg. apply Z.mod_pos_bound. lia. }
  assert (Hoff0 : 0 <= off) by (apply Z.mod_pos_bound; lia).
  assert (Hchunk : 0 < chunk).
  { unfold chunk, PAGE_SIZE. apply Z.mul_pos_pos; [|lia].
    apply Z.pow_pos_nonneg; lia. }
  split.
  - intros Hwhy. apply capture_size_zero; [exact HT| |exact Hwhy].
    destruct (alloc_buffer1_tables w p0 num order circ p w' HT Hn E)
      as (_ & _ & _ & _ & _ & B & _).
    change (0 <= num_tables p). lia.
  - intros t Ht Hbase Hidx Hpos. split.
    + intros Hoff.
      apply (capture_walk_alloc w p0 num order circ p w' r t
               (fun res => 0 <= res <= num * chunk)
               HT Hx Hn Ho Hshift E Ht Hbase Hidx Hpos).
      intros j Hj _ _. fold D idx off chunk.
      assert (A0 : 0 <= j * D) by (apply Z.mul_nonneg_nonneg; lia).
      assert (A1 : j * D <= t * D) by (apply Z.mul_le_mono_nonneg_r; lia).
      assert (A2 : (j * D + idx) * chunk <= (t * D + idx) * chunk)
        by (apply Z.mul_le_mono_nonneg_r; lia).
      assert (A3 : 0 <= (j * D + idx) * chunk)
        by (apply Z.mul_nonneg_nonneg; lia).
      rewrite Z.mul_sub_distr_r in Hoff. lia.
    + intros Hfirst.
      pose proof (capture_size_first_match w p0 num order circ p w' r t
                    HT Hx Hn Ho Hshift E Ht Hbase Hfirst Hidx Hpos) as Es.
      cbv zeta in Es. fold D idx off chunk size in Es.
      split; [exact Es|]. rewrite Es, Z.mul_sub_distr_r. lia.
Qed.

End Buffers.

Section Validation.
Context {hdr : intel_pt_h}.
Variable caps : ipt_config_t.

Lemma gated_step (b : bool) (m x : Z) :
  (if b then Z.lor m x else m) = Z.lor m (gated b x).
Proof. destruct b; cbn; [reflexivity|rewrite Z.lor_0_r; reflexivity]. Qed.

Lemma settable_ctl_mask_groups : settable_ctl_mask caps = spec_settable_mask caps.
Proof.
  unfold settable_ctl_mask, spec_settable_mask. cbn [fold_left].
  cbv zeta. rewrite !gated_step.
  destruct (ipt_config_ip_filtering caps); cbn [andb].
  - replace (1 <=? ipt_config_num_addr_ranges caps)
      with (0 <? ipt_config_num_addr_ranges caps) by lia.
    replace (2 <=? ipt_config_num_addr_ranges caps)
      with (1 <? ipt_config_num_addr_ranges caps) by lia.
    replace (3 <=? ipt_config_num_addr_ranges caps)
      with (2 <? ipt_config_num_addr_ranges caps) by lia.
    replace (4 <=? ipt_config_num_addr_ranges caps)
      with (3 <? ipt_config_num_addr_ranges caps) by lia.
    reflexivity.
  - cbn [gated]. rewrite !Z.lor_0_r. reflexivity.
Qed.

Lemma land_pow2_zero m v :
  0 <= v -> (Z.land (2 ^ v) m = 0 <-> Z.testbit m v = false).
Proof.
  intros Hv. split.
  - intros E. apply (f_equal (fun x => Z.testbit x v)) in E.
    rewrite Z.land_spec, Z.pow2_bits_true, Z.bits_0 in E by lia. exact E.
  - intros E. apply Z.bits_inj'. intros i Hi.
    rewrite Z.land_spec, Z.bits_0, Z.pow2_bits_eqb by lia.
    destruct (Z.eqb_spec v i) as [<-|]; [rewrite E|]; reflexivity.
Qed.

Lemma bad_field_value_absent v m :
  0 <= v -> field_absent v m -> bad_field_value v m = true.
Proof.
  intros Hv [Hnz Hbit]. unfold bad_field_value.
  destruct (Z.eqb_spec v 0); [contradiction|]. cbn [negb andb].
  apply Z.eqb_eq. rewrite Z.shiftl_1_l.
  destruct (Z.lt_ge_cases v 32) as [Hlt|Hge].
  - rewrite u32_small by (split; [apply Z.pow_nonneg; lia|apply Z.pow_lt_mono_r; lia]).
    apply land_pow2_zero; assumption.
  - unfold u32. replace v with ((v - 32) + 32) by lia.
    rewrite Z.pow_add_r by lia. rewrite Z.mod_mul by lia. reflexivity.
Qed.

Lemma bad_field_value_allowed v m :
  0 <= v -> 0 <= m < 2 ^ 32 -> field_allowed v m -> bad_field_value v m = false.
Proof.
  intros Hv Hm [->|Hbit]; [reflexivity|]. unfold bad_field_value.
  apply andb_false_iff. right. apply Z.eqb_neq. rewrite Z.shiftl_1_l.
  assert (Hlt : v < 32).
  { destruct (Z.lt_ge_cases v 32) as [|Hge]; [assumption|].
    rewrite Z.bits_above_log2 in Hbit; [discriminate|lia|].
    destruct (Z.eq_dec m 0) as [->|]; [cbn; lia|].
    apply Z.log2_lt_pow2; [lia|].
    apply Z.lt_le_trans with (2 ^ 32); [lia|apply Z.pow_le_mono_r; lia]. }
  rewrite u32_small by (split; [apply Z.pow_nonneg; lia|apply Z.pow_lt_mono_r; lia]).
  intros E. apply land_pow2_zero in E; [congruence|assumption].
Qed.

Lemma ctl_field_nonneg c m s : 0 <= ctl_field c m s.
Proof. unfold ctl_field, u32. apply Z.mod_pos_bound. lia. Qed.

Lemma outside_mask_nonzero c :
  ctl_outside_mask caps c ->
  Z.land c (u64 (Z.lnot (settable_ctl_mask caps))) <> 0.
Proof.
  intros (i & Hi & Hc & Hm) E.
  apply (f_equal (fun x => Z.testbit x i)) in E.
  unfold u64 in E.
  rewrite Z.land_spec, Z.bits_0, Z.mod_pow2_bits_low, Z.lnot_spec, Hc, Hm in E by lia.
  discriminate E.
Qed.

Lemma within_mask_zero c :
  ctl_within_mask caps c ->
  Z.land c (u64 (Z.lnot (settable_ctl_mask caps))) = 0.
Proof.
  intros H. apply Z.bits_inj'. intros i Hi.
  rewrite Z.land_spec, Z.bits_0. unfold u64.
  destruct (Z.lt_ge_cases i 64) as [Hlt|Hge].
  - rewrite Z.mod_pow2_bits_low, Z.lnot_spec by lia.
    destruct (Z.testbit c i) eqn:Ec; [|reflexivity].
    rewrite (H i ltac:(lia) Ec). reflexivity.
  - rewrite Z.mod_pow2_bits_high by lia. apply andb_false_r.
Qed.

(** C8: a ctl with a bit outside the settable mask, or with a sub-field
    value the hardware mask lacks, is answered ZX_ERR_INVALID_ARGS; a ctl
    within the mask whose sub-fields pass goes on to the slot search. *)
Theorem ctl_validation w dev config :
  let c := bc_ctl config in
  settable_ctl_mask caps = spec_settable_mask caps /\
  (ctl_outside_mask caps c \/
   field_absent (mtc_freq_of c) (ipt_config_mtc_freq_mask caps) \/
   field_absent (cyc_thresh_of c) (ipt_config_cyc_thresh_mask caps) \/
   field_absent (psb_freq_of c) (ipt_config_psb_freq_mask caps) ->
   x86_pt_alloc_buffer caps w dev config = (ZX_ERR_INVALID_ARGS, 0, dev, w)) /\
  (hw_masks_u32 caps ->
   ctl_within_mask caps c ->
   field_allowed (mtc_freq_of c) (ipt_config_mtc_freq_mask caps) ->
   field_allowed (cyc_thresh_of c) (ipt_config_cyc_thresh_mask caps) ->
   field_allowed (psb_freq_of c) (ipt_config_psb_freq_mask caps) ->
   buffer_range_rejected config = false ->
   x86_pt_alloc_buffer caps w dev config = x86_pt_alloc_buffer_slot caps w dev config).
Proof.
  intros c. split; [apply settable_ctl_mask_groups|].
  unfold mtc_freq_of, cyc_thresh_of, psb_freq_of. split.
  - intros H. unfold x86_pt_alloc_buffer. fold c.
    destruct (buffer_range_rejected config); [reflexivity|].
    destruct (Z.eqb_spec (Z.land c (u64 (Z.lnot (settable_ctl_mask caps)))) 0) as [E0|];
      cbn [negb]; [|reflexivity].
    destruct H as [H|H]; [exfalso; exact (outside_mask_nonzero c H E0)|].
    destruct (bad_field_value (ctl_field c IPT_CTL_MTC_FREQ_MASK _) _) eqn:E1;
      [reflexivity|].
    destruct H as [H|H];
      [rewrite (bad_field_value_absent _ _ (ctl_field_nonneg _ _ _) H) in E1;
       discriminate E1|].
    destruct (bad_field_value (ctl_field c IPT_CTL_CYC_THRESH_MASK _) _) eqn:E2;
      [reflexivity|].
    destruct H as [H|H];
      [rewrite (bad_field_value_absent _ _ (ctl_field_nonneg _ _ _) H) in E2;
       discriminate E2|].
    rewrite (bad_field_value_absent _ _ (ctl_field_nonneg _ _ _) H). reflexivity.
  - intros (M1 & M2 & M3) Hin F1 F2 F3 Hr.
    unfold x86_pt_alloc_buffer. fold c. rewrite Hr.
    rewrite (within_mask_zero c Hin). cbn [Z.eqb negb].
    rewrite (bad_field_value_allowed _ _ (ctl_field_nonneg _ _ _) M1 F1).
    rewrite (bad_field_value_allowed _ _ (ctl_field_nonneg _ _ _) M2 F2).
    rewrite (bad_field_value_allowed _ _ (ctl_field_nonneg _ _ _) M3 F3).
    reflexivity.
Qed.
End Validation.

Section Lifecycle.
Context {hdr : intel_pt_h}.
Variable caps : ipt_config_t.

Lemma for_loop_check (g : Z -> bool) (st : zx_status_t)
    (body : Z -> unit -> loop_step zx_status_t unit) k a :
  (forall i, body i tt = if g i then Continue tt else Return st) ->
  for_loop k (Z.of_nat a) body tt =
  if forallb (fun i => g (Z.of_nat i)) (seq a k) then Continue tt else Return st.
Proof.
  intros Hb. revert a. induction k as [|k IH]; intros a; cbn [for_loop seq forallb].
  - reflexivity.
  - rewrite Hb. destruct (g (Z.of_nat a)); cbn [andb]; [|reflexivity].
    replace (Z.of_nat a + 1) with (Z.of_nat (S a)) by lia. apply IH.
Qed.

Lemma for_u32_check (g : Z -> bool) (st : zx_status_t)
    (body : Z -> unit -> loop_step zx_status_t unit) n :
  (forall i, body i tt = if g i then Continue tt else Return st) ->
  for_u32 0 n body tt =
  if forallb (fun i => g (Z.of_nat i)) (seq 0 (Z.to_nat n)) then Continue tt
  else Return st.
Proof.
  intros Hb. unfold for_u32. rewrite Z.sub_0_r.
  exact (for_loop_check g st body (Z.to_nat n) 0 Hb).
Qed.

(** C7 (amended): an operation whose precondition is not met leaves the
    device and the reply untouched, and the world as well (but that a
    thread-buffer operation has closed the thread handle when it answers
    NotSupported), and answers BadState or InvalidArgs, or NotSupported
    where the operation is one that answers so by design, or
    BufferTooSmall when the reply buffer is too small. *)
Theorem unmet_precondition_rejected w dev op cmdlen replymax :
  lifecycle_precondition caps dev op = false ->
  let r := insntrace_ioctl_worker caps w dev op cmdlen replymax in
  res_dev r = dev /\ res_world r = world_when_rejected w op (res_status r) /\
  res_reply r = None /\
  (res_status r = ZX_ERR_BAD_STATE \/
   res_status r = ZX_ERR_INVALID_ARGS \/
   (res_status r = ZX_ERR_NOT_SUPPORTED /\ may_be_unsupported op = true) \/
   (res_status r = ZX_ERR_BUFFER_TOO_SMALL /\ replymax < reply_size op)).
Proof.
  intros Hpre r. subst r. unfold insntrace_ioctl_worker.
  destruct op; cbn [is_alloc_trace negb andb lifecycle_precondition] in *.
  - (* alloc_trace *)
    destruct (negb (replymax =? 0)); [cbn; auto 6|].
    unfold ipt_alloc_trace.
    destruct (ipt_config_supported caps); cbn [negb andb] in *; [|cbn; auto 8].
    destruct (ipt_config_output_topa caps); cbn [negb andb] in *; [|cbn; auto 8].
    destruct (has_traces dev); [cbn; auto 6|discriminate Hpre].
  - (* free_trace *)
    destruct (has_traces dev); cbn [negb andb] in *; [|cbn; auto 6].
    destruct (negb (cmdlen =? 0) || negb (replymax =? 0)); [cbn; auto 6|].
    unfold ipt_free_trace.
    destruct (active dev); cbn [negb andb] in *; [cbn; auto 6|].
    rewrite (for_u32_check (fun i => negb (assigned (slot_at dev i))) ZX_ERR_BAD_STATE)
      by (intros i; destruct (assigned (slot_at dev i)); reflexivity).
    unfold all_slots in Hpre. rewrite Hpre. cbn; auto 6.
  - (* get_trace_config *)
    rewrite Hpre. cbn; auto 6.
  - (* alloc_buffer *)
    rewrite Hpre. cbn; auto 6.
  - (* assign_thread_buffer *)
    destruct (has_traces dev); cbn [negb andb] in *; [|cbn; auto 6].
    destruct (negb (replymax =? 0)); [cbn; auto 6|].
    unfold ipt_assign_thread_buffer.
    destruct (negb (cmdlen =? _)); cbn; auto 8.
  - (* release_thread_buffer *)
    destruct (has_traces dev); cbn [negb andb] in *; [|cbn; auto 6].
    destruct (negb (replymax =? 0)); [cbn; auto 6|].
    unfold ipt_release_thread_buffer.
    destruct (negb (cmdlen =? _)); cbn; auto 8.
  - (* get_buffer_config *)
    destruct (has_traces dev); cbn [negb andb] in *; [|cbn; auto 6].
    unfold ipt_get_buffer_config, slot_allocated in *.
    destruct (negb (cmdlen =? _)); [cbn; auto 6|].
    destruct (Z.ltb_spec replymax sizeof_buffer_config); [cbn; auto 8|].
    destruct (Z.leb_spec (num_traces dev) descriptor); [cbn; auto 6|].
    destruct (Z.ltb_spec descriptor (num_traces dev)); [|lia].
    cbn [andb] in Hpre. rewrite Hpre. cbn; auto 6.
  - (* get_buffer_info *)
    destruct (has_traces dev); cbn [negb andb] in *; [|cbn; auto 6].
    unfold ipt_get_buffer_info, slot_allocated in *.
    destruct (negb (cmdlen =? _)); [cbn; auto 6|].
    destruct (Z.ltb_spec replymax sizeof_buffer_info); [cbn; auto 8|].
    destruct (is_cpus (mode dev) && active dev) eqn:Ea; [cbn; auto 6|].
    destruct (Z.leb_spec (num_traces dev) descriptor); [cbn; auto 6|].
    destruct (Z.ltb_spec descriptor (num_traces dev)); [|lia].
    cbn [andb] in Hpre.
    destruct (allocated (slot_at dev descriptor)); cbn [negb andb] in *;
      [|cbn; auto 6].
    exfalso. destruct (is_cpus (mode dev)), (active dev); discriminate.
  - (* get_chunk_handle *)
    destruct (has_traces dev); cbn [negb andb] in *; [|cbn; auto 6].
    unfold ipt_get_chunk_handle, slot_allocated in *.
    destruct (negb (cmdlen =? _)); [cbn; auto 6|].
    destruct (Z.ltb_spec replymax sizeof_handle); [cbn; auto 8|].
    destruct (Z.leb_spec (num_traces dev) descriptor); [cbn; auto 6|].
    destruct (Z.ltb_spec descriptor (num_traces dev)); [|lia].
    cbn [andb] in Hpre.
    destruct (allocated (slot_at dev descriptor)); cbn [negb andb] in *;
      [|cbn; auto 6].
    destruct (Z.leb_spec (num_chunks (slot_at dev descriptor)) chunk_num);
      [cbn; auto 6|].
    apply Z.ltb_ge in Hpre. lia.
  - (* free_buffer *)
    destruct (has_traces dev); cbn [negb andb] in *; [|cbn; auto 6].
    destruct (negb (replymax =? 0)); [cbn; auto 6|].
    unfold ipt_free_buffer, x86_pt_free_buffer, slot_allocated in *.
    destruct (negb (cmdlen =? _)); [cbn; auto 6|].
    destruct (active dev); cbn [negb andb] in *; [cbn; auto 6|].
    destruct (Z.leb_spec (num_traces dev) descriptor); [cbn; auto 6|].
    destruct (Z.ltb_spec descriptor (num_traces dev)); [|lia].
    cbn [andb] in Hpre.
    destruct (allocated (slot_at dev descriptor)); cbn [negb andb] in *;
      [|cbn; auto 6].
    destruct (assigned (slot_at dev descriptor)); [cbn; auto 6|discriminate].
  - (* start *)
    destruct (has_traces dev); cbn [negb andb] in *; [|cbn; auto 6].
    destruct (negb (cmdlen =? 0) || negb (replymax =? 0)); [cbn; auto 6|].
    unfold ipt_start.
    destruct (active dev); cbn [negb andb] in *; [cbn; auto 6|].
    destruct (is_cpus (mode dev)); cbn [negb andb] in *; [|cbn; auto 6].
    rewrite (for_u32_check
               (fun i => allocated (slot_at dev i) && negb (assigned (slot_at dev i)))
               ZX_ERR_BAD_STATE)
      by (intros i; destruct (allocated (slot_at dev i)),
                             (assigned (slot_at dev i)); reflexivity).
    unfold all_slots in Hpre. rewrite Hpre. cbn; auto 6.
  - (* stop *)
    destruct (has_traces dev); cbn [negb andb] in *; [|cbn; auto 6].
    destruct (negb (cmdlen =? 0) || negb (replymax =? 0)); [cbn; auto 6|].
    unfold ipt_stop. rewrite Hpre. cbn; auto 6.
  - (* any other op *)
    destruct (has_traces dev); cbn; auto 6.
Qed.

(** *** I1 through the operations *)

Lemma per_trace_zero_released : slot_released per_trace_zero.
Proof. intros _. split; reflexivity. Qed.

Lemma slot_at_released dev i : I1_pointers dev -> slot_released (slot_at dev i).
Proof.
  intros H. unfold slot_at. destruct (per_trace_state dev) as [l|] eqn:E;
    [|apply per_trace_zero_released].
  destruct (l !! Z.to_nat i) as [p|] eqn:Ep; cbn; [|apply per_trace_zero_released].
  specialize (H l E). rewrite Forall_lookup in H. exact (H _ _ Ep).
Qed.

Lemma slot_store_released dev i p :
  I1_pointers dev -> slot_released p -> I1_pointers (slot_store dev i p).
Proof.
  intros H Hp. unfold slot_store. destruct (per_trace_state dev) as [l|] eqn:E;
    [|exact H].
  intros l' El'. cbn in El'. injection El' as <-.
  apply Forall_insert; [exact (H l E)|exact Hp].
Qed.

Lemma I1_same_slots dev dev' :
  per_trace_state dev' = per_trace_state dev -> I1_pointers dev -> I1_pointers dev'.
Proof. intros E H l El. apply H. congruence. Qed.

Lemma free_buffer1_slot w p :
  fst (x86_pt_free_buffer1 w p)
  = set_allocated false (set_topas None (set_chunks None p)).
Proof. reflexivity. Qed.

Lemma free_buffer1_released w p : slot_released (fst (x86_pt_free_buffer1 w p)).
Proof. intros _. split; reflexivity. Qed.

Lemma free_buffer1_pair w p :
  x86_pt_free_buffer1 w p
  = (set_allocated false (set_topas None (set_chunks None p)),
     snd (x86_pt_free_buffer1 w p)).
Proof. reflexivity. Qed.

Lemma with_released_nil w : with_released [] w = w.
Proof. destruct w; reflexivity. Qed.

Lemma with_released_app l1 l2 w :
  with_released l1 (with_released l2 w) = with_released (l1 ++ l2) w.
Proof. unfold with_released. cbn. rewrite app_assoc. reflexivity. Qed.

Lemma release_buffers_log w a n :
  release_buffers w a n = with_released (released_buffers a n) w.
Proof.
  unfold release_buffers, released_buffers.
  set (body := fun (i : Z) (w : world) => _).
  set (log := fun j : Z =>
                rev (map (fun i => BufferReleased (vmo_handle (buf_at a (Z.of_nat i))))
                         (seq 0 (Z.to_nat j)))).
  destruct (Z.le_gt_cases 0 n) as [Hn|Hn].
  - pose proof (for_u32_ind (R := unit)
                  (fun j w' => w' = with_released (log j) w)
                  (fun _ => False) body 0 n w Hn) as L.
    match type of L with ?A -> ?B -> ?C => assert (HA : A); [|assert (HB : B);
       [|specialize (L HA HB); clear HA HB]] end.
    + symmetry. apply with_released_nil.
    + intros j t Hj ->. subst body log. cbv beta.
      replace (Z.to_nat (j + 1)) with (S (Z.to_nat j)) by lia.
      rewrite seq_S, map_app, rev_app_distr. cbn [map rev app Nat.add].
      rewrite Z2Nat.id by lia. reflexivity.
    + destruct (for_u32 0 n body w); [contradiction|exact L].
  - unfold for_u32. replace (Z.to_nat (n - 0)) with O by lia.
    subst log. cbv beta. replace (Z.to_nat n) with O by lia.
    symmetry. apply with_released_nil.
Qed.

Lemma free_buffer1_world w p :
  snd (x86_pt_free_buffer1 w p) = with_released (released_slot p) w.
Proof.
  unfold x86_pt_free_buffer1, released_slot, released_array. cbv zeta. cbn [snd].
  change (topas (set_chunks None p)) with (topas p).
  change (num_tables (set_chunks None p)) with (num_tables p).
  destruct (chunks p) as [cs|], (topas p) as [ts|]; cbn [free];
    rewrite ?release_buffers_log; unfold released;
    rewrite ?app_nil_r; cbn [app];
    try (symmetry; apply with_released_nil); unfold with_released; cbn;
    rewrite <- ?app_assoc; reflexivity.
Qed.

Lemma I1_no_traces dev : per_trace_state dev = None -> I1_pointers dev.
Proof. intros E l El. congruence. Qed.

Lemma alloc_buffer_I1 w dev config :
  I1_pointers dev ->
  I1_pointers (snd (fst (x86_pt_alloc_buffer caps w dev config))).
Proof.
  intros H. unfold x86_pt_alloc_buffer.
  repeat match goal with
         | |- context [if ?c then (ZX_ERR_INVALID_ARGS, 0, dev, w) else _] =>
             destruct c; [exact H|]
         end.
  unfold x86_pt_alloc_buffer_slot.
  destruct (_ =? _); [exact H|].
  destruct (x86_pt_alloc_buffer1 _ _ _ _ _ _) as [[st p] w1].
  destruct (is_ok st); cbn [negb fst snd].
  - apply slot_store_released; [exact H|]. intros E. discriminate E.
  - pose proof (free_buffer1_released w1 p) as F.
    destruct (x86_pt_free_buffer1 w1 p) as [q w2]. cbn [fst snd] in *.
    apply slot_store_released; [exact H|exact F].
Qed.

Lemma free_trace_I1 w dev : I1_pointers dev -> I1_pointers (res_dev (ipt_free_trace w dev)).
Proof.
  intros H. unfold ipt_free_trace.
  destruct (active dev); [exact H|].
  destruct (for_u32 0 (num_traces dev) _ tt) as [st|u]; [exact H|].
  set (body := fun (i : Z) (st : insntrace_device_t * world) => _).
  assert (Hl : I1_pointers
                 (fst (loop_result (dev, w)
                         (for_u32 0 (num_traces dev) body (dev, w))))).
  { destruct (Z.le_gt_cases 0 (num_traces dev)) as [Hle|Hgt].
    - pose proof (for_u32_ind
                    (fun _ (s : insntrace_device_t * world) => I1_pointers (fst s))
                    (fun _ : unit => False)
                    body 0 (num_traces dev) (dev, w) Hle H) as L.
      match type of L with ?B -> ?C => assert (HB : B); [|specialize (L HB)] end.
      + intros j [d w1] Hj Hd. subst body. cbv beta iota zeta.
        destruct (allocated (slot_at d j)); [|exact Hd].
        pose proof (free_buffer1_released w1 (slot_at d j)) as F.
        destruct (x86_pt_free_buffer1 w1 (slot_at d j)) as [q w2].
        cbn [fst] in *. apply slot_store_released; [exact Hd|exact F].
      + destruct (for_u32 0 (num_traces dev) body (dev, w)); [contradiction|exact L].
    - unfold for_u32. replace (Z.to_nat (num_traces dev - 0)) with O by lia.
      exact H. }
  destruct (loop_result (dev, w) _) as [d1 w1]. cbn [fst] in Hl.
  destruct (zx_mtrace_control w1) as [[st regs] w2].
  destruct (is_ok st); cbn [negb res_dev]; [|exact Hl].
  apply I1_no_traces. reflexivity.
Qed.

Lemma alloc_trace_I1 w dev config cmdlen :
  I1_pointers dev -> I1_pointers (res_dev (ipt_alloc_trace caps w dev config cmdlen)).
Proof.
  intros H. unfold ipt_alloc_trace.
  repeat match goal with
         | |- context [if ?c then fail _ dev w else _] => destruct c; [exact H|]
         end.
  destruct (if tc_mode config =? IPT_MODE_CPUS then _ else _); [|exact H].
  repeat match goal with
         | |- context [if ?c then fail _ dev w else _] => destruct c; [exact H|]
         end.
  unfold calloc. cbv beta iota zeta.
  destruct (w_calloc w O); cbn [negb].
  - destruct (zx_mtrace_control _) as [[st regs] w1].
    destruct (is_ok st); cbn [negb res_dev fail].
    + intros l El. cbn in El. injection El as <-.
      apply Forall_replicate. apply per_trace_zero_released.
    + apply I1_no_traces. reflexivity.
  - cbn [res_dev fail]. apply (I1_same_slots dev); [reflexivity|exact H].
Qed.

Lemma loop_dev_I1 (body : Z -> insntrace_device_t * world ->
                          loop_step ioctl_result (insntrace_device_t * world))
    n dev w :
  (forall j d w1, I1_pointers d ->
     match body j (d, w1) with
     | Return r => I1_pointers (res_dev r)
     | Continue (d', _) => I1_pointers d'
     end) ->
  I1_pointers dev ->
  match for_u32 0 n body (dev, w) with
  | Return r => I1_pointers (res_dev r)
  | Continue (d', _) => I1_pointers d'
  end.
Proof.
  intros Hb H. destruct (Z.le_gt_cases 0 n) as [Hle|Hgt].
  - pose proof (for_u32_ind (fun _ (s : insntrace_device_t * world) => I1_pointers (fst s))
                  (fun r => I1_pointers (res_dev r)) body 0 n (dev, w) Hle H) as L.
    match type of L with ?B -> ?C => assert (HB : B); [|specialize (L HB)] end.
    + intros j [d w1] _ Hd. specialize (Hb j d w1 Hd).
      destruct (body j (d, w1)) as [r|[d' w']]; exact Hb.
    + destruct (for_u32 0 n body (dev, w)) as [r|[d' w']]; exact L.
  - unfold for_u32. replace (Z.to_nat (n - 0)) with O by lia. exact H.
Qed.

Lemma start_I1 w dev : I1_pointers dev -> I1_pointers (res_dev (ipt_start w dev)).
Proof.
  intros H. unfold ipt_start.
  destruct (active dev); [exact H|].
  destruct (negb (is_cpus (mode dev))); [exact H|].
  destruct (for_u32 0 (num_traces dev) _ tt) as [st|u]; [exact H|].
  set (body := fun (cpu : Z) (st : insntrace_device_t * world) => _).
  pose proof (loop_dev_I1 body (num_traces dev) dev w) as L.
  match type of L with ?B -> ?C => assert (HB : B); [|specialize (L HB H)] end.
  - intros j d w1 Hd. subst body. cbv beta iota.
    destruct (x86_pt_stage_trace_data w1 d j) as [st w2].
    destruct (is_ok st); cbn [negb]; [|exact Hd].
    apply slot_store_released; [exact Hd|].
    pose proof (slot_at_released d j Hd) as Hs. exact Hs.
  - destruct (for_u32 0 (num_traces dev) body (dev, w)) as [r|[d' w']]; [exact L|].
    destruct (zx_mtrace_control w') as [[st regs] w2].
    destruct (is_ok st); cbn [negb res_dev fail]; [|exact L].
    apply (I1_same_slots d'); [reflexivity|exact L].
Qed.

Lemma get_trace_data_I1 w dev j :
  I1_pointers dev -> I1_pointers (snd (fst (x86_pt_get_trace_data w dev j))).
Proof.
  intros H. unfold x86_pt_get_trace_data.
  destruct (_ <=? _); [exact H|].
  destruct (zx_mtrace_control w) as [[st regs] w1].
  destruct (is_ok st); cbn [negb fst snd]; [|exact H].
  apply slot_store_released; [exact H|].
  exact (slot_at_released dev j H).
Qed.

Lemma stop_I1 w dev : I1_pointers dev -> I1_pointers (res_dev (ipt_stop w dev)).
Proof.
  intros H. unfold ipt_stop.
  destruct (negb (active dev)); [exact H|].
  destruct (zx_mtrace_control w) as [[st regs] w1].
  destruct (is_ok st); cbn [negb]; [|exact H].
  assert (H' : I1_pointers (set_active false dev))
    by (apply (I1_same_slots dev); [reflexivity|exact H]).
  cbv zeta. change (mode (set_active false dev)) with (mode dev).
  change (num_traces (set_active false dev)) with (num_traces dev).
  destruct (is_cpus (mode dev)); [|exact H'].
  set (body := fun (cpu : Z) (st : insntrace_device_t * world) => _).
  pose proof (loop_dev_I1 body (num_traces dev) (set_active false dev) w1) as L.
  match type of L with ?B -> ?C => assert (HB : B); [|specialize (L HB H')] end.
  - intros j d w2 Hd. subst body. cbv beta iota.
    pose proof (get_trace_data_I1 w2 d j Hd) as G.
    destruct (x86_pt_get_trace_data w2 d j) as [[st' d'] w3]. cbn [fst snd] in G.
    destruct (is_ok st'); cbn [negb]; [|exact G].
    apply slot_store_released; [exact G|].
    exact (slot_at_released d' j G).
  - destruct (for_u32 0 (num_traces dev) body (set_active false dev, w1))
      as [r|[d' w']]; exact L.
Qed.

Lemma free_buffer_slot w dev d dev' w' :
  x86_pt_free_buffer w dev d = (ZX_OK, dev', w') ->
  allocated (slot_at dev d) = true /\
  slot_at dev' d = fst (x86_pt_free_buffer1 w (slot_at dev d)).
Proof.
  unfold x86_pt_free_buffer. intros E.
  destruct (active dev); [discriminate E|].
  destruct (_ <=? _); [discriminate E|].
  destruct (allocated (slot_at dev d)) eqn:Ea; cbn [negb] in E; [|discriminate E].
  destruct (assigned (slot_at dev d)); [discriminate E|].
  rewrite free_buffer1_slot.
  destruct (x86_pt_free_buffer1 w (slot_at dev d)) as [q w2] eqn:Eq.
  pose proof (free_buffer1_slot w (slot_at dev d)) as Fq.
  rewrite Eq in Fq. cbn [fst] in Fq. subst q.
  injection E as <- _. split; [reflexivity|].
  unfold slot_at, slot_store in *.
  destruct (per_trace_state dev) as [l|]; [|discriminate Ea].
  cbn. destruct (l !! Z.to_nat d) as [p|] eqn:Ep; [|discriminate Ea].
  rewrite list_lookup_insert_eq by (apply lookup_lt_Some in Ep; exact Ep).
  reflexivity.
Qed.

(** C2 (amended): every operation keeps "a slot that is not allocated
    has no chunk array and no table array"; a successful free_buffer
    leaves the freed slot not allocated and without arrays, and leaves
    num_chunks, num_tables and chunk_order as they were. *)
Theorem I1_pointers_preserved w dev op cmdlen replymax :
  I1_pointers dev ->
  I1_pointers (res_dev (insntrace_ioctl_worker caps w dev op cmdlen replymax)) /\
  (forall d dev' w', x86_pt_free_buffer w dev d = (ZX_OK, dev', w') ->
     let p := slot_at dev d in
     let p' := slot_at dev' d in
     allocated p' = false /\ chunks p' = None /\ topas p' = None /\
     num_chunks p' = num_chunks p /\ num_tables p' = num_tables p /\
     chunk_order p' = chunk_order p).
Proof.
  intros H. split.
  - unfold insntrace_ioctl_worker.
    destruct (negb (is_alloc_trace op) && negb (has_traces dev)); [exact H|].
    destruct op.
    + destruct (negb (replymax =? 0)); [exact H|]. apply alloc_trace_I1; exact H.
    + destruct (_ || _); [exact H|]. apply free_trace_I1; exact H.
    + destruct (negb (cmdlen =? 0)); [exact H|].
      unfold ipt_get_trace_config. destruct (_ <? _); exact H.
    + unfold ipt_alloc_buffer.
      destruct (negb (cmdlen =? _)); [exact H|].
      destruct (_ <? _); [exact H|].
      pose proof (alloc_buffer_I1 w dev config H) as A.
      destruct (x86_pt_alloc_buffer caps w dev config) as [[[st d] dev'] w'].
      cbn [fst snd] in A. destruct (is_ok st); exact A.
    + destruct (negb (replymax =? 0)); [exact H|].
      unfold ipt_assign_thread_buffer. destruct (negb (cmdlen =? _)); exact H.
    + destruct (negb (replymax =? 0)); [exact H|].
      unfold ipt_release_thread_buffer. destruct (negb (cmdlen =? _)); exact H.
    + unfold ipt_get_buffer_config.
      repeat match goal with
             | |- context [if ?c then fail _ dev w else _] => destruct c; [exact H|]
             end.
      exact H.
    + unfold ipt_get_buffer_info.
      repeat match goal with
             | |- context [if ?c then fail _ dev w else _] => destruct c; [exact H|]
             end.
      exact H.
    + unfold ipt_get_chunk_handle.
      repeat match goal with
             | |- context [if ?c then fail _ dev w else _] => destruct c; [exact H|]
             end.
      destruct (zx_handle_call w) as [[st v] w1].
      destruct (negb (is_ok st)); [exact H|].
      destruct (zx_handle_call w1) as [[st' h] w2].
      destruct (negb (is_ok st')); exact H.
    + destruct (negb (replymax =? 0)); [exact H|].
      unfold ipt_free_buffer. destruct (negb (cmdlen =? _)); [exact H|].
      unfold x86_pt_free_buffer.
      repeat match goal with
             | |- context [if ?c then (_, dev, w) else _] => destruct c; [exact H|]
             end.
      pose proof (free_buffer1_released w (slot_at dev descriptor)) as F.
      destruct (x86_pt_free_buffer1 w (slot_at dev descriptor)) as [q w2].
      cbn [res_dev fail fst] in *. apply slot_store_released; [exact H|exact F].
    + destruct (_ || _); [exact H|]. apply start_I1; exact H.
    + destruct (_ || _); [exact H|]. apply stop_I1; exact H.
    + exact H.
  - intros d dev' w' E p p'. subst p p'.
    destruct (free_buffer_slot w dev d dev' w' E) as [_ ->].
    repeat split; reflexivity.
Qed.
End Lifecycle.

(** * The driver at concrete inputs *)

Section Scenarios.

Lemma sdm_table_entries_ok T : 2 <= T < 2 ^ 31 -> @table_entries_ok (sdm_header T).
Proof. intros H. exact H. Qed.

Lemma sdm_stop_bit_layout T : @stop_bit_layout (sdm_header T).
Proof.
  constructor; cbn [IPT_TOPA_ENTRY_STOP IPT_TOPA_ENTRY_PHYS_ADDR IPT_TOPA_ENTRY_SIZE
                    IPT_TOPA_ENTRY_END sdm_header].
  - discriminate.
  - intros pa. rewrite <- Z.land_assoc.
    change (Z.land (u64 (Z.lnot (Z.ones 12))) (bit 4)) with 0.
    apply Z.land_0_r.
  - intros s. apply Z.bits_inj'. intros i Hi.
    rewrite Z.land_spec, Z.bits_0. change (bit 4) with (2 ^ 4).
    rewrite Z.pow2_bits_eqb by lia.
    destruct (Z.eqb_spec 4 i) as [<-|]; [|apply andb_false_r].
    unfold u64. rewrite Z.mod_pow2_bits_low by lia.
    rewrite Z.shiftl_spec_low by lia. reflexivity.
  - reflexivity.
Qed.

Lemma sdm_extract_size_ok T : @extract_size_ok (sdm_header T).
Proof.
  unfold extract_size_ok.
  cbn [IPT_TOPA_ENTRY_STOP IPT_TOPA_ENTRY_PHYS_ADDR IPT_TOPA_ENTRY_SIZE
       IPT_TOPA_ENTRY_EXTRACT_SIZE IPT_TOPA_MIN_SHIFT IPT_TOPA_MAX_SHIFT sdm_header].
  intros pa s Hs.
  assert (Ea : Z.land (Z.shiftr (Z.land (u64 pa) (u64 (Z.lnot (Z.ones 12)))) 6) 15 = 0).
  { rewrite Z.shiftr_land, <- Z.land_assoc.
    change (Z.land (Z.shiftr (u64 (Z.lnot (Z.ones 12))) 6) 15) with 0.
    apply Z.land_0_r. }
  assert (Eb : Z.land (Z.shiftr (u64 (Z.shiftl (s - 12) 6)) 6) 15 = s - 12).
  { rewrite u64_small.
    - rewrite Z.shiftr_shiftl_l by lia. rewrite Z.sub_diag, Z.shiftl_0_r.
      change 15 with (Z.ones 4). rewrite Z.land_ones by lia.
      apply Z.mod_small. lia.
    - rewrite Z.shiftl_mul_pow2 by lia. lia. }
  split.
  - rewrite Z.shiftr_lor, Z.land_lor_distr_l, Ea, Eb, Z.lor_0_l.
    replace (s - 12 + 12) with s by lia. apply u32_small. lia.
  - rewrite !Z.shiftr_lor, !Z.land_lor_distr_l, Ea, Eb.
    change (Z.land (Z.shiftr (bit 4) 6) 15) with 0.
    rewrite Z.lor_0_l, Z.lor_0_r.
    replace (s - 12 + 12) with s by lia. apply u32_small. lia.
Qed.

Lemma within_mask_of_land {hdr : intel_pt_h} caps c :
  Z.land c (Z.lnot (settable_ctl_mask caps)) = 0 -> ctl_within_mask caps c.
Proof.
  intros E i Hi Hc.
  apply (f_equal (fun x => Z.testbit x i)) in E.
  rewrite Z.land_spec, Z.lnot_spec, Z.bits_0, Hc in E by lia.
  destruct (Z.testbit (settable_ctl_mask caps) i); [reflexivity|discriminate E].
Qed.

(** ** Counterexamples *)

(** C1 as stated fails: for one chunk the entry count of the stated
    formula is 1, below 2, and alloc_buffer accepts the request. *)
Lemma single_chunk_accepted :
  @spec_entry_count example_header 1 = 1 /\
  answers (@run_ioctls example_header full_caps (good_world 1) dev_init
             [ (IOCTL_INSNTRACE_ALLOC_TRACE (cpus_config 1), 8, 0);
               (IOCTL_INSNTRACE_ALLOC_BUFFER one_chunk_config, 96, 4) ])
  = [ (ZX_OK, None); (ZX_OK, Some (ReplyDescriptor 0, 4)) ].
Proof. split; vm_compute; reflexivity. Qed.

(** C2 as stated fails: after a successful free_buffer the freed slot
    still has num_chunks = 1 and num_tables = 1. *)
Lemma freed_slot_keeps_counts :
  let rs := @run_ioctls example_header full_caps (good_world 1) dev_init
              [ (IOCTL_INSNTRACE_ALLOC_TRACE (cpus_config 1), 8, 0);
                (IOCTL_INSNTRACE_ALLOC_BUFFER one_chunk_config, 96, 4);
                (IOCTL_INSNTRACE_FREE_BUFFER 0, 4, 0) ] in
  let p := @slot_at example_header (final_dev dev_init rs) 0 in
  map res_status rs = [ZX_OK; ZX_OK; ZX_OK] /\
  allocated p = false /\ num_chunks p = 1 /\ num_tables p = 1 /\
  num_chunks p <> 0 /\ num_tables p <> 0.
Proof. vm_compute. repeat split; discriminate. Qed.

(** C5 as stated fails: with one chunk the only table is not full; its
    END entry is in slot 1 and its last slot holds 0, which is not an
    END entry. *)
Lemma partial_table_last_slot_empty :
  let r := @x86_pt_alloc_buffer1 example_header full_caps (good_world 1)
             (@per_trace_zero example_header) 1 0 true in
  let p := snd (fst r) in
  let last_slot := @IPT_TOPA_MAX_TABLE_ENTRIES example_header - 1 in
  let link := @topa_end_entry example_header
                (phys_at (topas p) ((0 + 1) mod num_tables p)) in
  fst (fst r) = ZX_OK /\ num_tables p = 1 /\
  table_read (topas p) 0 last_slot = 0 /\
  Z.land (table_read (topas p) 0 last_slot) (@IPT_TOPA_ENTRY_END example_header) = 0 /\
  table_read (topas p) 0 last_slot <> link /\
  table_read (topas p) 0 1 = link.
Proof. vm_compute. repeat split; discriminate. Qed.

(** C7 as stated fails: alloc_trace on a processor without Processor
    Trace, and assign_thread_buffer in cpu mode, have an unmet
    precondition and answer ZX_ERR_NOT_SUPPORTED; get_buffer_config on a
    slot that is not allocated, with no room for the reply, answers
    ZX_ERR_BUFFER_TOO_SMALL. *)
Lemma unmet_precondition_other_answers :
  let op := IOCTL_INSNTRACE_ALLOC_TRACE (cpus_config 1) in
  let r := @insntrace_ioctl_worker example_header no_ipt_caps (good_world 1)
             dev_init op 8 0 in
  let op' := IOCTL_INSNTRACE_ASSIGN_THREAD_BUFFER 0 55 in
  let r' := @insntrace_ioctl_worker example_header full_caps (good_world 1)
              (@dev_one_cpu example_header) op' 8 0 in
  let op'' := IOCTL_INSNTRACE_GET_BUFFER_CONFIG 0 in
  let r'' := @insntrace_ioctl_worker example_header full_caps (good_world 1)
               (@dev_one_cpu example_header) op'' 4 0 in
  @lifecycle_precondition example_header no_ipt_caps dev_init op = false /\
  res_status r = ZX_ERR_NOT_SUPPORTED /\
  res_status r <> ZX_ERR_BAD_STATE /\ res_status r <> ZX_ERR_INVALID_ARGS /\
  @lifecycle_precondition example_header full_caps (@dev_one_cpu example_header) op'
    = false /\
  res_status r' = ZX_ERR_NOT_SUPPORTED /\
  @lifecycle_precondition example_header full_caps (@dev_one_cpu example_header) op''
    = false /\
  res_status r'' = ZX_ERR_BUFFER_TOO_SMALL.
Proof. vm_compute. repeat split; discriminate. Qed.

(** C9 as stated fails.  With saved registers that carry the largest
    byte offset, get_buffer_info reports 4294967295 bytes for a buffer of
    4096.  With saved registers whose entry index is 2, past the END
    entry of the one-chunk buffer, and offset 0, it reports 8192 bytes
    for the same buffer: the walk counts the END entry as 4096 bytes. *)
Lemma capture_exceeds_buffer :
  let run := fun regs =>
    @run_ioctls example_header full_caps (world_mtrace 1 4 ZX_OK regs) dev_init
      [ (IOCTL_INSNTRACE_ALLOC_TRACE (cpus_config 1), 8, 0);
        (IOCTL_INSNTRACE_ALLOC_BUFFER one_chunk_config, 96, 4);
        (IOCTL_INSNTRACE_START, 0, 0);
        (IOCTL_INSNTRACE_STOP, 0, 0);
        (IOCTL_INSNTRACE_GET_BUFFER_INFO 0, 4, 8) ] in
  let p := @slot_at example_header (final_dev dev_init (run far_offset_regs)) 0 in
  let p' := @slot_at example_header (final_dev dev_init (run past_end_regs)) 0 in
  (answers (run far_offset_regs)
   = [ (ZX_OK, None); (ZX_OK, Some (ReplyDescriptor 0, 4));
       (ZX_OK, None); (ZX_OK, None);
       (ZX_OK, Some (ReplyBufferInfo 4294967295, 8)) ] /\
   allocated p = true /\
   @compute_capture_size example_header p = 4294967295 /\
   num_chunks p * 2 ^ chunk_order p * PAGE_SIZE = 4096) /\
  (answers (run past_end_regs)
   = [ (ZX_OK, None); (ZX_OK, Some (ReplyDescriptor 0, 4));
       (ZX_OK, None); (ZX_OK, None);
       (ZX_OK, Some (ReplyBufferInfo 8192, 8)) ] /\
   allocated p' = true /\
   output_base p' = phys_at (topas p') 0 /\
   Z.shiftr (u32 (output_mask_ptrs p')) 7 = 2 /\
   u32 (Z.shiftr (output_mask_ptrs p') 32) = 0 /\
   num_chunks p' = 1 /\
   @compute_capture_size example_header p' = 8192 /\
   num_chunks p' * 2 ^ chunk_order p' * PAGE_SIZE = 4096).
Proof. vm_compute. repeat split; reflexivity. Qed.

(** ** The code at the failing inputs *)

(** C3: the reply of get_trace_config carries the mode; its num_traces
    field is the uninitialised local, whatever the device's num_traces. *)
Theorem get_trace_config_num_traces_uninitialised :
  (forall (hdr : intel_pt_h) w dev replymax,
     res_reply (ipt_get_trace_config w dev replymax) =
     if replymax <? sizeof_trace_config then None
     else Some (ReplyTraceConfig
                  {| tc_mode := if is_cpus (mode dev) then IPT_MODE_CPUS
                                else IPT_MODE_THREADS;
                     tc_num_traces := w_uninit w |}, sizeof_trace_config)) /\
  (let rs := @run_ioctls example_header full_caps (good_world 4) dev_init
               [ (IOCTL_INSNTRACE_ALLOC_TRACE (cpus_config 4), 8, 0);
                 (IOCTL_INSNTRACE_GET_TRACE_CONFIG, 0, 8) ] in
   num_traces (final_dev dev_init rs) = 4 /\
   answers rs =
     [ (ZX_OK, None);
       (ZX_OK, Some (ReplyTraceConfig {| tc_mode := 0; tc_num_traces := 0xdeadbeef |},
                     8)) ]).
Proof.
  split.
  - intros hdr w dev replymax. unfold ipt_get_trace_config.
    destruct (replymax <? sizeof_trace_config); [reflexivity|].
    destruct (mode dev); reflexivity.
  - vm_compute. split; reflexivity.
Qed.

(** C4: when the privileged FREE_TRACE fails, free_trace answers ZX_OK,
    the traces stay, and the operations that follow are served. *)
Theorem free_trace_failure_not_flagged :
  let rs := @run_ioctls example_header full_caps
              (world_mtrace 1 1 ZX_ERR_INTERNAL regs_zero) dev_init
              [ (IOCTL_INSNTRACE_ALLOC_TRACE (cpus_config 1), 8, 0);
                (IOCTL_INSNTRACE_FREE_TRACE, 0, 0);
                (IOCTL_INSNTRACE_GET_TRACE_CONFIG, 0, 8);
                (IOCTL_INSNTRACE_ALLOC_BUFFER one_chunk_config, 96, 4);
                (IOCTL_INSNTRACE_START, 0, 0) ] in
  map res_status rs = [ZX_OK; ZX_OK; ZX_OK; ZX_OK; ZX_OK] /\
  map (fun r => has_traces (res_dev r)) rs = [true; true; true; true; true].
Proof. vm_compute. split; reflexivity. Qed.

(** ** The theorems at concrete inputs *)

(** One chunk on the one-cpu device: one table. *)
Lemma alloc_buffer_table_count_witness :
  let r := @x86_pt_alloc_buffer example_header full_caps (good_world 1)
             (@dev_one_cpu example_header) one_chunk_config in
  let p := @slot_at example_header (snd (fst r)) (snd (fst (fst r))) in
  num_chunks p = 1 /\ num_tables p = @ceil_div (1 + @ceil_div 1 2047) 2048.
Proof.
  intros r p.
  pose proof (@alloc_buffer_table_count example_header full_caps (good_world 1)
                (@dev_one_cpu example_header) one_chunk_config
                (snd (fst (fst r))) (snd (fst r)) (snd r)) as H.
  assert (HT : @table_entries_ok example_header) by (vm_compute; split; [discriminate|reflexivity]).
  assert (Hwf : device_wf (@dev_one_cpu example_header))
    by (vm_compute; split; [discriminate|reflexivity]).
  assert (Hn : 1 <= bc_num_chunks one_chunk_config <= MAX_NUM_CHUNKS)
    by (vm_compute; split; discriminate).
  assert (E : @x86_pt_alloc_buffer example_header full_caps (good_world 1)
                (@dev_one_cpu example_header) one_chunk_config
              = (ZX_OK, snd (fst (fst r)), snd (fst r), snd r))
    by (vm_compute; reflexivity).
  destruct (H HT Hwf Hn E) as (H1 & H2 & _).
  split; [exact H1|exact H2].
Defined.

(** One chunk: the guard is false. *)
Lemma entry_count_guard_unreachable_witness :
  (@compute_topa_entry_count example_header
     (set_num_chunks 1 (@per_trace_zero example_header)) <? 2) = false.
Proof.
  pose proof (@entry_count_guard_unreachable example_header full_caps 1) as H.
  assert (HT : @table_entries_ok example_header)
    by (vm_compute; split; [discriminate|reflexivity]).
  assert (Hu : 0 <= 1 < 2 ^ 32) by (vm_compute; split; [discriminate|reflexivity]).
  destruct (H HT Hu eq_refl) as [H1 _].
  exact (proj2 (proj2 (H1 (set_num_chunks 1 (@per_trace_zero example_header))
                          eq_refl))).
Defined.

(** Five chunks in tables of four entries: table 0 is full and links to
    table 1 from slot 3, table 1 links back from slot 2. *)
Lemma topa_ring_links_witness :
  let r := @x86_pt_alloc_buffer1 small_header full_caps (good_world 1)
             (@per_trace_zero small_header) 5 0 false in
  let p := snd (fst r) in
  num_tables p = 2 /\
  table_read (topas p) 0 3 = @topa_end_entry small_header (phys_at (topas p) 1) /\
  table_read (topas p) 1 2 = @topa_end_entry small_header (phys_at (topas p) 0).
Proof.
  intros r p.
  assert (HT : @table_entries_ok small_header) by (vm_compute; split; [discriminate|reflexivity]).
  assert (Hn : 1 <= 5 <= MAX_NUM_CHUNKS) by (vm_compute; split; discriminate).
  assert (E : @x86_pt_alloc_buffer1 small_header full_caps (good_world 1)
                (@per_trace_zero small_header) 5 0 false = (ZX_OK, p, snd r))
    by (vm_compute; reflexivity).
  assert (Hnt : num_tables p = 2) by (vm_compute; reflexivity).
  pose proof (@topa_ring_links small_header full_caps _ _ _ _ _ _ _ HT Hn E) as H.
  split; [exact Hnt|]. split.
  - assert (H0 : 0 <= 0 < num_tables p) by (vm_compute; split; [discriminate|reflexivity]).
    exact (proj2 (proj2 (H 0 H0))).
  - assert (H1 : 0 <= 1 < num_tables p) by (vm_compute; split; [discriminate|reflexivity]).
    exact (proj2 (proj2 (H 1 H1))).
Defined.

(** Five chunks, not circular: STOP is on the fifth data entry only. *)
Lemma topa_stop_bit_witness :
  let r := @x86_pt_alloc_buffer1 small_header full_caps (good_world 1)
             (@per_trace_zero small_header) 5 0 false in
  let p := snd (fst r) in
  @has_stop small_header (table_read (topas p) 1 1) = true /\
  @has_stop small_header (table_read (topas p) 1 0) = false /\
  @has_stop small_header (table_read (topas p) 1 2) = false.
Proof.
  intros r p.
  assert (HT : @table_entries_ok small_header) by (vm_compute; split; [discriminate|reflexivity]).
  assert (Hn : 1 <= 5 <= MAX_NUM_CHUNKS) by (vm_compute; split; discriminate).
  assert (E : @x86_pt_alloc_buffer1 small_header full_caps (good_world 1)
                (@per_trace_zero small_header) 5 0 false = (ZX_OK, p, snd r))
    by (vm_compute; reflexivity).
  pose proof (@topa_stop_bit small_header full_caps _ _ _ _ _ _ _ HT
                (sdm_stop_bit_layout 4) Hn E) as H.
  assert (H1 : 0 <= 1 < num_tables p) by (vm_compute; split; [discriminate|reflexivity]).
  assert (B0 : 0 <= 0 < @IPT_TOPA_MAX_TABLE_ENTRIES small_header)
    by (vm_compute; split; [discriminate|reflexivity]).
  assert (B1 : 0 <= 1 < @IPT_TOPA_MAX_TABLE_ENTRIES small_header)
    by (vm_compute; split; [discriminate|reflexivity]).
  assert (B2 : 0 <= 2 < @IPT_TOPA_MAX_TABLE_ENTRIES small_header)
    by (vm_compute; split; [discriminate|reflexivity]).
  split; [exact (H 1 1 H1 B1)|].
  split; [exact (H 1 0 H1 B0)|exact (H 1 2 H1 B2)].
Defined.

(** Five chunks of one page, stopped 100 bytes into the fifth: entry 1
    of table 1, the first table at 7 MiB. *)
Lemma capture_within_buffer_witness :
  let r := @x86_pt_alloc_buffer1 small_header full_caps (good_world 1)
             (@per_trace_zero small_header) 5 0 false in
  let p := snd (fst r) in
  let size := @compute_capture_size small_header (set_regs second_table_regs p) in
  0 <= size <= 5 * (2 ^ 0 * PAGE_SIZE) /\
  size = (1 * 3 + 1) * (2 ^ 0 * PAGE_SIZE) + 100.
Proof.
  intros r p size.
  assert (HT : @table_entries_ok small_header) by (vm_compute; split; [discriminate|reflexivity]).
  assert (Hn : 1 <= 5 <= MAX_NUM_CHUNKS) by (vm_compute; split; discriminate).
  assert (Ho : 0 <= 0 <= MAX_CHUNK_ORDER) by (vm_compute; split; discriminate).
  assert (Hs : @IPT_TOPA_MIN_SHIFT small_header <= 0 + PAGE_SIZE_SHIFT
               <= @IPT_TOPA_MAX_SHIFT small_header)
    by (vm_compute; split; discriminate).
  assert (E : @x86_pt_alloc_buffer1 small_header full_caps (good_world 1)
                (@per_trace_zero small_header) 5 0 false = (ZX_OK, p, snd r))
    by (vm_compute; reflexivity).
  assert (Ht : 0 <= 1 < num_tables p) by (vm_compute; split; [discriminate|reflexivity]).
  assert (Hb : r_output_base second_table_regs = phys_at (topas p) 1)
    by (vm_compute; reflexivity).
  assert (Hi : Z.shiftr (u32 (r_output_mask_ptrs second_table_regs)) 7
               < @IPT_TOPA_MAX_TABLE_ENTRIES small_header - 1)
    by (vm_compute; reflexivity).
  assert (Hp : 1 * (@IPT_TOPA_MAX_TABLE_ENTRIES small_header - 1)
               + Z.shiftr (u32 (r_output_mask_ptrs second_table_regs)) 7 <= 5)
    by (vm_compute; discriminate).
  assert (Hoff : u32 (Z.shiftr (r_output_mask_ptrs second_table_regs) 32)
                 <= (5 - (1 * (@IPT_TOPA_MAX_TABLE_ENTRIES small_header - 1)
                          + Z.shiftr (u32 (r_output_mask_ptrs second_table_regs)) 7))
                    * (2 ^ 0 * PAGE_SIZE))
    by (vm_compute; discriminate).
  assert (Hf : forall j, 0 <= j < 1 ->
                 phys_at (topas p) j <> r_output_base second_table_regs).
  { intros j Hj. assert (j = 0) as -> by lia. vm_compute. discriminate. }
  destruct (@capture_within_buffer small_header full_caps _ _ _ _ _ _ _
              second_table_regs HT (sdm_extract_size_ok 4) Hn Ho Hs E)
    as [_ H].
  destruct (H 1 Ht Hb Hi Hp) as [H1 H2].
  split; [exact (H1 Hoff)|exact (proj1 (H2 Hf))].
Defined.

(** CR3_FILTER without the capability is rejected; TSC_EN | BRANCH_EN
    passes on to the slot search. *)
Lemma ctl_validation_witness :
  @x86_pt_alloc_buffer example_header no_cr3_caps (good_world 1)
     (@dev_one_cpu example_header) cr3_filter_config
  = (ZX_ERR_INVALID_ARGS, 0, @dev_one_cpu example_header, good_world 1) /\
  @x86_pt_alloc_buffer example_header full_caps (good_world 1)
     (@dev_one_cpu example_header) one_chunk_config
  = @x86_pt_alloc_buffer_slot example_header full_caps (good_world 1)
      (@dev_one_cpu example_header) one_chunk_config /\
  fst (fst (fst (@x86_pt_alloc_buffer example_header full_caps (good_world 1)
                   (@dev_one_cpu example_header) one_chunk_config))) = ZX_OK.
Proof.
  split; [|split; [|vm_compute; reflexivity]].
  - apply (proj1 (proj2 (@ctl_validation example_header no_cr3_caps (good_world 1)
                           (@dev_one_cpu example_header) cr3_filter_config))).
    left. exists 7. vm_compute. repeat split; discriminate.
  - apply (proj2 (proj2 (@ctl_validation example_header full_caps (good_world 1)
                           (@dev_one_cpu example_header) one_chunk_config))).
    + vm_compute. repeat split; discriminate.
    + apply within_mask_of_land. vm_compute. reflexivity.
    + left. vm_compute. reflexivity.
    + left. vm_compute. reflexivity.
    + left. vm_compute. reflexivity.
    + vm_compute. reflexivity.
Defined.

(** START before any ALLOC_TRACE. *)
Lemma unmet_precondition_rejected_witness :
  let r := @insntrace_ioctl_worker example_header full_caps (good_world 1)
             dev_init IOCTL_INSNTRACE_START 0 0 in
  res_dev r = dev_init /\ res_status r = ZX_ERR_BAD_STATE.
Proof.
  intros r.
  destruct (@unmet_precondition_rejected example_header full_caps (good_world 1)
              dev_init IOCTL_INSNTRACE_START 0 0 eq_refl) as (Hd & _ & _ & _).
  split; [exact Hd|]. vm_compute. reflexivity.
Defined.

Lemma dev_one_buffer_I1 : I1_pointers dev_one_buffer.
Proof.
  intros l E.
  assert (El : l = [@slot_at small_header dev_one_buffer 0])
    by (vm_compute in E; injection E as <-; vm_compute; reflexivity).
  subst l. constructor; [|constructor].
  intros Ha. vm_compute in Ha. discriminate Ha.
Qed.

(** FREE_BUFFER of the one buffer of a one-cpu device. *)
Lemma I1_pointers_preserved_witness :
  let w := good_world 1 in
  let r := @insntrace_ioctl_worker small_header full_caps w dev_one_buffer
             (IOCTL_INSNTRACE_FREE_BUFFER 0) 4 0 in
  let p := @slot_at small_header dev_one_buffer 0 in
  let p' := @slot_at small_header
              (snd (fst (@x86_pt_free_buffer small_header w dev_one_buffer 0))) 0 in
  allocated p = true /\ chunks p <> None /\ topas p <> None /\
  I1_pointers dev_one_buffer /\
  res_status r = ZX_OK /\ I1_pointers (res_dev r) /\
  allocated p' = false /\ chunks p' = None /\ topas p' = None /\
  num_chunks p' = num_chunks p /\ num_tables p' = num_tables p /\
  chunk_order p' = chunk_order p.
Proof.
  intros w r p p'.
  split; [vm_compute; reflexivity|].
  split; [vm_compute; discriminate|].
  split; [vm_compute; discriminate|].
  split; [exact dev_one_buffer_I1|].
  split; [vm_compute; reflexivity|].
  destruct (@I1_pointers_preserved small_header full_caps w dev_one_buffer
              (IOCTL_INSNTRACE_FREE_BUFFER 0) 4 0 dev_one_buffer_I1) as [H1 H2].
  split; [exact H1|].
  assert (E : @x86_pt_free_buffer small_header w dev_one_buffer 0
              = (ZX_OK,
                 snd (fst (@x86_pt_free_buffer small_header w dev_one_buffer 0)),
                 snd (@x86_pt_free_buffer small_header w dev_one_buffer 0)))
    by (vm_compute; reflexivity).
  exact (H2 0 _ _ E).
Defined.
End Scenarios.

(** * Further properties of the code *)

(** ** Buffers: alignment, single-entry ToPA, data entries, the asserts of make_topa *)

Section MoreBuffers.
Context {hdr : intel_pt_h}.
Variable caps : ipt_config_t.

Lemma align_mask_ones order :
  0 <= order <= MAX_CHUNK_ORDER ->
  u64 (Z.shiftl 1 (u32 (PAGE_SIZE_SHIFT + order)) - 1) = Z.ones (PAGE_SIZE_SHIFT + order).
Proof.
  unfold MAX_CHUNK_ORDER, PAGE_SIZE_SHIFT. intros Ho.
  rewrite u32_small by lia. rewrite Z.shiftl_1_l, Z.ones_equiv.
  apply u64_small.
  assert (0 < 2 ^ (12 + order)) by (apply Z.pow_pos_nonneg; lia).
  assert (2 ^ (12 + order) <= 2 ^ 20) by (apply Z.pow_le_mono_r; lia).
  lia.
Qed.

Lemma alloc_chunk_loop_aligned w num order :
  0 <= num < 2 ^ 32 -> 0 <= order <= MAX_CHUNK_ORDER ->
  match for_u32 0 num (alloc_chunk_step order (Z.shiftl 1 order))
          (slot_with 0 0 false 0 (Some (replicate (Z.to_nat num) io_buffer_zero)) None,
           w) with
  | Return r => True
  | Continue (p, w') =>
      exists cs, length cs = Z.to_nat num /\
                 Forall (chunk_aligned order) cs /\
                 p = slot_with num 0 false 0 (Some cs) None
  end.
Proof.
  intros Hnum Ho.
  set (P := fun (j : Z) (st : ipt_per_trace_state_t * world) =>
              exists cs, length cs = Z.to_nat num /\
                (forall i b, (i < Z.to_nat j)%nat -> cs !! i = Some b ->
                             chunk_aligned order b) /\
                fst st = slot_with j 0 false 0 (Some cs) None).
  pose proof (for_u32_ind P (fun _ => True)
    (alloc_chunk_step order (Z.shiftl 1 order)) 0 num
    (slot_with 0 0 false 0 (Some (replicate (Z.to_nat num) io_buffer_zero)) None, w)
    ltac:(lia)) as L.
  match type of L with ?A -> ?B -> ?C => assert (HA : A); [|assert (HB : B);
     [|specialize (L HA HB)]] end.
  - eexists; split; [apply length_replicate|split; [|reflexivity]].
    intros i b Hi. lia.
  - intros j [p w1] Hj (cs & Hlen & Hal & Hp). simpl in Hp. subst p.
    unfold alloc_chunk_step, io_buffer_init_aligned, io_buffer_init.
    destruct (w_io w1 O) as [st [pa h]] eqn:Eio.
    destruct (is_ok st) eqn:Est; cbn [negb]; [|exact I].
    cbn [chunks set_chunks set_num_chunks slot_with buf_store buf_at num_chunks].
    rewrite list_lookup_insert_eq by lia. unfold default, id.
    cbn [from_option io_phys].
    rewrite align_mask_ones by exact Ho.
    destruct (Z.eqb_spec (Z.land pa (Z.ones (PAGE_SIZE_SHIFT + order))) 0) as [Ea|];
      cbn [negb]; [|exact I].
    rewrite Z.land_ones in Ea by (unfold PAGE_SIZE_SHIFT; lia).
    eexists. split; [|split; [|cbn [fst]; unfold slot_with; rewrite u32_small by lia;
                               reflexivity]].
    + rewrite length_insert. exact Hlen.
    + intros i b Hi Hb.
      destruct (decide (i = Z.to_nat j)) as [->|Hne].
      * rewrite list_lookup_insert_eq in Hb by lia. injection Hb as <-. exact Ea.
      * rewrite list_lookup_insert_ne in Hb by congruence.
        apply (Hal i b); [lia|exact Hb].
  - destruct (for_u32 _ _ _ _) as [r|[p w']]; [exact I|].
    destruct L as (cs & Hlen & Hal & Hp). simpl in Hp.
    exists cs. split; [exact Hlen|split; [|exact Hp]].
    apply Forall_lookup. intros i b Hb. apply (Hal i b); [|exact Hb].
    apply lookup_lt_Some in Hb. lia.
Qed.

Lemma alloc_buffer1_success w p0 num order circ p w' :
  table_entries_ok -> 0 <= num <= MAX_NUM_CHUNKS -> 0 <= order <= MAX_CHUNK_ORDER ->
  x86_pt_alloc_buffer1 caps w p0 num order circ = (ZX_OK, p, w') ->
  let nt := ceil_div num (IPT_TOPA_MAX_TABLE_ENTRIES - 1) in
  1 <= num /\
  (ipt_config_output_topa_multi caps = true \/ num = 1) /\
  exists cs ts, length cs = Z.to_nat num /\ length ts = Z.to_nat nt /\
    Forall (chunk_aligned order) cs /\ Forall zero_table ts /\
    p = make_topa (slot_built num order circ nt cs ts).
Proof.
  intros HT Hnum Ho E nt.
  pose proof HT as HT'. unfold table_entries_ok in HT'.
  pose proof Hnum as Hnum'. unfold MAX_NUM_CHUNKS in Hnum'.
  assert (HD : 0 < IPT_TOPA_MAX_TABLE_ENTRIES - 1) by lia.
  pose proof (ceil_div_bounds num _ HD) as Hnt. fold nt in Hnt.
  unfold x86_pt_alloc_buffer1, calloc in E.
  destruct (w_calloc w O); cbn [negb fst snd] in E; [|discriminate E].
  set (w1 := mk_world _ _ _ _ _ _ _) in E.
  pose proof (alloc_chunk_loop_aligned w1 num order ltac:(lia) Ho) as L1.
  change (set_chunks (Some (replicate (Z.to_nat num) io_buffer_zero)) per_trace_zero)
    with (slot_with 0 0 false 0 (Some (replicate (Z.to_nat num) io_buffer_zero)) None)
    in E.
  destruct (for_u32 0 num _ _) as [r|[q w2]] eqn:Eloop.
  { (* a return out of the chunk loop is never ZX_OK *)
    pose proof (alloc_chunk_loop w1 w1 num order ltac:(lia) ltac:(reflexivity)) as L0.
    rewrite Eloop in L0. destruct L0 as [L0 _]. exfalso. apply L0.
    rewrite E. reflexivity. }
  destruct L1 as (cs & Hcs & Hal & ->).
  change (set_is_circular circ (set_chunk_order order (slot_with num 0 false 0 (Some cs) None)))
    with (slot_with num order circ 0 (Some cs) None) in E.
  rewrite compute_topa_entry_count_eq in E by (cbn [num_chunks slot_with]; assumption).
  cbn [num_chunks slot_with] in E. fold nt in E.
  assert (Htc : u32 (num + nt + IPT_TOPA_MAX_TABLE_ENTRIES - 1) /
                u32 IPT_TOPA_MAX_TABLE_ENTRIES = nt).
  { rewrite !u32_small by nia.
    pose proof (table_count_eq num HT ltac:(lia)) as E'. fold nt in E'.
    unfold ceil_div in E' at 1. exact E'. }
  rewrite Htc in E.
  destruct (Z.ltb_spec (num + nt) 2) as [|Hcnt]; [discriminate E|].
  assert (H1 : 1 <= num) by nia.
  destruct (negb (ipt_config_output_topa_multi caps) && (2 <? num + nt)) eqn:Emulti;
    [discriminate E|].
  destruct (w_calloc w2 O); cbn [negb fst snd] in E; [|discriminate E].
  set (w3 := mk_world _ _ _ _ _ _ _) in E.
  change (set_topas (Some (replicate (Z.to_nat nt) io_buffer_zero))
            (slot_with num order circ 0 (Some cs) None))
    with (slot_with num order circ 0 (Some cs)
            (Some (replicate (Z.to_nat nt) io_buffer_zero))) in E.
  pose proof (alloc_table_loop w3 cs num order circ nt ltac:(nia)) as L2.
  destruct (for_u32 0 nt _ _) as [r|[q w4]].
  { unfold status_of in L2. rewrite E in L2. discriminate L2. }
  destruct L2 as (ts & Hts & Hz & ->). injection E as <- <-.
  split; [exact H1|]. split.
  - destruct (ipt_config_output_topa_multi caps); [left; reflexivity|right].
    cbn [negb andb] in Emulti. apply Z.ltb_ge in Emulti. nia.
  - exists cs, ts. auto.
Qed.

(** X1: after a successful x86_pt_alloc_buffer1 the slot has exactly
    num chunks and each one is aligned to its size. *)
Theorem alloc_chunks_aligned w p0 num order circ p w' :
  table_entries_ok -> 0 <= num <= MAX_NUM_CHUNKS -> 0 <= order <= MAX_CHUNK_ORDER ->
  x86_pt_alloc_buffer1 caps w p0 num order circ = (ZX_OK, p, w') ->
  num_chunks p = num /\
  exists cs, chunks p = Some cs /\ length cs = Z.to_nat num /\
             Forall (chunk_aligned order) cs.
Proof.
  intros HT Hn Ho E.
  destruct (alloc_buffer1_success w p0 num order circ p w' HT Hn Ho E)
    as (_ & _ & cs & ts & Hcs & _ & Hal & _ & ->).
  split; [reflexivity|]. exists cs. repeat split; assumption.
Qed.

(** X2: on a processor without multi-entry ToPA output only a buffer of
    one chunk can be allocated, and it has one table. *)
Theorem single_entry_topa_only w p0 num order circ p w' :
  table_entries_ok -> 0 <= num <= MAX_NUM_CHUNKS -> 0 <= order <= MAX_CHUNK_ORDER ->
  ipt_config_output_topa_multi caps = false ->
  x86_pt_alloc_buffer1 caps w p0 num order circ = (ZX_OK, p, w') ->
  num = 1 /\ num_chunks p = 1 /\ num_tables p = 1.
Proof.
  intros HT Hn Ho Hm E. pose proof HT as HT'. unfold table_entries_ok in HT'.
  destruct (alloc_buffer1_success w p0 num order circ p w' HT Hn Ho E)
    as (_ & [Hmulti|H1] & _); [congruence|]. subst num.
  destruct (alloc_buffer1_tables caps w p0 1 order circ p w' HT ltac:(lia) E)
    as (Hnc & _ & _ & _ & Hnt & _).
  repeat split; [exact Hnc|lia].
Qed.

(** X3: chunk g has its data entry in table g / (T-1), slot g mod (T-1):
    its address and size, with STOP only on the last chunk of a buffer
    that is not circular. *)
Theorem topa_data_layout w p0 num order circ p w' :
  table_entries_ok -> 1 <= num <= MAX_NUM_CHUNKS ->
  x86_pt_alloc_buffer1 caps w p0 num order circ = (ZX_OK, p, w') ->
  forall g, 0 <= g < num ->
    let D := IPT_TOPA_MAX_TABLE_ENTRIES - 1 in
    let entry :=
      Z.lor (IPT_TOPA_ENTRY_PHYS_ADDR (io_phys (buf_at (chunks p) g)))
            (IPT_TOPA_ENTRY_SIZE (order + PAGE_SIZE_SHIFT)) in
    0 <= g / D < num_tables p /\ 0 <= g mod D < D /\
    table_read (topas p) (g / D) (g mod D) =
      if (g =? num - 1) && negb circ then Z.lor entry IPT_TOPA_ENTRY_STOP else entry.
Proof.
  intros HT Hn E g Hg D entry. pose proof HT as HT'. unfold table_entries_ok in HT'.
  destruct (alloc_buffer1_tables caps w p0 num order circ p w' HT Hn E)
    as (Hnc & Hord & Hc & _ & Hnt & B & _ & Hrd).
  fold D in B. assert (HD : 0 < D) by (unfold D; lia).
  pose proof (Z.div_mod g D ltac:(lia)) as Edm.
  pose proof (Z.mod_pos_bound g D HD) as Bm.
  assert (Bd : 0 <= g / D < num_tables p).
  { split; [apply Z.div_pos; lia|]. apply Z.div_lt_upper_bound; lia. }
  split; [exact Bd|]. split; [exact Bm|].
  rewrite Hrd by (unfold D in *; lia).
  unfold topa_expected. fold D. rewrite Hnc, Hc.
  destruct (Z.ltb_spec (g mod D) D); [|lia].
  replace (g / D * D + g mod D) with g by lia.
  destruct (Z.ltb_spec g num); [|lia].
  unfold topa_data_entry. rewrite Hord. reflexivity.
Qed.

(** X4: the assert after the first loop of make_topa holds, and
    last_entry is not NULL, whenever the slot has the table count that
    x86_pt_alloc_buffer1 computes. *)
Theorem make_topa_asserts_hold n order circ cs ts :
  table_entries_ok -> 1 <= n <= MAX_NUM_CHUNKS ->
  let nt := ceil_div n (IPT_TOPA_MAX_TABLE_ENTRIES - 1) in
  let q := slot_built n order circ nt cs ts in
  length ts = Z.to_nat nt -> Forall zero_table ts ->
  exists c,
    for_u32 0 (num_chunks q) (make_topa_data_step q)
      (mk_cursor (topas q) 0 0 None) = Continue c /\
    cursor_assert q c /\ is_Some (last_entry c).
Proof.
  intros HT Hn nt q Hlen Hz.
  pose proof HT as HT'. unfold table_entries_ok in HT'.
  pose proof Hn as Hn'. unfold MAX_NUM_CHUNKS in Hn'.
  set (D := IPT_TOPA_MAX_TABLE_ENTRIES - 1) in *.
  assert (HD : 0 < D) by (subst D; lia).
  pose proof (ceil_div_bounds n D HD) as Bnt. fold nt in Bnt.
  assert (Hnt : 1 <= nt <= n) by nia.
  destruct (make_topa_data_loop q ts nt n HT ltac:(fold D; lia) ltac:(lia)
              (zero_tables_shaped ts nt Hlen Hz)
              (fun t e => zero_tables_read ts t e Hz))
    as (c & Ec & _ & _ & Hct & Hci & Hpos & Hlast & _).
  fold D in Hci, Hpos, Hlast.
  exists c. split; [exact Ec|]. split.
  - unfold cursor_assert. change (num_tables q) with nt.
    destruct (Z.eq_dec (curr_idx c) 0) as [E0|N0].
    + right. split; [|exact E0].
      assert (D * curr_table c = n) by lia.
      assert (D * (nt - 1) < D * curr_table c) by lia.
      assert (D * curr_table c <= D * nt) by lia.
      assert (nt - 1 < curr_table c) by (apply (Z.mul_lt_mono_pos_l D); lia).
      assert (curr_table c <= nt) by (apply (Z.mul_le_mono_pos_l _ _ D); lia).
      lia.
    + left.
      assert (D * curr_table c < D * nt) by lia.
      assert (D * (nt - 1) < D * (curr_table c + 1)) by lia.
      assert (curr_table c < nt) by (apply (Z.mul_lt_mono_pos_l D); lia).
      assert (nt - 1 < curr_table c + 1) by (apply (Z.mul_lt_mono_pos_l D); lia).
      lia.
  - destruct (Hlast ltac:(lia)) as (lt & li & -> & _). eexists. reflexivity.
Qed.
End MoreBuffers.

(** ** The capture walk *)

Section MoreCapture.
Context {hdr : intel_pt_h}.
Variable caps : ipt_config_t.

Lemma capture_walk_table_unmatched pt j total :
  table_entries_ok ->
  phys_at (topas pt) j <> output_base pt ->
  exists tot, capture_walk_table pt j total = Continue tot.
Proof.
  intros HT Hne. pose proof HT as HT'. unfold table_entries_ok in HT'.
  unfold capture_walk_table. fold (phys_at (topas pt) j).
  rewrite u32_small by lia.
  set (body := fun (entry total_size : Z) => _).
  assert (HD : 0 <= IPT_TOPA_MAX_TABLE_ENTRIES - 1) by lia.
  pose proof (for_u32_ind (fun _ _ => True) (fun _ : Z => False) body
                0 (IPT_TOPA_MAX_TABLE_ENTRIES - 1) total HD I) as L.
  destruct (for_u32 0 _ body total) as [r|tot].
  - exfalso. apply L. intros e tot _ _. subst body. cbv beta.
    destruct (Z.eqb_spec (phys_at (topas pt) j) (output_base pt)); [contradiction|].
    exact I.
  - eexists. reflexivity.
Qed.

(** X5: when the saved output base is the address of none of the slot's
    tables, the walk falls off the end and the capture size is 0. *)
Theorem capture_size_unmatched pt :
  table_entries_ok -> 0 <= num_tables pt ->
  (forall j, 0 <= j < num_tables pt -> phys_at (topas pt) j <> output_base pt) ->
  compute_capture_size pt = 0.
Proof.
  intros HT Hnt Hne. unfold compute_capture_size.
  pose proof (for_u32_ind (fun _ _ => True) (fun _ : Z => False)
                (capture_walk_table pt) 0 (num_tables pt) 0 Hnt I) as L.
  destruct (for_u32 0 (num_tables pt) (capture_walk_table pt) 0) as [r|tot];
    [|reflexivity].
  exfalso. apply L. intros j tot Hj _.
  destruct (capture_walk_table_unmatched pt j tot HT (Hne j Hj)) as (tot' & ->).
  exact I.
Qed.

(** X6: the capture size is the bytes of all entries before the one the
    saved registers designate, plus the offset in it. *)
Theorem capture_size_exact w p0 num order circ p w' r :
  table_entries_ok -> extract_size_ok ->
  1 <= num <= MAX_NUM_CHUNKS -> 0 <= order <= MAX_CHUNK_ORDER ->
  IPT_TOPA_MIN_SHIFT <= order + PAGE_SIZE_SHIFT <= IPT_TOPA_MAX_SHIFT ->
  x86_pt_alloc_buffer1 caps w p0 num order circ = (ZX_OK, p, w') ->
  forall t,
    let idx := Z.shiftr (u32 (r_output_mask_ptrs r)) 7 in
    let off := u32 (Z.shiftr (r_output_mask_ptrs r) 32) in
    0 <= t < num_tables p ->
    r_output_base r = phys_at (topas p) t ->
    (forall j, 0 <= j < t -> phys_at (topas p) j <> r_output_base r) ->
    idx < IPT_TOPA_MAX_TABLE_ENTRIES - 1 ->
    t * (IPT_TOPA_MAX_TABLE_ENTRIES - 1) + idx <= num ->
    compute_capture_size (set_regs r p) =
      (t * (IPT_TOPA_MAX_TABLE_ENTRIES - 1) + idx) * (2 ^ order * PAGE_SIZE) + off.
Proof.
  intros HT Hx Hn Ho Hshift E t idx off Ht Hbase Hfirst Hidx Hpos.
  exact (capture_size_first_match caps w p0 num order circ p w' r t
           HT Hx Hn Ho Hshift E Ht Hbase Hfirst Hidx Hpos).
Qed.

End MoreCapture.

(** ** Slots and x86_pt_alloc_buffer *)

Section MoreSlots.
Context {hdr : intel_pt_h}.
Variable caps : ipt_config_t.

Lemma for_loop_inv {R S : Type} (P : S -> Prop) (Q : R -> Prop)
    (body : Z -> S -> loop_step R S) fuel i s :
  P s ->
  (forall j t, P t ->
     match body j t with Return r => Q r | Continue t' => P t' end) ->
  match for_loop fuel i body s with
  | Return r => Q r
  | Continue s' => P s'
  end.
Proof.
  intros Hs Hstep. revert i s Hs.
  induction fuel as [|k IH]; intros i s Hs; cbn [for_loop]; [exact Hs|].
  pose proof (Hstep i s Hs) as Hb.
  destruct (body i s) as [r|s1]; [exact Hb|]. apply IH. exact Hb.
Qed.

Lemma for_u32_inv {R S : Type} (P : S -> Prop) (Q : R -> Prop)
    (body : Z -> S -> loop_step R S) lo hi s :
  P s ->
  (forall j t, P t ->
     match body j t with Return r => Q r | Continue t' => P t' end) ->
  match for_u32 lo hi body s with
  | Return r => Q r
  | Continue s' => P s'
  end.
Proof. intros Hs Hstep. unfold for_u32. apply for_loop_inv; assumption. Qed.

Lemma slot_at_store_ne dev d d' p :
  0 <= d -> 0 <= d' -> d <> d' ->
  slot_at (slot_store dev d p) d' = slot_at dev d'.
Proof.
  intros Hd Hd' Hne. unfold slot_at, slot_store.
  destruct (per_trace_state dev) as [l|] eqn:E; [|rewrite E; reflexivity].
  cbn. rewrite list_lookup_insert_ne by lia. reflexivity.
Qed.

Lemma slot_at_store_other dev d d' p :
  Z.to_nat d <> Z.to_nat d' ->
  slot_at (slot_store dev d p) d' = slot_at dev d'.
Proof.
  intros Hne. unfold slot_at, slot_store.
  destruct (per_trace_state dev) as [l|] eqn:E; [|rewrite E; reflexivity].
  cbn. rewrite list_lookup_insert_ne by exact Hne. reflexivity.
Qed.

(** A descriptor reads and writes the element [Z.to_nat d]. *)
Lemma slot_index_norm dev d :
  slot_at dev d = slot_at dev (Z.max 0 d) /\
  forall p, slot_store dev d p = slot_store dev (Z.max 0 d) p.
Proof.
  assert (E : Z.to_nat (Z.max 0 d) = Z.to_nat d) by lia.
  unfold slot_at, slot_store. rewrite E. split; [reflexivity|]. intros p. reflexivity.
Qed.

Lemma allocated_in_range dev d :
  device_wf dev -> allocated (slot_at dev d) = true ->
  0 <= Z.max 0 d /\ (d < num_traces dev -> Z.max 0 d < num_traces dev).
Proof.
  intros [Hn Hl] Ha. split; [lia|]. intros Hd.
  unfold slot_at in Ha. destruct (per_trace_state dev) as [l|]; [|contradiction].
  destruct (l !! Z.to_nat d) as [p|] eqn:Ep; [|discriminate Ha].
  apply lookup_lt_Some in Ep. lia.
Qed.

Lemma slot_store_fields dev d p :
  num_traces (slot_store dev d p) = num_traces dev /\
  mode (slot_store dev d p) = mode dev /\
  active (slot_store dev d p) = active dev /\
  opened (slot_store dev d p) = opened dev /\
  has_traces (slot_store dev d p) = has_traces dev.
Proof.
  unfold slot_store, has_traces. destruct (per_trace_state dev) as [l|] eqn:E.
  - repeat split.
  - rewrite E. repeat split.
Qed.

Lemma slot_store_wf dev d p : device_wf dev -> device_wf (slot_store dev d p).
Proof.
  intros [Hn Hl]. unfold device_wf, slot_store in *.
  destruct (per_trace_state dev) as [l|] eqn:E; [|contradiction].
  cbn. split; [exact Hn|]. rewrite length_insert. exact Hl.
Qed.

Lemma find_unallocated_least dev :
  0 <= num_traces dev ->
  forall j, 0 <= j < find_unallocated dev -> allocated (slot_at dev j) = true.
Proof.
  intros Hn. unfold find_unallocated.
  pose proof (for_u32_ind
    (fun i (_ : unit) => forall j, 0 <= j < i -> allocated (slot_at dev j) = true)
    (fun d => forall j, 0 <= j < d -> allocated (slot_at dev j) = true)
    (fun descriptor (_ : unit) =>
       if negb (allocated (slot_at dev descriptor))
       then Return descriptor else Continue tt)
    0 (num_traces dev) tt Hn) as L.
  match type of L with ?A -> ?B -> ?C => assert (HA : A); [|assert (HB : B);
     [|specialize (L HA HB)]] end.
  - intros j Hj. lia.
  - intros i [] Hi Hprev.
    destruct (allocated (slot_at dev i)) eqn:E; cbn [negb]; [|exact Hprev].
    intros j Hj. destruct (Z.eq_dec j i) as [->|]; [exact E|]. apply Hprev. lia.
  - destruct (for_u32 _ _ _ _) as [d|u]; exact L.
Qed.

Lemma range_accepted config :
  0 <= bc_num_chunks config -> 0 <= bc_chunk_order config ->
  buffer_range_rejected config = false ->
  1 <= bc_num_chunks config <= MAX_NUM_CHUNKS /\
  0 <= bc_chunk_order config <= MAX_CHUNK_ORDER /\
  bc_num_chunks config * 2 ^ bc_chunk_order config * PAGE_SIZE <= MAX_PER_TRACE_SPACE.
Proof.
  intros Hn Ho. unfold buffer_range_rejected.
  destruct (Z.eqb_spec (bc_num_chunks config) 0); cbn [orb]; [discriminate|].
  destruct (Z.ltb_spec MAX_NUM_CHUNKS (bc_num_chunks config)); [discriminate|].
  destruct (Z.ltb_spec MAX_CHUNK_ORDER (bc_chunk_order config)); [discriminate|].
  intros E. apply Z.ltb_ge in E.
  unfold MAX_NUM_CHUNKS, MAX_CHUNK_ORDER, PAGE_SIZE, MAX_PER_TRACE_SPACE in *.
  rewrite Z.shiftl_1_l in E.
  set (nc := bc_num_chunks config) in *. set (o := bc_chunk_order config) in *.
  assert (P0 : 0 < 2 ^ o) by (apply Z.pow_pos_nonneg; lia).
  assert (P1 : 2 ^ o <= 2 ^ 8) by (apply Z.pow_le_mono_r; lia).
  assert (P2 : nc * 2 ^ o <= 4096 * 2 ^ 8) by (apply Z.mul_le_mono_nonneg; lia).
  assert (P3 : 0 <= nc * 2 ^ o) by (apply Z.mul_nonneg_nonneg; lia).
  change (2 ^ 8) with 256 in *.
  rewrite (u64_small (nc * 2 ^ o)) in E by lia.
  rewrite u64_small in E by lia.
  repeat split; try lia.
Qed.

(** What a successful x86_pt_alloc_buffer did, step by step. *)
Lemma alloc_buffer_ok w dev config d dev' w' :
  device_wf dev ->
  0 <= bc_num_chunks config -> 0 <= bc_chunk_order config ->
  x86_pt_alloc_buffer caps w dev config = (ZX_OK, d, dev', w') ->
  d = find_unallocated dev /\ 0 <= d < num_traces dev /\
  allocated (slot_at dev d) = false /\
  1 <= bc_num_chunks config <= MAX_NUM_CHUNKS /\
  0 <= bc_chunk_order config <= MAX_CHUNK_ORDER /\
  exists p,
    x86_pt_alloc_buffer1 caps w per_trace_zero (bc_num_chunks config)
      (bc_chunk_order config) (bc_is_circular config) = (ZX_OK, p, w') /\
    dev' = slot_store dev d
             (set_allocated true
                (set_regs {| r_ctl := bc_ctl config; r_status := 0;
                             r_output_base := io_phys (buf_at (topas p) 0);
                             r_output_mask_ptrs := 0;
                             r_cr3_match := bc_cr3_match config;
                             r_addr_ranges := bc_addr_ranges config |} p)).
Proof.
  intros Hwf Hn Ho E. unfold x86_pt_alloc_buffer in E.
  destruct (buffer_range_rejected config) eqn:Hr; [discriminate E|].
  destruct (range_accepted config Hn Ho Hr) as (Rn & Ro & _).
  repeat match type of E with
         | (if ?c then _ else _) = _ => destruct c; [discriminate E|]
         end.
  unfold x86_pt_alloc_buffer_slot in E.
  pose proof (find_unallocated_spec dev (proj1 Hwf)) as Hd.
  destruct (Z.eqb_spec (find_unallocated dev) (num_traces dev)) as [|Hne];
    [discriminate E|].
  destruct Hd as [Hd|[Hd Hfree]]; [contradiction|].
  destruct (x86_pt_alloc_buffer1 caps w per_trace_zero _ _ _) as [[st p] w1].
  destruct (is_ok st) eqn:Est; cbn [negb] in E;
    [|injection E as E _ _; rewrite E in Est; discriminate Est].
  apply is_ok_true in Est. subst st.
  injection E as <- <- <-.
  repeat split; try assumption; try lia.
  exists p. split; reflexivity.
Qed.


Lemma for_u32_first {R S : Type} (body : Z -> S -> loop_step R S) lo hi s :
  lo < hi ->
  for_u32 lo hi body s =
  match body lo s with
  | Return r => Return r
  | Continue s' => for_u32 (lo + 1) hi body s'
  end.
Proof.
  intros H. unfold for_u32.
  replace (Z.to_nat (hi - lo)) with (Datatypes.S (Z.to_nat (hi - (lo + 1)))) by lia.
  reflexivity.
Qed.

Lemma capture_size_at_start pt :
  table_entries_ok -> 1 <= num_tables pt ->
  output_base pt = io_phys (buf_at (topas pt) 0) ->
  output_mask_ptrs pt = 0 ->
  compute_capture_size pt = 0.
Proof.
  intros HT Hnt Hb Hm. pose proof HT as HT'. unfold table_entries_ok in HT'.
  unfold compute_capture_size. rewrite for_u32_first by lia.
  unfold capture_walk_table. rewrite u32_small by lia.
  rewrite for_u32_first by lia.
  rewrite Hb, Hm, Z.eqb_refl. reflexivity.
Qed.

(** X7: the geometry checks of x86_pt_alloc_buffer, without the 64-bit
    wrap-around: a configuration passes exactly when it has 1 to 4096
    chunks of order at most 8 and no more than 256MB in total. *)
Theorem accepted_geometry config :
  0 <= bc_num_chunks config < 2 ^ 32 -> 0 <= bc_chunk_order config < 2 ^ 32 ->
  buffer_range_rejected config = false <->
  (1 <= bc_num_chunks config <= MAX_NUM_CHUNKS /\
   bc_chunk_order config <= MAX_CHUNK_ORDER /\
   bc_num_chunks config * 2 ^ bc_chunk_order config * PAGE_SIZE <= MAX_PER_TRACE_SPACE).
Proof.
  intros Hn Ho. split.
  - intros Hr.
    destruct (range_accepted config ltac:(lia) ltac:(lia) Hr) as (A & B & C).
    repeat split; lia.
  - intros (A & B & C). unfold buffer_range_rejected.
    destruct (Z.eqb_spec (bc_num_chunks config) 0); [lia|]. cbn [orb].
    destruct (Z.ltb_spec MAX_NUM_CHUNKS (bc_num_chunks config)); [lia|].
    destruct (Z.ltb_spec MAX_CHUNK_ORDER (bc_chunk_order config)); [lia|].
    apply Z.ltb_ge. rewrite Z.shiftl_1_l.
    unfold MAX_NUM_CHUNKS, MAX_CHUNK_ORDER, PAGE_SIZE, MAX_PER_TRACE_SPACE in *.
    set (nc := bc_num_chunks config) in *. set (o := bc_chunk_order config) in *.
    assert (P0 : 0 < 2 ^ o) by (apply Z.pow_pos_nonneg; lia).
    assert (P3 : 0 <= nc * 2 ^ o) by (apply Z.mul_nonneg_nonneg; lia).
    rewrite (u64_small (nc * 2 ^ o)) by lia.
    rewrite u64_small by lia. lia.
Qed.

(** X8: a successful x86_pt_alloc_buffer returns the lowest descriptor
    whose slot was not allocated. *)
Theorem alloc_buffer_descriptor_least w dev config d dev' w' :
  device_wf dev ->
  0 <= bc_num_chunks config -> 0 <= bc_chunk_order config ->
  x86_pt_alloc_buffer caps w dev config = (ZX_OK, d, dev', w') ->
  0 <= d < num_traces dev /\
  allocated (slot_at dev d) = false /\
  (forall j, 0 <= j < d -> allocated (slot_at dev j) = true) /\
  allocated (slot_at dev' d) = true.
Proof.
  intros Hwf Hn Ho E.
  destruct (alloc_buffer_ok w dev config d dev' w' Hwf Hn Ho E)
    as (Hd & Hr & Hfree & _ & _ & p & _ & ->).
  split; [exact Hr|]. split; [exact Hfree|]. split.
  - intros j Hj. apply find_unallocated_least; [exact (proj1 Hwf)|]. lia.
  - rewrite slot_at_store by assumption. reflexivity.
Qed.

(** X9: the slot of a successful x86_pt_alloc_buffer: the requested
    geometry and registers, status and output_mask_ptrs zero,
    output_base the address of the first table, not assigned, and a
    capture size of zero. *)
Theorem alloc_buffer_slot_state w dev config d dev' w' :
  table_entries_ok -> device_wf dev ->
  0 <= bc_num_chunks config -> 0 <= bc_chunk_order config ->
  x86_pt_alloc_buffer caps w dev config = (ZX_OK, d, dev', w') ->
  let p := slot_at dev' d in
  num_chunks p = bc_num_chunks config /\
  chunk_order p = bc_chunk_order config /\
  is_circular p = bc_is_circular config /\
  ctl p = bc_ctl config /\ cr3_match p = bc_cr3_match config /\
  addr_ranges p = bc_addr_ranges config /\
  status p = 0 /\ output_mask_ptrs p = 0 /\
  output_base p = phys_at (topas p) 0 /\
  assigned p = false /\ owner p = 0 /\
  compute_capture_size p = 0.
Proof.
  intros HT Hwf Hn Ho E p.
  destruct (alloc_buffer_ok w dev config d dev' w' Hwf Hn Ho E)
    as (Hd & Hr & Hfree & Rn & Ro & q & E1 & ->).
  subst p. rewrite slot_at_store by assumption.
  destruct (alloc_buffer1_tables caps w per_trace_zero _ _ _ q w' HT Rn E1)
    as (Hnc & Hord & Hc & _ & Hnt & _).
  assert (Rn' : 0 <= bc_num_chunks config <= MAX_NUM_CHUNKS) by lia.
  destruct (alloc_buffer1_success caps w per_trace_zero _ _ _ q w' HT
              Rn' Ro E1) as (_ & _ & cs & ts & _ & _ & _ & _ & Eq).
  repeat split; try assumption; try reflexivity.
  - rewrite Eq. reflexivity.
  - rewrite Eq. reflexivity.
  - apply capture_size_at_start; [exact HT| |reflexivity|reflexivity].
    change (1 <= num_tables q). lia.
Qed.

(** X10: GET_BUFFER_CONFIG on the descriptor of a successful
    x86_pt_alloc_buffer gives back the configuration that was passed. *)
Theorem buffer_config_round_trip w dev config d dev' w' w2 replymax :
  table_entries_ok -> device_wf dev ->
  0 <= bc_num_chunks config -> 0 <= bc_chunk_order config ->
  x86_pt_alloc_buffer caps w dev config = (ZX_OK, d, dev', w') ->
  sizeof_buffer_config <= replymax ->
  ipt_get_buffer_config w2 dev' d sizeof_descriptor replymax =
    mk_result ZX_OK (Some (ReplyBufferConfig config, sizeof_buffer_config)) dev' w2.
Proof.
  intros HT Hwf Hn Ho E Hrep.
  destruct (alloc_buffer_ok w dev config d dev' w' Hwf Hn Ho E)
    as (Hd & Hr & Hfree & Rn & Ro & q & E1 & Edev).
  destruct (alloc_buffer1_tables caps w per_trace_zero _ _ _ q w' HT Rn E1)
    as (Hnc & Hord & Hc & _).
  unfold ipt_get_buffer_config.
  rewrite Z.eqb_refl. cbn [negb].
  destruct (Z.ltb_spec replymax sizeof_buffer_config); [lia|].
  assert (Ent : num_traces dev' = num_traces dev)
    by (rewrite Edev; apply slot_store_fields).
  rewrite Ent. destruct (Z.leb_spec (num_traces dev) d); [lia|].
  assert (Es : slot_at dev' d = set_allocated true
                (set_regs {| r_ctl := bc_ctl config; r_status := 0;
                             r_output_base := io_phys (buf_at (topas q) 0);
                             r_output_mask_ptrs := 0;
                             r_cr3_match := bc_cr3_match config;
                             r_addr_ranges := bc_addr_ranges config |} q))
    by (rewrite Edev; apply slot_at_store; assumption).
  rewrite Es. cbn [allocated set_allocated negb num_chunks chunk_order is_circular
                   ctl cr3_match addr_ranges set_regs].
  rewrite Hnc, Hord, Hc. destruct config; reflexivity.
Qed.

(** X11: whatever x86_pt_alloc_buffer answers, the slots that were
    allocated are as they were, and so are the trace count, the mode and
    the active flag; when it fails no slot becomes allocated. *)
Theorem alloc_buffer_frame w dev config st d dev' w' :
  device_wf dev ->
  x86_pt_alloc_buffer caps w dev config = (st, d, dev', w') ->
  num_traces dev' = num_traces dev /\ mode dev' = mode dev /\
  active dev' = active dev /\ device_wf dev' /\
  (forall j, 0 <= j -> allocated (slot_at dev j) = true ->
     slot_at dev' j = slot_at dev j) /\
  (st <> ZX_OK ->
     forall j, 0 <= j -> allocated (slot_at dev' j) = true ->
       allocated (slot_at dev j) = true).
Proof.
  intros Hwf E.
  assert (Hsame : dev' = dev ->
    num_traces dev' = num_traces dev /\ mode dev' = mode dev /\
    active dev' = active dev /\ device_wf dev' /\
    (forall j, 0 <= j -> allocated (slot_at dev j) = true ->
       slot_at dev' j = slot_at dev j) /\
    (st <> ZX_OK ->
       forall j, 0 <= j -> allocated (slot_at dev' j) = true ->
         allocated (slot_at dev j) = true)).
  { intros ->. repeat split; try assumption; try apply Hwf; auto. }
  unfold x86_pt_alloc_buffer in E.
  repeat match type of E with
         | (if ?c then (ZX_ERR_INVALID_ARGS, 0, dev, w) else _) = _ =>
             destruct c; [injection E as _ _ <- _; apply Hsame; reflexivity|]
         end.
  unfold x86_pt_alloc_buffer_slot in E.
  pose proof (find_unallocated_spec dev (proj1 Hwf)) as Hd.
  destruct (Z.eqb_spec (find_unallocated dev) (num_traces dev)) as [|Hne];
    [injection E as _ _ <- _; apply Hsame; reflexivity|].
  destruct Hd as [Hd|[Hd Hfree]]; [contradiction|].
  set (f := find_unallocated dev) in *.
  assert (Hframe : forall q,
    num_traces (slot_store dev f q) = num_traces dev /\
    mode (slot_store dev f q) = mode dev /\
    active (slot_store dev f q) = active dev /\
    device_wf (slot_store dev f q) /\
    (forall j, 0 <= j -> allocated (slot_at dev j) = true ->
       slot_at (slot_store dev f q) j = slot_at dev j)).
  { intros q. pose proof (slot_store_fields dev f q) as (F1 & F2 & F3 & _).
    repeat split; try assumption; try (apply slot_store_wf; exact Hwf).
    intros j Hj Ha. apply slot_at_store_ne; [lia|lia|]. congruence. }
  destruct (x86_pt_alloc_buffer1 caps w per_trace_zero _ _ _) as [[st1 p] w1].
  destruct (is_ok st1) eqn:Est; cbn [negb] in E.
  - apply is_ok_true in Est. injection E as <- _ <- _.
    destruct (Hframe (set_allocated true
       (set_regs {| r_ctl := bc_ctl config; r_status := 0;
                    r_output_base := io_phys (buf_at (topas p) 0);
                    r_output_mask_ptrs := 0;
                    r_cr3_match := bc_cr3_match config;
                    r_addr_ranges := bc_addr_ranges config |} p)))
      as (F1 & F2 & F3 & F4 & F5).
    repeat split; try assumption; try apply F4.
    intros Hst. congruence.
  - injection E as <- _ <- _.
    destruct (Hframe (fst (x86_pt_free_buffer1 w1 p))) as (F1 & F2 & F3 & F4 & F5).
    repeat split; try assumption; try apply F4.
    intros _ j Hj Ha.
    destruct (Z.eq_dec j f) as [->|Hjf].
    + rewrite slot_at_store in Ha by assumption. discriminate Ha.
    + rewrite slot_at_store_ne in Ha by (try lia; congruence). exact Ha.
Qed.

(** X12: with every slot allocated x86_pt_alloc_buffer answers
    ZX_ERR_INVALID_ARGS or ZX_ERR_NO_RESOURCES and changes nothing. *)
Theorem alloc_buffer_no_free_slot w dev config :
  0 <= num_traces dev ->
  (forall j, 0 <= j < num_traces dev -> allocated (slot_at dev j) = true) ->
  exists st, (st = ZX_ERR_INVALID_ARGS \/ st = ZX_ERR_NO_RESOURCES) /\
    x86_pt_alloc_buffer caps w dev config = (st, 0, dev, w).
Proof.
  intros Hn Hall. unfold x86_pt_alloc_buffer.
  repeat match goal with
         | |- context [if ?c then (ZX_ERR_INVALID_ARGS, 0, dev, w) else _] =>
             destruct c; [exists ZX_ERR_INVALID_ARGS; split; [left|]; reflexivity|]
         end.
  unfold x86_pt_alloc_buffer_slot.
  destruct (find_unallocated_spec dev Hn) as [Hd|[Hd Hfree]].
  - rewrite Hd, Z.eqb_refl. exists ZX_ERR_NO_RESOURCES. split; [right|]; reflexivity.
  - rewrite Hall in Hfree by exact Hd. discriminate Hfree.
Qed.

End MoreSlots.

(** ** The invariant of the device *)

Section Invariant.
Context {hdr : intel_pt_h}.
Variable caps : ipt_config_t.

Lemma alloc_buffer1_unassigned w p0 num order circ :
  let r := x86_pt_alloc_buffer1 caps w p0 num order circ in
  assigned (snd (fst r)) = false /\ allocated (snd (fst r)) = false.
Proof.
  cbv zeta. unfold x86_pt_alloc_buffer1, calloc.
  destruct (w_calloc w O); cbn [negb]; [|split; reflexivity].
  set (P := fun st : ipt_per_trace_state_t * world =>
              assigned (fst st) = false /\ allocated (fst st) = false).
  set (Q := fun r : zx_status_t * ipt_per_trace_state_t * world =>
              assigned (snd (fst r)) = false /\ allocated (snd (fst r)) = false).
  match goal with
  | |- context [for_u32 0 num ?b ?s] =>
      pose proof (for_u32_inv P Q b 0 num s) as L1
  end.
  match type of L1 with ?A -> ?B -> ?C => assert (HA : A); [|assert (HB : B);
     [|specialize (L1 HA HB); clear HA HB]] end.
  - split; reflexivity.
  - intros j [p w1] Hp. unfold alloc_chunk_step, io_buffer_init_aligned, io_buffer_init.
    destruct (w_io w1 O) as [s [pa h]]. cbv beta iota zeta.
    destruct (is_ok s); cbn [negb]; [|exact Hp].
    match goal with |- context [if ?c then _ else _] => destruct c end; exact Hp.
  - match type of L1 with match ?x with _ => _ end => destruct x as [r|[p w1]] end;
      [exact L1|].
    destruct (_ <? 2); [exact L1|].
    destruct (_ && _); [exact L1|].
    destruct (w_calloc _ O); cbn [negb]; [|exact L1].
    match goal with
    | |- context [for_u32 0 ?n ?b ?s] =>
        pose proof (for_u32_inv P Q b 0 n s) as L2
    end.
    match type of L2 with ?A -> ?B -> ?C => assert (HA : A); [|assert (HB : B);
       [|specialize (L2 HA HB); clear HA HB]] end.
    + exact L1.
    + intros j [q w2] Hq. unfold alloc_table_step, io_buffer_init.
      destruct (w_io w2 O) as [s [pa h]]. cbv beta iota zeta.
      destruct (is_ok s); cbn [negb]; exact Hq.
    + match type of L2 with match ?x with _ => _ end => destruct x as [r|[q w2]] end;
        [exact L2|]. exact L2.
Qed.


Lemma alloc_buffer1_arrays w p0 num order circ p w' :
  table_entries_ok -> 0 <= num <= MAX_NUM_CHUNKS -> 0 <= order <= MAX_CHUNK_ORDER ->
  x86_pt_alloc_buffer1 caps w p0 num order circ = (ZX_OK, p, w') ->
  exists cs ts, chunks p = Some cs /\ length cs = Z.to_nat (num_chunks p) /\
                topas p = Some ts /\ length ts = Z.to_nat (num_tables p).
Proof.
  intros HT Hn Ho E.
  destruct (alloc_buffer1_success caps w p0 num order circ p w' HT Hn Ho E)
    as (H1 & _ & cs & ts & Hcs & _ & _ & _ & Ep).
  assert (Hn' : 1 <= num <= MAX_NUM_CHUNKS) by lia.
  destruct (alloc_buffer1_tables caps w p0 num order circ p w' HT Hn' E)
    as (Hnc & _ & _ & _ & _ & _ & (ts' & Ets & Hlen & _) & _).
  exists cs, ts'. rewrite Hnc. split; [rewrite Ep; reflexivity|].
  split; [exact Hcs|]. split; assumption.
Qed.

Lemma slot_ok_zero : slot_ok per_trace_zero.
Proof. split; intros E; discriminate E. Qed.

Lemma slot_ok_unallocated q :
  assigned q = false -> allocated q = false -> slot_ok q.
Proof. intros Ha Hb. split; intros E; congruence. Qed.

(** The two things x86_pt_alloc_buffer can do to the device: nothing,
    or write the first slot that is not allocated. *)
Lemma alloc_buffer_cases w dev config :
  device_wf dev ->
  let r := x86_pt_alloc_buffer caps w dev config in
  let st := fst (fst (fst r)) in
  let dev' := snd (fst r) in
  (st <> ZX_OK /\ dev' = dev) \/
  (exists q, 0 <= find_unallocated dev < num_traces dev /\
     allocated (slot_at dev (find_unallocated dev)) = false /\
     dev' = slot_store dev (find_unallocated dev) q /\
     assigned q = false /\ allocated q = is_ok st /\
     (table_entries_ok -> 0 <= bc_num_chunks config -> 0 <= bc_chunk_order config ->
      slot_ok q)).
Proof.
  intros Hwf. cbv zeta. unfold x86_pt_alloc_buffer.
  destruct (buffer_range_rejected config) eqn:Hr;
    [left; split; [discriminate|reflexivity]|].
  repeat match goal with
         | |- context [if ?c then (ZX_ERR_INVALID_ARGS, 0, dev, w) else _] =>
             destruct c; [left; split; [discriminate|reflexivity]|]
         end.
  unfold x86_pt_alloc_buffer_slot.
  pose proof (find_unallocated_spec dev (proj1 Hwf)) as Hd.
  destruct (Z.eqb_spec (find_unallocated dev) (num_traces dev)) as [|Hne];
    [left; split; [discriminate|reflexivity]|].
  destruct Hd as [Hd|[Hd Hfree]]; [contradiction|].
  right.
  pose proof (alloc_buffer1_unassigned w per_trace_zero (bc_num_chunks config)
                (bc_chunk_order config) (bc_is_circular config)) as Hu.
  cbv zeta in Hu.
  destruct (x86_pt_alloc_buffer1 caps w per_trace_zero _ _ _) as [[st1 p] w1] eqn:E1.
  cbn [fst snd] in Hu. destruct Hu as [Hu1 Hu2].
  destruct (is_ok st1) eqn:Est; cbn [negb fst snd].
  - apply is_ok_true in Est. subst st1.
    eexists. split; [exact Hd|]. split; [exact Hfree|]. split; [reflexivity|].
    split; [exact Hu1|]. split; [reflexivity|].
    intros HT Hn Ho.
    destruct (range_accepted config Hn Ho Hr) as (Rn & Ro & _).
    assert (Rn' : 0 <= bc_num_chunks config <= MAX_NUM_CHUNKS) by lia.
    destruct (alloc_buffer1_arrays w per_trace_zero _ _ _ p w1 HT Rn' Ro E1)
      as (cs & ts & A1 & A2 & A3 & A4).
    split; [intros _; reflexivity|].
    intros _. exists cs, ts. repeat split; assumption.
  - rewrite free_buffer1_pair. cbv beta iota. cbn [fst snd].
    eexists. split; [exact Hd|]. split; [exact Hfree|]. split; [reflexivity|].
    split; [exact Hu1|]. split; [rewrite Est; reflexivity|].
    intros _ _ _. apply slot_ok_unallocated; [exact Hu1|reflexivity].
Qed.

Lemma slots_in_range_store dev d p Q :
  device_wf dev -> 0 <= d < num_traces dev ->
  slots_in_range dev Q -> Q p -> slots_in_range (slot_store dev d p) Q.
Proof.
  intros Hwf Hd HQ Hp i Hi.
  assert (Ent : num_traces (slot_store dev d p) = num_traces dev)
    by apply slot_store_fields.
  rewrite Ent in Hi.
  destruct (Z.eq_dec i d) as [->|Hne].
  - rewrite slot_at_store by assumption. exact Hp.
  - rewrite slot_at_store_ne by lia. apply HQ. exact Hi.
Qed.

Lemma device_inv_traces dev :
  has_traces dev = true -> device_inv dev ->
  device_wf dev /\ mode dev = IPT_TRACE_CPUS /\
  slots_in_range dev slot_ok /\
  (active dev = true -> slots_in_range dev (fun p => assigned p = true)).
Proof. unfold device_inv. intros ->. auto. Qed.

Lemma device_inv_intro dev :
  device_wf dev -> mode dev = IPT_TRACE_CPUS ->
  slots_in_range dev slot_ok ->
  (active dev = true -> slots_in_range dev (fun p => assigned p = true)) ->
  device_inv dev.
Proof.
  intros Hwf Hm Hs Ha. unfold device_inv.
  assert (has_traces dev = true) as ->.
  { destruct Hwf as [_ Hl]. unfold has_traces.
    destruct (per_trace_state dev); [reflexivity|contradiction]. }
  auto.
Qed.

Lemma device_inv_store dev d p :
  has_traces dev = true -> device_inv dev -> active dev = false ->
  0 <= d < num_traces dev -> slot_ok p ->
  device_inv (slot_store dev d p).
Proof.
  intros Ht Hinv Hact Hd Hp.
  destruct (device_inv_traces dev Ht Hinv) as (Hwf & Hm & Hs & _).
  pose proof (slot_store_fields dev d p) as (F1 & F2 & F3 & _).
  apply device_inv_intro.
  - apply slot_store_wf. exact Hwf.
  - congruence.
  - apply slots_in_range_store; assumption.
  - intros E. congruence.
Qed.

Lemma alloc_buffer_inv w dev config :
  table_entries_ok -> has_traces dev = true -> device_inv dev ->
  0 <= bc_num_chunks config -> 0 <= bc_chunk_order config ->
  device_inv (snd (fst (x86_pt_alloc_buffer caps w dev config))).
Proof.
  intros HT Ht Hinv Hn Ho.
  destruct (device_inv_traces dev Ht Hinv) as (Hwf & Hm & Hs & Ha).
  destruct (alloc_buffer_cases w dev config Hwf) as [[_ ->]|(q & Hd & Hfree & -> & Hq1 & _ & Hq)];
    [exact Hinv|].
  apply device_inv_store; try assumption.
  - destruct (active dev) eqn:Eact; [|reflexivity].
    pose proof (Ha eq_refl _ Hd) as Hass. cbv beta in Hass.
    destruct (Hs _ Hd) as [Hsa _]. rewrite (Hsa Hass) in Hfree. discriminate Hfree.
  - apply Hq; assumption.
Qed.

Lemma alloc_trace_inv w dev config cmdlen :
  device_inv dev -> 0 <= tc_num_traces config ->
  device_inv (res_dev (ipt_alloc_trace caps w dev config cmdlen)).
Proof.
  intros Hinv Hn. unfold ipt_alloc_trace.
  destruct (negb (ipt_config_supported caps)); [exact Hinv|].
  destruct (negb (ipt_config_output_topa caps)); [exact Hinv|].
  destruct (has_traces dev) eqn:Ht; [exact Hinv|].
  assert (Hact : active dev = false) by (unfold device_inv in Hinv; rewrite Ht in Hinv; exact Hinv).
  assert (Hnone : per_trace_state dev = None).
  { unfold has_traces in Ht. destruct (per_trace_state dev); [discriminate Ht|reflexivity]. }
  destruct (negb (cmdlen =? sizeof_trace_config)); [exact Hinv|].
  destruct (tc_mode config =? IPT_MODE_THREADS) eqn:Eth; [exact Hinv|].
  destruct (tc_mode config =? IPT_MODE_CPUS) eqn:Ecpu; [|exact Hinv].
  destruct (IPT_MAX_NUM_TRACES <? tc_num_traces config); [exact Hinv|].
  destruct (_ && _); [exact Hinv|].
  unfold calloc. cbv beta iota zeta.
  destruct (w_calloc w O); cbn [negb].
  - destruct (zx_mtrace_control _) as [[st regs] w1].
    destruct (is_ok st); cbn [negb res_dev fail].
    + apply device_inv_intro.
      * split; [exact Hn|]. cbn. rewrite length_replicate. reflexivity.
      * reflexivity.
      * intros i Hi. unfold slot_at. cbn.
        cbn in Hi. rewrite lookup_replicate_2 by lia. exact slot_ok_zero.
      * cbn. intros E. congruence.
    + unfold device_inv. cbn. exact Hact.
  - cbn [res_dev fail]. unfold device_inv, has_traces. cbn. rewrite Hnone. exact Hact.
Qed.

End Invariant.

(** ** The handlers, case by case *)

Section Handlers.
Context {hdr : intel_pt_h}.
Variable caps : ipt_config_t.

Lemma forallb_range (g : Z -> bool) n :
  forallb (fun i => g (Z.of_nat i)) (seq 0 (Z.to_nat n)) = true <->
  (forall i, 0 <= i < n -> g i = true).
Proof.
  rewrite forallb_forall. split.
  - intros H i Hi. specialize (H (Z.to_nat i)).
    rewrite Z2Nat.id in H by lia. apply H. apply in_seq. lia.
  - intros H k Hk. apply in_seq in Hk. apply H. lia.
Qed.

Lemma classic_range (g : Z -> bool) n :
  (forall i, 0 <= i < n -> g i = true) \/ (exists i, 0 <= i < n /\ g i = false).
Proof.
  assert (H : forall k : nat,
            (forall i, 0 <= i < Z.of_nat k -> g i = true) \/
            (exists i, 0 <= i < Z.of_nat k /\ g i = false)).
  { induction k as [|k [IH|(i & Hi & Hg)]].
    - left. intros i Hi. lia.
    - destruct (g (Z.of_nat k)) eqn:Eg.
      + left. intros i Hi. destruct (Z.eq_dec i (Z.of_nat k)) as [->|]; [exact Eg|].
        apply IH. lia.
      + right. exists (Z.of_nat k). split; [lia|exact Eg].
    - right. exists i. split; [lia|exact Hg]. }
  destruct (H (Z.to_nat n)) as [Hy|(i & Hi & Hg)].
  - left. intros i Hi. apply Hy. lia.
  - right. exists i. split; [lia|exact Hg].
Qed.

Lemma free_trace_loop w dev :
  has_traces dev = true -> device_inv dev -> active dev = false ->
  slots_in_range dev (fun p => assigned p = false) ->
  exists d l,
    for_u32 0 (num_traces dev)
      (fun i (st : insntrace_device_t * world) =>
         let '(dev, w) := st in
         if allocated (slot_at dev i)
         then
           let '(per_trace, w) := x86_pt_free_buffer1 w (slot_at dev i) in
           Continue (slot_store dev i per_trace, w)
         else Continue (dev, w)) (dev, w)
    = Continue (R := unit) (d, with_released l w) /\
    has_traces d = true /\ device_inv d /\ active d = false /\
    num_traces d = num_traces dev /\
    slots_in_range d (fun p => allocated p = false).
Proof.
  intros Ht Hinv Hact Hun.
  destruct (device_inv_traces dev Ht Hinv) as (Hwf & _).
  set (body := fun (i : Z) (st : insntrace_device_t * world) => _).
  pose proof (for_u32_ind
    (fun j (st : insntrace_device_t * world) =>
       let d := fst st in
       has_traces d = true /\ device_inv d /\ active d = false /\
       num_traces d = num_traces dev /\
       slots_in_range d (fun p => assigned p = false) /\
       (forall i, 0 <= i < j -> allocated (slot_at d i) = false) /\
       exists l, snd st = with_released l w)
    (fun _ : unit => False) body 0 (num_traces dev) (dev, w) (proj1 Hwf)) as L.
  match type of L with ?A -> ?B -> ?C => assert (HA : A); [|assert (HB : B);
     [|specialize (L HA HB); clear HA HB]] end.
  - cbv zeta. cbn [fst snd]. repeat (split; [first [assumption|reflexivity]|]).
    split; [intros i Hi; lia|]. exists []. symmetry. apply with_released_nil.
  - intros j [d w1] Hj. cbv zeta. cbn [fst snd].
    intros (Dt & Dinv & Dact & Dn & Dun & Dfree & l & ->). subst body. cbv beta iota.
    destruct (device_inv_traces d Dt Dinv) as (Dwf & _).
    destruct (allocated (slot_at d j)) eqn:Ea.
    + rewrite free_buffer1_pair, free_buffer1_world, with_released_app.
      cbv beta iota. cbn [fst snd].
      set (q := set_allocated false (set_topas None (set_chunks None (slot_at d j)))).
      pose proof (slot_store_fields d j q) as (F1 & F2 & F3 & _ & F5).
      assert (Hj' : 0 <= j < num_traces d) by lia.
      split; [congruence|]. split.
      { apply device_inv_store; try assumption.
        apply slot_ok_unallocated; [|reflexivity]. exact (Dun j Hj'). }
      split; [congruence|]. split; [congruence|]. split.
      { apply slots_in_range_store; try assumption. exact (Dun j Hj'). }
      split; [|eexists; reflexivity].
      intros i Hi. destruct (Z.eq_dec i j) as [->|Hne].
      * rewrite slot_at_store by assumption. reflexivity.
      * rewrite slot_at_store_ne by lia. apply Dfree. lia.
    + cbn [fst snd]. repeat (split; [assumption|]).
      split; [|eexists; reflexivity].
      intros i Hi. destruct (Z.eq_dec i j) as [->|Hne]; [exact Ea|].
      apply Dfree. lia.
  - destruct (for_u32 0 (num_traces dev) body (dev, w)) as [[]|[d w1]];
      [contradiction|].
    cbv zeta in L. cbn [fst snd] in L.
    destruct L as (Dt & Dinv & Dact & Dn & _ & Dfree & l & ->).
    exists d, l. split; [reflexivity|]. repeat (split; [assumption|]).
    intros i Hi. apply Dfree. lia.
Qed.


(** What ipt_free_trace does once its two checks pass. *)
Lemma free_trace_cases w dev :
  has_traces dev = true -> device_inv dev ->
  let r := ipt_free_trace w dev in
  (res_dev r = dev /\ res_world r = w /\ res_status r = ZX_ERR_BAD_STATE /\
   (active dev = true \/
    exists i, 0 <= i < num_traces dev /\ assigned (slot_at dev i) = true)) \/
  (active dev = false /\
   slots_in_range dev (fun p => assigned p = false) /\
   res_status r = ZX_OK /\
   exists d, has_traces d = true /\ device_inv d /\ active d = false /\
     num_traces d = num_traces dev /\
     slots_in_range d (fun p => allocated p = false) /\
     (res_dev r = d /\ is_ok (fst (w_mtrace w O)) = false \/
      res_dev r = set_per_trace_state None d /\ is_ok (fst (w_mtrace w O)) = true)).
Proof.
  intros Ht Hinv. cbv zeta. unfold ipt_free_trace. cbv zeta.
  destruct (active dev) eqn:Eact; [left; repeat split; left; reflexivity|].
  rewrite (for_u32_check (fun i => negb (assigned (slot_at dev i))) ZX_ERR_BAD_STATE)
    by (intros i; destruct (assigned (slot_at dev i)); reflexivity).
  destruct (forallb _ _) eqn:Hall.
  - right. split; [reflexivity|].
    pose proof (proj1 (forallb_range (fun i => negb (assigned (slot_at dev i))) _) Hall)
      as Hun.
    assert (Hun' : slots_in_range dev (fun p => assigned p = false)).
    { intros i Hi. specialize (Hun i Hi). cbv beta in Hun.
      destruct (assigned (slot_at dev i)); [discriminate Hun|reflexivity]. }
    split; [exact Hun'|].
    destruct (free_trace_loop w dev Ht Hinv Eact Hun')
      as (d & l & Ed & Dt & Dinv & Dact & Dn & Dfree).
    rewrite Ed. cbn [loop_result]. unfold zx_mtrace_control.
    change (w_mtrace (with_released l w)) with (w_mtrace w).
    destruct (w_mtrace w O) as [st regs]. cbn [fst].
    destruct (is_ok st); cbn [negb res_status res_dev].
    + split; [reflexivity|]. exists d. repeat (split; [assumption|]).
      right. split; reflexivity.
    + split; [reflexivity|]. exists d. repeat (split; [assumption|]).
      left. split; reflexivity.
  - left. repeat split. right.
    destruct (Z.le_gt_cases 0 (num_traces dev)) as [Hn|Hn].
    + apply not_true_iff_false in Hall.
      destruct (classic_range (fun i => negb (assigned (slot_at dev i))) (num_traces dev))
        as [Hyes|(i & Hi & Hno)].
      * exfalso. apply Hall.
        exact (proj2 (forallb_range (fun i => negb (assigned (slot_at dev i))) _) Hyes).
      * exists i. split; [exact Hi|].
        destruct (assigned (slot_at dev i)); [reflexivity|discriminate Hno].
    + replace (Z.to_nat (num_traces dev)) with O in Hall by lia. discriminate Hall.
Qed.


Lemma start_loop dev w :
  device_wf dev ->
  match
    for_u32 0 (num_traces dev)
      (fun cpu (st : insntrace_device_t * world) =>
         let '(dev, w) := st in
         let '(status, w) := x86_pt_stage_trace_data w dev cpu in
         if negb (is_ok status) then Return (fail status dev w) else
         Continue (slot_store dev cpu
                     (set_assigned true (set_owner cpu (slot_at dev cpu))), w))
      (dev, w)
  with
  | Return r =>
      res_reply r = None /\
      exists k, 0 <= k < num_traces dev /\ staged_upto dev k (res_dev r) /\
                res_status r = fst (w_mtrace w (Z.to_nat k)) /\
                is_ok (res_status r) = false
  | Continue (d, w') =>
      staged_upto dev (num_traces dev) d /\
      (forall m, w_mtrace w' m = w_mtrace w (Z.to_nat (num_traces dev) + m)%nat) /\
      (forall m, 0 <= m < num_traces dev -> is_ok (fst (w_mtrace w (Z.to_nat m))) = true)
  end.
Proof.
  intros Hwf.
  set (body := fun (cpu : Z) (st : insntrace_device_t * world) => _).
  pose proof (for_u32_ind
    (fun j (st : insntrace_device_t * world) =>
       staged_upto dev j (fst st) /\
       (forall m, w_mtrace (snd st) m = w_mtrace w (Z.to_nat j + m)%nat) /\
       (forall m, 0 <= m < j -> is_ok (fst (w_mtrace w (Z.to_nat m))) = true))
    (fun r => res_reply r = None /\
       exists k, 0 <= k < num_traces dev /\ staged_upto dev k (res_dev r) /\
                 res_status r = fst (w_mtrace w (Z.to_nat k)) /\
                 is_ok (res_status r) = false)
    body 0 (num_traces dev) (dev, w) (proj1 Hwf)) as L.
  match type of L with ?A -> ?B -> ?C => assert (HA : A); [|assert (HB : B);
     [|specialize (L HA HB); clear HA HB]] end.
  - cbn [fst snd]. split; [|split].
    + split; [reflexivity|]. split; [reflexivity|]. split; [reflexivity|].
      split; [exact Hwf|]. intros i Hi.
      destruct (Z.ltb_spec i 0); [lia|reflexivity].
    + intros m. reflexivity.
    + intros m Hm. lia.
  - intros j [d w1] Hj ((Dn & Dm & Da & Dwf & Ds) & Dw & Dok). cbn [fst snd] in *.
    subst body. cbv beta iota.
    unfold x86_pt_stage_trace_data. rewrite Dn.
    destruct (Z.leb_spec (num_traces dev) j); [lia|].
    unfold zx_mtrace_control.
    pose proof (Dw O) as Dw0. rewrite Nat.add_0_r in Dw0.
    destruct (w_mtrace w1 O) as [st regs] eqn:Ek.
    destruct (is_ok st) eqn:Est; cbn [negb].
    + cbn [fst snd].
      pose proof (slot_store_fields d j
                    (set_assigned true (set_owner j (slot_at d j))))
        as (F1 & F2 & F3 & _).
      split; [|split].
      * split; [congruence|]. split; [congruence|]. split; [congruence|].
        split; [apply slot_store_wf; exact Dwf|].
        intros i Hi. destruct (Z.eq_dec i j) as [->|Hne].
        -- rewrite slot_at_store by (try assumption; lia).
           rewrite (Ds j) by lia.
           destruct (Z.ltb_spec j j); [lia|].
           destruct (Z.ltb_spec j (j + 1)); [reflexivity|lia].
        -- rewrite slot_at_store_ne by lia. rewrite (Ds i Hi).
           destruct (Z.ltb_spec i j); destruct (Z.ltb_spec i (j + 1));
             try reflexivity; lia.
      * intros m. cbn [w_mtrace]. unfold tl_stream. rewrite Dw.
        f_equal. lia.
      * intros m Hm. destruct (Z.eq_dec m j) as [->|Hne].
        -- rewrite <- Dw0. cbn [fst]. exact Est.
        -- apply Dok. lia.
    + cbn [res_reply res_dev res_status fail]. split; [reflexivity|].
      exists j. split; [lia|]. split.
      * exact (conj Dn (conj Dm (conj Da (conj Dwf Ds)))).
      * rewrite <- Dw0. cbn [fst]. split; [reflexivity|exact Est].
  - destruct (for_u32 0 (num_traces dev) body (dev, w)) as [r|[d w']]; exact L.
Qed.

Lemma stop_loop dev w :
  device_wf dev ->
  match
    for_u32 0 (num_traces dev)
      (fun cpu (st : insntrace_device_t * world) =>
         let '(dev, w) := st in
         let '(status, dev, w) := x86_pt_get_trace_data w dev cpu in
         if negb (is_ok status) then Return (fail status dev w) else
         Continue (slot_store dev cpu
                     (set_owner 0 (set_assigned false (slot_at dev cpu))), w))
      (dev, w)
  with
  | Return r =>
      res_reply r = None /\
      exists k, 0 <= k < num_traces dev /\
                unstaged_upto dev (w_mtrace w) k (res_dev r) /\
                res_status r = fst (w_mtrace w (Z.to_nat k)) /\
                is_ok (res_status r) = false
  | Continue (d, w') =>
      unstaged_upto dev (w_mtrace w) (num_traces dev) d /\
      (forall m, 0 <= m < num_traces dev -> is_ok (fst (w_mtrace w (Z.to_nat m))) = true)
  end.
Proof.
  intros Hwf.
  set (body := fun (cpu : Z) (st : insntrace_device_t * world) => _).
  pose proof (for_u32_ind
    (fun j (st : insntrace_device_t * world) =>
       unstaged_upto dev (w_mtrace w) j (fst st) /\
       (forall m, w_mtrace (snd st) m = w_mtrace w (Z.to_nat j + m)%nat) /\
       (forall m, 0 <= m < j -> is_ok (fst (w_mtrace w (Z.to_nat m))) = true))
    (fun r => res_reply r = None /\
       exists k, 0 <= k < num_traces dev /\
                 unstaged_upto dev (w_mtrace w) k (res_dev r) /\
                 res_status r = fst (w_mtrace w (Z.to_nat k)) /\
                 is_ok (res_status r) = false)
    body 0 (num_traces dev) (dev, w) (proj1 Hwf)) as L.
  match type of L with ?A -> ?B -> ?C => assert (HA : A); [|assert (HB : B);
     [|specialize (L HA HB); clear HA HB]] end.
  - cbn [fst snd]. split; [|split].
    + split; [reflexivity|]. split; [reflexivity|]. split; [reflexivity|].
      split; [exact Hwf|]. intros i Hi.
      destruct (Z.ltb_spec i 0); [lia|reflexivity].
    + intros m. reflexivity.
    + intros m Hm. lia.
  - intros j [d w1] Hj ((Dn & Dm & Da & Dwf & Ds) & Dw & Dok). cbn [fst snd] in *.
    subst body. cbv beta iota.
    unfold x86_pt_get_trace_data. rewrite Dn.
    destruct (Z.leb_spec (num_traces dev) j); [lia|].
    unfold zx_mtrace_control.
    pose proof (Dw O) as Dw0. rewrite Nat.add_0_r in Dw0.
    destruct (w_mtrace w1 O) as [st regs] eqn:Ek.
    destruct (is_ok st) eqn:Est; cbn [negb is_ok].
    + cbn [fst snd].
      set (d1 := slot_store d j (set_regs regs (slot_at d j))).
      assert (D1wf : device_wf d1) by (apply slot_store_wf; exact Dwf).
      pose proof (slot_store_fields d j (set_regs regs (slot_at d j)))
        as (G1 & G2 & G3 & _). fold d1 in G1, G2, G3.
      assert (E1 : slot_at d1 j = set_regs regs (slot_at d j))
        by (apply slot_at_store; [exact Dwf|lia]).
      pose proof (slot_store_fields d1 j
                    (set_owner 0 (set_assigned false (slot_at d1 j))))
        as (F1 & F2 & F3 & _).
      split; [|split].
      * split; [congruence|]. split; [congruence|]. split; [congruence|].
        split; [apply slot_store_wf; exact D1wf|].
        intros i Hi. destruct (Z.eq_dec i j) as [->|Hne].
        -- rewrite slot_at_store by (try assumption; lia).
           rewrite E1. rewrite (Ds j) by lia.
           destruct (Z.ltb_spec j j); [lia|].
           destruct (Z.ltb_spec j (j + 1)); [|lia].
           rewrite <- Dw0. reflexivity.
        -- rewrite slot_at_store_ne by lia. unfold d1.
           rewrite slot_at_store_ne by lia. rewrite (Ds i Hi).
           destruct (Z.ltb_spec i j); destruct (Z.ltb_spec i (j + 1));
             try reflexivity; lia.
      * intros m. cbn [w_mtrace]. unfold tl_stream. rewrite Dw.
        f_equal. lia.
      * intros m Hm. destruct (Z.eq_dec m j) as [->|Hne].
        -- rewrite <- Dw0. cbn [fst]. exact Est.
        -- apply Dok. lia.
    + cbv beta iota. rewrite Est. cbn [negb].
      cbn [res_reply res_dev res_status fail]. split; [reflexivity|].
      exists j. split; [lia|]. split.
      * exact (conj Dn (conj Dm (conj Da (conj Dwf Ds)))).
      * rewrite <- Dw0. cbn [fst]. split; [reflexivity|exact Est].
  - destruct (for_u32 0 (num_traces dev) body (dev, w)) as [r|[d w']]; [exact L|].
    destruct L as (L1 & _ & L3). split; assumption.
Qed.


(** What ipt_start does: nothing when a check fails; otherwise it stages
    the slots in order and stops at the first kernel call that fails. *)
Lemma start_cases w dev :
  device_wf dev ->
  let r := ipt_start w dev in
  res_reply r = None /\
  ((res_dev r = dev /\ res_world r = w /\ res_status r = ZX_ERR_BAD_STATE /\
    (active dev = true \/ is_cpus (mode dev) = false \/
     exists i, 0 <= i < num_traces dev /\
       allocated (slot_at dev i) && negb (assigned (slot_at dev i)) = false)) \/
   (active dev = false /\ is_cpus (mode dev) = true /\
    slots_in_range dev (fun p => allocated p = true /\ assigned p = false) /\
    ((exists k, 0 <= k <= num_traces dev /\ staged_upto dev k (res_dev r) /\
        res_status r = fst (w_mtrace w (Z.to_nat k)) /\
        is_ok (res_status r) = false) \/
     (res_status r = ZX_OK /\
      (forall m, 0 <= m <= num_traces dev ->
         is_ok (fst (w_mtrace w (Z.to_nat m))) = true) /\
      exists d, staged_upto dev (num_traces dev) d /\
                res_dev r = set_active true d)))).
Proof.
  intros Hwf. cbv zeta. unfold ipt_start. cbv zeta.
  destruct (active dev) eqn:Eact.
  { split; [reflexivity|]. left. repeat split. left. reflexivity. }
  destruct (is_cpus (mode dev)) eqn:Ecpu; cbn [negb].
  2:{ split; [reflexivity|]. left. repeat split. right. left. reflexivity. }
  rewrite (for_u32_check
             (fun i => allocated (slot_at dev i) && negb (assigned (slot_at dev i)))
             ZX_ERR_BAD_STATE)
    by (intros i; destruct (allocated (slot_at dev i)),
                           (assigned (slot_at dev i)); reflexivity).
  destruct (forallb _ _) eqn:Hall.
  2:{ split; [reflexivity|]. left. repeat split. right. right.
      destruct (classic_range
                  (fun i => allocated (slot_at dev i) && negb (assigned (slot_at dev i)))
                  (num_traces dev)) as [Hyes|(i & Hi & Hno)].
      - pose proof (proj2 (forallb_range
            (fun i => allocated (slot_at dev i) && negb (assigned (slot_at dev i)))
            _) Hyes) as Hy.
        cbv beta in Hy. rewrite Hy in Hall. discriminate Hall.
      - exists i. split; assumption. }
  pose proof (proj1 (forallb_range
                (fun i => allocated (slot_at dev i) && negb (assigned (slot_at dev i)))
                _) Hall) as Hpre.
  assert (Hpre' : slots_in_range dev (fun p => allocated p = true /\ assigned p = false)).
  { intros i Hi. specialize (Hpre i Hi). cbv beta in Hpre.
    destruct (allocated (slot_at dev i)), (assigned (slot_at dev i));
      try discriminate Hpre. split; reflexivity. }
  pose proof (start_loop dev w Hwf) as L. cbv zeta in L.
  match type of L with match ?x with _ => _ end => destruct x as [r|[d w']] end;
    cbv beta iota.
  - destruct L as (Lr & k & Hk & Hst & Hs & Hok).
    split; [exact Lr|]. right. repeat (split; [first [assumption|reflexivity]|]).
    left. exists k. split; [lia|]. split; [exact Hst|]. split; assumption.
  - destruct L as (Hst & Hw & Hok). unfold zx_mtrace_control.
    pose proof (Hw O) as Hw0. rewrite Nat.add_0_r in Hw0.
    destruct (w_mtrace w' O) as [st regs] eqn:Ek.
    destruct (is_ok st) eqn:Est; cbn [negb].
    + split; [reflexivity|]. right. repeat (split; [first [assumption|reflexivity]|]).
      right. split; [reflexivity|]. split.
      * intros m Hm. destruct (Z.eq_dec m (num_traces dev)) as [->|Hne].
        -- rewrite <- Hw0. exact Est.
        -- apply Hok. lia.
      * exists d. split; [exact Hst|reflexivity].
    + split; [reflexivity|]. right. repeat (split; [first [assumption|reflexivity]|]).
      left. exists (num_traces dev). split; [destruct Hwf; lia|].
      cbn [res_dev res_status fail]. rewrite <- Hw0. cbn [fst].
      split; [exact Hst|]. split; [reflexivity|exact Est].
Qed.

(** What ipt_stop does in cpu mode. *)
Lemma stop_cases w dev :
  device_wf dev -> mode dev = IPT_TRACE_CPUS ->
  let r := ipt_stop w dev in
  res_reply r = None /\
  ((active dev = false /\ res_dev r = dev /\ res_world r = w /\
    res_status r = ZX_ERR_BAD_STATE) \/
   (active dev = true /\ is_ok (fst (w_mtrace w O)) = false /\
    res_dev r = dev /\ res_status r = fst (w_mtrace w O)) \/
   (active dev = true /\ is_ok (fst (w_mtrace w O)) = true /\
    ((exists k, 0 <= k < num_traces dev /\
        unstaged_upto (set_active false dev) (tl_stream (w_mtrace w)) k (res_dev r) /\
        res_status r = fst (w_mtrace w (S (Z.to_nat k))) /\
        is_ok (res_status r) = false) \/
     (res_status r = ZX_OK /\
      (forall m, 0 <= m <= num_traces dev ->
         is_ok (fst (w_mtrace w (Z.to_nat m))) = true) /\
      unstaged_upto (set_active false dev) (tl_stream (w_mtrace w))
        (num_traces dev) (res_dev r))))).
Proof.
  intros Hwf Hmode. cbv zeta. unfold ipt_stop. cbv zeta.
  destruct (active dev) eqn:Eact; cbn [negb].
  2:{ split; [reflexivity|]. left. repeat split. }
  unfold zx_mtrace_control.
  destruct (w_mtrace w O) as [st regs] eqn:Ek. cbn [fst].
  destruct (is_ok st) eqn:Est; cbn [negb].
  2:{ split; [reflexivity|]. right. left. repeat split. }
  change (mode (set_active false dev)) with (mode dev).
  change (num_traces (set_active false dev)) with (num_traces dev).
  rewrite Hmode. cbn [is_cpus].
  set (w1 := mk_world _ _ _ _ _ _ _).
  assert (Hwf1 : device_wf (set_active false dev)) by exact Hwf.
  pose proof (stop_loop (set_active false dev) w1 Hwf1) as L. cbv zeta in L.
  change (num_traces (set_active false dev)) with (num_traces dev) in L.
  change (w_mtrace w1) with (tl_stream (w_mtrace w)) in L.
  match type of L with match ?x with _ => _ end => destruct x as [r|[d w']] end;
    cbv beta iota.
  - destruct L as (Lr & k & Hk & Hst & Hs & Hok).
    split; [exact Lr|]. right. right. split; [reflexivity|]. split; [reflexivity|].
    left. exists k. split; [exact Hk|]. split; [exact Hst|]. split; assumption.
  - destruct L as (Hst & Hok).
    split; [reflexivity|]. right. right. split; [reflexivity|]. split; [reflexivity|].
    right. split; [reflexivity|]. split; [|exact Hst].
    intros m Hm. destruct (Z.eq_dec m 0) as [->|Hne].
    + change (Z.to_nat 0) with O. rewrite Ek. exact Est.
    + specialize (Hok (m - 1) ltac:(lia)). unfold tl_stream in Hok.
      replace (S (Z.to_nat (m - 1))) with (Z.to_nat m) in Hok by lia. exact Hok.
Qed.

Lemma slot_ok_staged p i :
  slot_ok p -> allocated p = true -> slot_ok (set_assigned true (set_owner i p)).
Proof. intros [_ H2] Ha. split; [intros _; exact Ha|exact H2]. Qed.

Lemma slot_ok_unstaged p regs :
  slot_ok p -> slot_ok (set_owner 0 (set_assigned false (set_regs regs p))).
Proof. intros [_ H2]. split; [intros E; discriminate E|exact H2]. Qed.

Lemma staged_inv dev k d :
  has_traces dev = true -> device_inv dev -> active dev = false ->
  slots_in_range dev (fun p => allocated p = true /\ assigned p = false) ->
  0 <= k ->
  staged_upto dev k d ->
  device_inv d /\ (num_traces dev <= k -> device_inv (set_active true d)).
Proof.
  intros Ht Hinv Hact Hpre Hk (Dn & Dm & Da & Dwf & Ds).
  destruct (device_inv_traces dev Ht Hinv) as (Hwf & Hm & Hs & _).
  assert (Hok : slots_in_range d slot_ok).
  { intros i Hi. rewrite Dn in Hi. rewrite Ds by lia.
    destruct (i <? k); [|apply Hs; exact Hi].
    apply slot_ok_staged; [apply Hs; exact Hi|]. apply (Hpre i Hi). }
  split.
  - apply device_inv_intro; try assumption; [congruence|].
    intros E. congruence.
  - intros Hall. apply device_inv_intro.
    + exact Dwf.
    + cbn. congruence.
    + exact Hok.
    + intros _ i Hi. change (slot_at (set_active true d) i) with (slot_at d i).
      change (num_traces (set_active true d)) with (num_traces d) in Hi.
      rewrite Ds by lia. destruct (Z.ltb_spec i k); [reflexivity|lia].
Qed.

Lemma unstaged_inv dev kernel k d :
  has_traces dev = true -> device_inv dev ->
  unstaged_upto (set_active false dev) kernel k d ->
  device_inv d.
Proof.
  intros Ht Hinv (Dn & Dm & Da & Dwf & Ds).
  destruct (device_inv_traces dev Ht Hinv) as (Hwf & Hm & Hs & _).
  apply device_inv_intro.
  - exact Dwf.
  - rewrite Dm. exact Hm.
  - intros i Hi. rewrite Dn in Hi. rewrite Ds by lia.
    change (slot_at (set_active false dev) i) with (slot_at dev i).
    change (num_traces (set_active false dev)) with (num_traces dev) in Hi.
    destruct (i <? k); [|apply Hs; exact Hi].
    apply slot_ok_unstaged. apply Hs; exact Hi.
  - intros E. rewrite Da in E. discriminate E.
Qed.

Lemma start_inv w dev :
  has_traces dev = true -> device_inv dev ->
  device_inv (res_dev (ipt_start w dev)).
Proof.
  intros Ht Hinv.
  destruct (device_inv_traces dev Ht Hinv) as (Hwf & _).
  destruct (start_cases w dev Hwf) as (_ & [(-> & _)|(Hact & _ & Hpre & Hcase)]);
    [exact Hinv|].
  destruct Hcase as [(k & Hk & Hst & _)|(_ & _ & d & Hst & ->)].
  - exact (proj1 (staged_inv dev k _ Ht Hinv Hact Hpre (proj1 Hk) Hst)).
  - apply (proj2 (staged_inv dev _ d Ht Hinv Hact Hpre (proj1 Hwf) Hst)). lia.
Qed.

Lemma stop_inv w dev :
  has_traces dev = true -> device_inv dev ->
  device_inv (res_dev (ipt_stop w dev)).
Proof.
  intros Ht Hinv.
  destruct (device_inv_traces dev Ht Hinv) as (Hwf & Hm & _).
  destruct (stop_cases w dev Hwf Hm)
    as (_ & [(_ & -> & _)|[(_ & _ & -> & _)|(_ & _ & Hcase)]]);
    [exact Hinv|exact Hinv|].
  destruct Hcase as [(k & _ & Hst & _)|(_ & _ & Hst)];
    exact (unstaged_inv dev _ _ _ Ht Hinv Hst).
Qed.

Lemma free_trace_inv w dev :
  has_traces dev = true -> device_inv dev ->
  device_inv (res_dev (ipt_free_trace w dev)).
Proof.
  intros Ht Hinv.
  destruct (free_trace_cases w dev Ht Hinv)
    as [(-> & _)|(_ & _ & _ & d & Dt & Dinv & Dact & _ & _ & [(-> & _)|(-> & _)])];
    [exact Hinv|exact Dinv|].
  unfold device_inv. cbn. exact Dact.
Qed.

Lemma free_buffer_inv w dev d :
  has_traces dev = true -> device_inv dev ->
  device_inv (snd (fst (x86_pt_free_buffer w dev d))).
Proof.
  intros Ht Hinv. unfold x86_pt_free_buffer.
  destruct (device_inv_traces dev Ht Hinv) as (Hwf & _).
  destruct (active dev) eqn:Eact; [exact Hinv|].
  destruct (Z.leb_spec (num_traces dev) d); [exact Hinv|].
  destruct (allocated (slot_at dev d)) eqn:Eal; cbn [negb]; [|exact Hinv].
  destruct (assigned (slot_at dev d)) eqn:Eas; [exact Hinv|].
  rewrite free_buffer1_pair. cbv beta iota.
  cbn [fst snd]. rewrite (proj2 (slot_index_norm dev d)).
  destruct (allocated_in_range dev d Hwf Eal) as [R1 R2].
  apply device_inv_store; try assumption; [split; [exact R1|apply R2; assumption]|].
  apply slot_ok_unallocated; [exact Eas|reflexivity].
Qed.

End Handlers.

(** ** The device across ioctls *)

Section DeviceTheorems.
Context {hdr : intel_pt_h}.
Variable caps : ipt_config_t.

Lemma wf_has_traces dev : device_wf dev -> has_traces dev = true.
Proof.
  intros [_ Hl]. unfold has_traces.
  destruct (per_trace_state dev); [reflexivity|contradiction].
Qed.

Lemma worker_inv w dev op cmdlen replymax :
  table_entries_ok -> device_inv dev -> request_in_range op ->
  device_inv (res_dev (insntrace_ioctl_worker caps w dev op cmdlen replymax)).
Proof.
  intros HT H Hop. unfold insntrace_ioctl_worker.
  destruct op; cbn [is_alloc_trace negb andb];
    try (destruct (has_traces dev) eqn:Ht; cbn [negb]; [|exact H]).
  - destruct (negb (replymax =? 0)); [exact H|].
    apply alloc_trace_inv; [exact H|exact Hop].
  - destruct (_ || _); [exact H|]. apply free_trace_inv; assumption.
  - destruct (negb (cmdlen =? 0)); [exact H|].
    unfold ipt_get_trace_config. destruct (_ <? _); exact H.
  - unfold ipt_alloc_buffer.
    destruct (negb (cmdlen =? _)); [exact H|].
    destruct (_ <? _); [exact H|].
    pose proof (alloc_buffer_inv caps w dev config HT Ht H (proj1 Hop) (proj2 Hop)) as A.
    destruct (x86_pt_alloc_buffer caps w dev config) as [[[st d] dev'] w'].
    cbn [fst snd] in A. destruct (is_ok st); exact A.
  - destruct (negb (replymax =? 0)); [exact H|].
    unfold ipt_assign_thread_buffer. destruct (negb (cmdlen =? _)); exact H.
  - destruct (negb (replymax =? 0)); [exact H|].
    unfold ipt_release_thread_buffer. destruct (negb (cmdlen =? _)); exact H.
  - unfold ipt_get_buffer_config.
    repeat match goal with
           | |- context [if ?c then fail _ dev w else _] => destruct c; [exact H|]
           end.
    exact H.
  - unfold ipt_get_buffer_info.
    repeat match goal with
           | |- context [if ?c then fail _ dev w else _] => destruct c; [exact H|]
           end.
    exact H.
  - unfold ipt_get_chunk_handle.
    repeat match goal with
           | |- context [if ?c then fail _ dev w else _] => destruct c; [exact H|]
           end.
    destruct (zx_handle_call w) as [[st v] w1].
    destruct (negb (is_ok st)); [exact H|].
    destruct (zx_handle_call w1) as [[st' h] w2].
    destruct (negb (is_ok st')); exact H.
  - destruct (negb (replymax =? 0)); [exact H|].
    unfold ipt_free_buffer. destruct (negb (cmdlen =? _)); [exact H|].
    pose proof (free_buffer_inv w dev descriptor Ht H) as A.
    destruct (x86_pt_free_buffer w dev descriptor) as [[st dev'] w']. exact A.
  - destruct (_ || _); [exact H|]. apply start_inv; assumption.
  - destruct (_ || _); [exact H|]. apply stop_inv; assumption.
  - exact H.
Qed.

Lemma dev_init_inv : device_inv dev_init.
Proof. reflexivity. Qed.

Lemma run_ioctls_inv w dev reqs :
  table_entries_ok -> device_inv dev ->
  Forall (fun q => request_in_range (fst (fst q))) reqs ->
  Forall (fun r => device_inv (res_dev r)) (run_ioctls caps w dev reqs).
Proof.
  intros HT Hinv Hreqs. revert w dev Hinv.
  induction Hreqs as [|[[op cmdlen] replymax] rest Hop _ IH]; intros w dev Hinv;
    cbn [run_ioctls]; [constructor|].
  cbn [fst] in Hop.
  pose proof (worker_inv w dev op cmdlen replymax HT Hinv Hop) as Hstep.
  constructor; [exact Hstep|]. apply IH. exact Hstep.
Qed.

Lemma final_dev_Forall (P : insntrace_device_t -> Prop) dev rs :
  P dev -> Forall (fun r => P (res_dev r)) rs -> P (final_dev dev rs).
Proof.
  intros Hd Hrs. unfold final_dev.
  induction Hrs as [|r rest Hr Hrest IH]; [exact Hd|].
  destruct rest as [|r' rest']; [exact Hr|exact IH].
Qed.

(** X13: the invariant of the device holds after every ioctl of a
    sequence and in the state the sequence ends in: the slot vector has
    num_traces elements and the mode is cpu mode; a slot is assigned
    only when allocated; an allocated slot has its chunk and table
    arrays, of num_chunks and num_tables elements; while tracing is
    active every slot is assigned; without traces the device is not
    active. *)
Theorem device_inv_reachable w dev reqs :
  table_entries_ok -> device_inv dev ->
  Forall (fun q => request_in_range (fst (fst q))) reqs ->
  Forall (fun r => device_inv (res_dev r)) (run_ioctls caps w dev reqs) /\
  device_inv (final_dev dev (run_ioctls caps w dev reqs)).
Proof.
  intros HT Hinv Hreqs.
  pose proof (run_ioctls_inv w dev reqs HT Hinv Hreqs) as H.
  split; [exact H|]. apply final_dev_Forall; assumption.
Qed.

Lemma slot_at_same_index dev d d' :
  Z.to_nat d = Z.to_nat d' -> slot_at dev d = slot_at dev d'.
Proof. intros E. unfold slot_at. rewrite E. reflexivity. Qed.

Lemma wedged_store dev i d q :
  device_wf dev -> active dev = false ->
  0 <= i < num_traces dev ->
  allocated (slot_at dev i) = true -> assigned (slot_at dev i) = true ->
  Z.to_nat d <> Z.to_nat i ->
  wedged (slot_store dev d q).
Proof.
  intros Hwf Hact Hi Hal Has Hne.
  pose proof (slot_store_fields dev d q) as (F1 & _ & F3 & _).
  split; [apply slot_store_wf; exact Hwf|]. split; [congruence|].
  exists i. rewrite F1. split; [exact Hi|].
  rewrite slot_at_store_other by exact Hne. split; assumption.
Qed.

Lemma wedged_stays w dev op cmdlen replymax :
  wedged dev ->
  let r := insntrace_ioctl_worker caps w dev op cmdlen replymax in
  wedged (res_dev r) /\
  (recovery_op op = true -> res_status r <> ZX_OK /\ res_dev r = dev).
Proof.
  intros Hw. pose proof Hw as (Hwf & Hact & i & Hi & Hal & Has).
  pose proof (wf_has_traces dev Hwf) as Ht.
  cbv zeta. unfold insntrace_ioctl_worker. rewrite Ht.
  destruct op; cbn [is_alloc_trace negb andb recovery_op].
  - (* alloc_trace *)
    destruct (negb (replymax =? 0));
      [split; [exact Hw|intros _; split; [discriminate|reflexivity]]|].
    unfold ipt_alloc_trace.
    destruct (negb (ipt_config_supported caps));
      [split; [exact Hw|intros _; split; [discriminate|reflexivity]]|].
    destruct (negb (ipt_config_output_topa caps));
      [split; [exact Hw|intros _; split; [discriminate|reflexivity]]|].
    rewrite Ht. split; [exact Hw|intros _; split; [discriminate|reflexivity]].
  - (* free_trace *)
    destruct (_ || _);
      [split; [exact Hw|intros _; split; [discriminate|reflexivity]]|].
    unfold ipt_free_trace. rewrite Hact.
    rewrite (for_u32_check (fun i => negb (assigned (slot_at dev i))) ZX_ERR_BAD_STATE)
      by (intros j; destruct (assigned (slot_at dev j)); reflexivity).
    destruct (forallb _ _) eqn:Hall.
    + exfalso.
      pose proof (proj1 (forallb_range (fun i => negb (assigned (slot_at dev i))) _)
                    Hall i Hi) as Hn.
      cbv beta in Hn. rewrite Has in Hn. discriminate Hn.
    + split; [exact Hw|intros _; split; [discriminate|reflexivity]].
  - (* get_trace_config *)
    split; [|intros E; discriminate E].
    destruct (negb (cmdlen =? 0)); [exact Hw|].
    unfold ipt_get_trace_config. destruct (_ <? _); exact Hw.
  - (* alloc_buffer *)
    split; [|intros E; discriminate E].
    unfold ipt_alloc_buffer.
    destruct (negb (cmdlen =? _)); [exact Hw|].
    destruct (_ <? _); [exact Hw|].
    pose proof (alloc_buffer_cases caps w dev config Hwf) as A. cbv zeta in A.
    destruct (x86_pt_alloc_buffer caps w dev config) as [[[st d] dev'] w'].
    cbn [fst snd] in A.
    assert (Hw' : wedged dev').
    { destruct A as [[_ ->]|(q & Hd & Hfree & -> & _)]; [exact Hw|].
      apply (wedged_store dev i); try assumption.
      intros E. assert (find_unallocated dev = i) by lia. congruence. }
    destruct (is_ok st); exact Hw'.
  - split; [|intros E; discriminate E].
    destruct (negb (replymax =? 0)); [exact Hw|].
    unfold ipt_assign_thread_buffer. destruct (negb (cmdlen =? _)); exact Hw.
  - split; [|intros E; discriminate E].
    destruct (negb (replymax =? 0)); [exact Hw|].
    unfold ipt_release_thread_buffer. destruct (negb (cmdlen =? _)); exact Hw.
  - split; [|intros E; discriminate E].
    unfold ipt_get_buffer_config.
    repeat match goal with
           | |- context [if ?c then fail _ dev w else _] => destruct c; [exact Hw|]
           end.
    exact Hw.
  - split; [|intros E; discriminate E].
    unfold ipt_get_buffer_info.
    repeat match goal with
           | |- context [if ?c then fail _ dev w else _] => destruct c; [exact Hw|]
           end.
    exact Hw.
  - split; [|intros E; discriminate E].
    unfold ipt_get_chunk_handle.
    repeat match goal with
           | |- context [if ?c then fail _ dev w else _] => destruct c; [exact Hw|]
           end.
    destruct (zx_handle_call w) as [[st v] w1].
    destruct (negb (is_ok st)); [exact Hw|].
    destruct (zx_handle_call w1) as [[st' h] w2].
    destruct (negb (is_ok st')); exact Hw.
  - (* free_buffer *)
    split; [|intros E; discriminate E].
    destruct (negb (replymax =? 0)); [exact Hw|].
    unfold ipt_free_buffer. destruct (negb (cmdlen =? _)); [exact Hw|].
    unfold x86_pt_free_buffer. rewrite Hact.
    destruct (_ <=? _); [exact Hw|].
    destruct (negb (allocated (slot_at dev descriptor))); [exact Hw|].
    destruct (assigned (slot_at dev descriptor)) eqn:Ed; [exact Hw|].
    cbn [res_dev fail].
    apply (wedged_store dev i); try assumption.
    intros E. rewrite (slot_at_same_index dev descriptor i E) in Ed. congruence.
  - (* start *)
    destruct (_ || _);
      [split; [exact Hw|intros _; split; [discriminate|reflexivity]]|].
    unfold ipt_start. rewrite Hact.
    destruct (negb (is_cpus (mode dev)));
      [split; [exact Hw|intros _; split; [discriminate|reflexivity]]|].
    rewrite (for_u32_check
               (fun i => allocated (slot_at dev i) && negb (assigned (slot_at dev i)))
               ZX_ERR_BAD_STATE)
      by (intros j; destruct (allocated (slot_at dev j)),
                             (assigned (slot_at dev j)); reflexivity).
    destruct (forallb _ _) eqn:Hall.
    + exfalso.
      pose proof (proj1 (forallb_range
                    (fun i => allocated (slot_at dev i) && negb (assigned (slot_at dev i)))
                    _) Hall i Hi) as Hn.
      cbv beta in Hn. rewrite Has, Hal in Hn. discriminate Hn.
    + split; [exact Hw|intros _; split; [discriminate|reflexivity]].
  - (* stop *)
    destruct (_ || _);
      [split; [exact Hw|intros _; split; [discriminate|reflexivity]]|].
    unfold ipt_stop. rewrite Hact. cbn [negb].
    split; [exact Hw|intros _; split; [discriminate|reflexivity]].
  - split; [exact Hw|intros E; discriminate E].
Qed.

Lemma free_assigned_fails w dev d cmdlen replymax :
  assigned (slot_at dev d) = true ->
  let r := insntrace_ioctl_worker caps w dev (IOCTL_INSNTRACE_FREE_BUFFER d)
             cmdlen replymax in
  res_status r <> ZX_OK /\ res_reply r = None /\ res_dev r = dev /\ res_world r = w.
Proof.
  intros Has. cbv zeta. unfold insntrace_ioctl_worker.
  destruct (negb (is_alloc_trace _) && negb (has_traces dev));
    [repeat split; discriminate|].
  destruct (negb (replymax =? 0)); [repeat split; discriminate|].
  unfold ipt_free_buffer.
  destruct (negb (cmdlen =? _)); [repeat split; discriminate|].
  unfold x86_pt_free_buffer.
  destruct (active dev); [repeat split; discriminate|].
  destruct (_ <=? _); [repeat split; discriminate|].
  destruct (negb (allocated (slot_at dev d))); [repeat split; discriminate|].
  rewrite Has. repeat split; discriminate.
Qed.

(** X14: a device that is not active and has an assigned slot stays so
    under every ioctl; ALLOC_TRACE, FREE_TRACE, START and STOP all fail
    on it and leave it as it is, and so does FREE_BUFFER of a slot that
    is assigned, which releases nothing. *)
Theorem wedged_forever w dev op cmdlen replymax :
  wedged dev ->
  let r := insntrace_ioctl_worker caps w dev op cmdlen replymax in
  wedged (res_dev r) /\
  (recovery_op op = true -> res_status r <> ZX_OK /\ res_dev r = dev) /\
  (forall d, op = IOCTL_INSNTRACE_FREE_BUFFER d ->
     assigned (slot_at dev d) = true ->
     res_status r <> ZX_OK /\ res_dev r = dev /\ res_world r = w).
Proof.
  intros Hw r.
  destruct (wedged_stays w dev op cmdlen replymax Hw) as [H1 H2].
  split; [exact H1|]. split; [exact H2|].
  intros d -> Has.
  destruct (free_assigned_fails w dev d cmdlen replymax Has) as (F1 & _ & F3 & F4).
  split; [exact F1|]. split; [exact F3|exact F4].
Qed.

(** X15: a successful START found the device inactive with every slot
    allocated and not assigned, every kernel call answered OK, and it
    leaves the device active with slot i assigned to cpu i. *)
Theorem start_success_state w dev :
  device_wf dev ->
  res_status (ipt_start w dev) = ZX_OK ->
  let d := res_dev (ipt_start w dev) in
  active dev = false /\ active d = true /\
  num_traces d = num_traces dev /\ mode d = mode dev /\
  (forall m, 0 <= m <= num_traces dev ->
     is_ok (fst (w_mtrace w (Z.to_nat m))) = true) /\
  forall i, 0 <= i < num_traces dev ->
    allocated (slot_at dev i) = true /\ assigned (slot_at dev i) = false /\
    slot_at d i = set_assigned true (set_owner i (slot_at dev i)).
Proof.
  intros Hwf Eok d. subst d.
  destruct (start_cases w dev Hwf)
    as (_ & [(_ & _ & Est & _)|(Hact & _ & Hpre & Hcase)]);
    [rewrite Est in Eok; discriminate Eok|].
  destruct Hcase as [(k & _ & _ & _ & Hno)|(_ & Hall & d & Hst & Ed)];
    [rewrite Eok in Hno; discriminate Hno|].
  rewrite Ed. destruct Hst as (Dn & Dm & _ & _ & Ds).
  split; [exact Hact|]. split; [reflexivity|]. split; [exact Dn|].
  split; [exact Dm|]. split; [exact Hall|].
  intros i Hi. destruct (Hpre i Hi) as [P1 P2].
  split; [exact P1|]. split; [exact P2|].
  change (slot_at (set_active true d) i) with (slot_at d i).
  rewrite Ds by lia. destruct (Z.ltb_spec i (num_traces dev)); [reflexivity|lia].
Qed.

(** X16: when START passes its checks and the kernel fails after
    staging at least one cpu, START fails and the device is left not
    active with a slot assigned. *)
Theorem start_failure_wedges w dev :
  device_wf dev -> active dev = false -> mode dev = IPT_TRACE_CPUS ->
  slots_in_range dev (fun p => allocated p = true /\ assigned p = false) ->
  is_ok (fst (w_mtrace w O)) = true ->
  (exists m, 0 <= m <= num_traces dev /\
             is_ok (fst (w_mtrace w (Z.to_nat m))) = false) ->
  res_status (ipt_start w dev) <> ZX_OK /\ wedged (res_dev (ipt_start w dev)).
Proof.
  intros Hwf Hact Hmode Hpre Hfirst (m & Hm & Hbad).
  destruct (start_cases w dev Hwf)
    as (_ & [(_ & _ & _ & [E|[E|(i & Hi & E)]])|(_ & _ & _ & Hcase)]).
  - congruence.
  - rewrite Hmode in E. discriminate E.
  - destruct (Hpre i Hi) as [P1 P2]. rewrite P1, P2 in E. discriminate E.
  - destruct Hcase as [(k & Hk & Hst & Es & Hno)|(_ & Hall & _)].
    + split; [intros E; rewrite E in Hno; discriminate Hno|].
      assert (Hk1 : 1 <= k).
      { destruct (Z.eq_dec k 0) as [->|]; [|lia].
        rewrite Es in Hno. change (Z.to_nat 0) with O in Hno. congruence. }
      destruct Hst as (Dn & Dm & Da & Dwf & Ds).
      split; [exact Dwf|]. split; [congruence|].
      exists 0. rewrite Dn. split; [lia|].
      rewrite Ds by lia. destruct (Z.ltb_spec 0 k); [|lia].
      split; [|reflexivity]. cbn [allocated set_assigned set_owner].
      apply (Hpre 0). lia.
    + rewrite (Hall m Hm) in Hbad. discriminate Hbad.
Qed.

(** X17: a successful STOP in cpu mode found the device active and
    leaves it inactive; slot i holds the registers of the (i+2)-th
    kernel answer and is no longer assigned. *)
Theorem stop_success_state w dev :
  device_wf dev -> mode dev = IPT_TRACE_CPUS ->
  res_status (ipt_stop w dev) = ZX_OK ->
  let d := res_dev (ipt_stop w dev) in
  active dev = true /\ active d = false /\
  num_traces d = num_traces dev /\ mode d = mode dev /\
  forall i, 0 <= i < num_traces dev ->
    slot_at d i =
      set_owner 0 (set_assigned false
                     (set_regs (snd (w_mtrace w (S (Z.to_nat i)))) (slot_at dev i))).
Proof.
  intros Hwf Hmode Eok d. subst d.
  destruct (stop_cases w dev Hwf Hmode)
    as (_ & [(_ & _ & _ & Est)|[(_ & Hno & _ & Est)|(Hact & _ & Hcase)]]).
  - rewrite Est in Eok. discriminate Eok.
  - rewrite Est in Eok. rewrite Eok in Hno. discriminate Hno.
  - destruct Hcase as [(k & _ & _ & _ & Hno)|(_ & _ & Hst)];
      [rewrite Eok in Hno; discriminate Hno|].
    destruct Hst as (Dn & Dm & Da & _ & Ds).
    split; [exact Hact|]. split; [exact Da|]. split; [exact Dn|].
    split; [exact Dm|].
    intros i Hi. rewrite Ds by lia.
    change (num_traces (set_active false dev)) with (num_traces dev).
    destruct (Z.ltb_spec i (num_traces dev)); [reflexivity|lia].
Qed.

(** X18: when STOP turned tracing off and the kernel then fails while
    the registers are read back, STOP fails and the device is left not
    active with a slot still assigned. *)
Theorem stop_failure_wedges w dev :
  has_traces dev = true -> device_inv dev -> active dev = true ->
  is_ok (fst (w_mtrace w O)) = true ->
  (exists m, 0 <= m < num_traces dev /\
             is_ok (fst (w_mtrace w (S (Z.to_nat m)))) = false) ->
  res_status (ipt_stop w dev) <> ZX_OK /\ wedged (res_dev (ipt_stop w dev)).
Proof.
  intros Ht Hinv Hact Hfirst (m & Hm & Hbad).
  destruct (device_inv_traces dev Ht Hinv) as (Hwf & Hmode & Hs & Hall).
  destruct (stop_cases w dev Hwf Hmode)
    as (_ & [(E & _)|[(_ & Hno & _)|(_ & _ & Hcase)]]).
  - congruence.
  - congruence.
  - destruct Hcase as [(k & Hk & Hst & Es & Hno)|(_ & Hok & _)].
    + split; [intros E; rewrite E in Hno; discriminate Hno|].
      destruct Hst as (Dn & Dm & Da & Dwf & Ds).
      split; [exact Dwf|]. split; [exact Da|].
      exists k. rewrite Dn.
      change (num_traces (set_active false dev)) with (num_traces dev).
      split; [exact Hk|]. rewrite Ds by lia.
      destruct (Z.ltb_spec k k); [lia|].
      change (slot_at (set_active false dev) k) with (slot_at dev k).
      pose proof (Hall Hact k Hk) as Has. cbv beta in Has.
      split; [|exact Has]. apply (proj1 (Hs k Hk)). exact Has.
    + specialize (Hok (m + 1) ltac:(lia)).
      replace (Z.to_nat (m + 1)) with (S (Z.to_nat m)) in Hok by lia.
      congruence.
Qed.


(** X20: ALLOC_TRACE succeeds only for cpu mode with num_traces equal to
    the number of cpus, and installs that many zeroed slots; when it
    fails the device still has no slot vector of its own making. *)
Theorem alloc_trace_outcome w dev config cmdlen :
  let r := ipt_alloc_trace caps w dev config cmdlen in
  (res_status r = ZX_OK ->
   has_traces dev = false /\ cmdlen = sizeof_trace_config /\
   tc_mode config = IPT_MODE_CPUS /\ tc_mode config <> IPT_MODE_THREADS /\
   tc_num_traces config = w_num_cpus w /\
   tc_num_traces config <= IPT_MAX_NUM_TRACES /\
   mode (res_dev r) = IPT_TRACE_CPUS /\
   num_traces (res_dev r) = tc_num_traces config /\
   active (res_dev r) = active dev /\
   per_trace_state (res_dev r) =
     Some (replicate (Z.to_nat (tc_num_traces config)) per_trace_zero)) /\
  (res_status r <> ZX_OK ->
   per_trace_state (res_dev r) = per_trace_state dev /\
   mode (res_dev r) = mode dev /\ active (res_dev r) = active dev).
Proof.
  cbv zeta. unfold ipt_alloc_trace.
  destruct (negb (ipt_config_supported caps));
    [split; [intros E; discriminate E|intros _; repeat split]|].
  destruct (negb (ipt_config_output_topa caps));
    [split; [intros E; discriminate E|intros _; repeat split]|].
  destruct (has_traces dev) eqn:Ht;
    [split; [intros E; discriminate E|intros _; repeat split]|].
  assert (Hnone : per_trace_state dev = None).
  { unfold has_traces in Ht. destruct (per_trace_state dev); [discriminate Ht|reflexivity]. }
  destruct (Z.eqb_spec cmdlen sizeof_trace_config) as [Ecmd|]; cbn [negb];
    [|split; [intros E; discriminate E|intros _; repeat split]].
  destruct (Z.eqb_spec (tc_mode config) IPT_MODE_THREADS) as [|Enth];
    [split; [intros E; discriminate E|intros _; repeat split]|].
  destruct (Z.eqb_spec (tc_mode config) IPT_MODE_CPUS) as [Ecpu|];
    [|split; [intros E; discriminate E|intros _; repeat split]].
  destruct (Z.ltb_spec IPT_MAX_NUM_TRACES (tc_num_traces config));
    [split; [intros E; discriminate E|intros _; repeat split]|].
  cbn [andb].
  destruct (Z.eqb_spec (tc_num_traces config) (w_num_cpus w)) as [Encpu|]; cbn [negb];
    [|split; [intros E; discriminate E|intros _; repeat split]].
  unfold calloc. cbv beta iota zeta.
  destruct (w_calloc w O); cbn [negb].
  - destruct (zx_mtrace_control _) as [[st regs] w1].
    destruct (is_ok st) eqn:Est; cbn [negb].
    + split; [|intros E; exfalso; apply E; reflexivity].
      intros _. repeat split; try assumption; reflexivity.
    + split; [intros E; cbn in E; rewrite E in Est; discriminate Est|].
      intros _. cbn. rewrite Hnone. repeat split.
  - split; [intros E; discriminate E|]. intros _. repeat split.
Qed.

End DeviceTheorems.

(** ** Requests and replies *)

Section Requests.
Context {hdr : intel_pt_h}.
Variable caps : ipt_config_t.

(** X21: an operation that looks at the result of no call
    (GET_TRACE_CONFIG, GET_BUFFER_CONFIG, GET_BUFFER_INFO, FREE_BUFFER)
    succeeds whenever its lifecycle precondition holds and the two
    buffer sizes are right.  The three that read leave the world alone;
    FREE_BUFFER releases the buffers of the slot and frees its two
    arrays, the chunks first, and does nothing else to the world. *)
Theorem local_ops_succeed w dev op cmdlen replymax :
  decided_locally op = true ->
  lifecycle_precondition caps dev op = true ->
  cmdlen = cmd_size op -> reply_fits op replymax ->
  let r := insntrace_ioctl_worker caps w dev op cmdlen replymax in
  res_status r = ZX_OK /\
  match op with
  | IOCTL_INSNTRACE_FREE_BUFFER descriptor =>
      res_world r = with_released (released_slot (slot_at dev descriptor)) w
  | _ => res_world r = w
  end /\
  match res_reply r with
  | Some (rep, n) => has_reply op = true /\ n = reply_size op
  | None => has_reply op = false
  end.
Proof.
  intros Hk Hpre -> Hfit. cbv zeta. unfold insntrace_ioctl_worker.
  destruct op; try discriminate Hk;
    cbn [is_alloc_trace negb andb lifecycle_precondition cmd_size] in *;
    unfold reply_fits in Hfit; cbn [has_reply reply_size] in Hfit.
  - (* get_trace_config *)
    rewrite Hpre. cbn [negb]. unfold ipt_get_trace_config.
    destruct (Z.ltb_spec replymax sizeof_trace_config); [lia|].
    destruct (mode dev); repeat split.
  - (* get_buffer_config *)
    apply andb_prop in Hpre. destruct Hpre as [Ht Hs]. rewrite Ht. cbn [negb].
    unfold slot_allocated in Hs. apply andb_prop in Hs. destruct Hs as [Hd Ha].
    apply Z.ltb_lt in Hd.
    unfold ipt_get_buffer_config. rewrite Z.eqb_refl. cbn [negb].
    destruct (Z.ltb_spec replymax sizeof_buffer_config); [lia|].
    destruct (Z.leb_spec (num_traces dev) descriptor); [lia|].
    rewrite Ha. cbn [negb]. repeat split.
  - (* get_buffer_info *)
    apply andb_prop in Hpre. destruct Hpre as [Hpre Hm].
    apply andb_prop in Hpre. destruct Hpre as [Ht Hs]. rewrite Ht. cbn [negb].
    unfold slot_allocated in Hs. apply andb_prop in Hs. destruct Hs as [Hd Ha].
    apply Z.ltb_lt in Hd.
    unfold ipt_get_buffer_info. rewrite Z.eqb_refl. cbn [negb].
    destruct (Z.ltb_spec replymax sizeof_buffer_info); [lia|].
    assert (is_cpus (mode dev) && active dev = false) as ->
      by (destruct (is_cpus (mode dev)), (active dev); try reflexivity; discriminate Hm).
    destruct (Z.leb_spec (num_traces dev) descriptor); [lia|].
    rewrite Ha. cbn [negb]. repeat split.
  - (* free_buffer *)
    apply andb_prop in Hpre. destruct Hpre as [Hpre Hu].
    apply andb_prop in Hpre. destruct Hpre as [Hpre Hs].
    apply andb_prop in Hpre. destruct Hpre as [Ht Hact]. rewrite Ht. cbn [negb].
    unfold slot_allocated in Hs. apply andb_prop in Hs. destruct Hs as [Hd Ha].
    apply Z.ltb_lt in Hd.
    subst replymax. cbn [Z.eqb negb].
    unfold ipt_free_buffer. rewrite Z.eqb_refl. cbn [negb].
    unfold x86_pt_free_buffer.
    destruct (active dev); [discriminate Hact|].
    destruct (Z.leb_spec (num_traces dev) descriptor); [lia|].
    rewrite Ha. cbn [negb].
    destruct (assigned (slot_at dev descriptor)); [discriminate Hu|].
    rewrite free_buffer1_pair. cbv beta iota.
    cbn [fail res_status res_world res_reply].
    split; [reflexivity|]. split; [apply free_buffer1_world|reflexivity].
Qed.

(** X22: the thread-buffer operations never succeed, write no reply and
    leave the device as it was.  With traces present and the two sizes
    right they answer ZX_ERR_NOT_SUPPORTED after closing the thread
    handle they were given; otherwise they answer something else and
    the world is untouched. *)
Theorem thread_buffer_ops_never_succeed w dev op cmdlen replymax :
  is_thread_op op = true ->
  let r := insntrace_ioctl_worker caps w dev op cmdlen replymax in
  let reached := has_traces dev && (replymax =? 0) && (cmdlen =? cmd_size op) in
  res_status r <> ZX_OK /\ res_reply r = None /\ res_dev r = dev /\
  (reached = true ->
   res_status r = ZX_ERR_NOT_SUPPORTED /\
   res_world r = zx_handle_close w (thread_handle op)) /\
  (reached = false ->
   res_status r <> ZX_ERR_NOT_SUPPORTED /\ res_world r = w).
Proof.
  intros Hop. cbv zeta. unfold insntrace_ioctl_worker.
  destruct op; try discriminate Hop;
    cbn [is_alloc_trace negb andb cmd_size thread_handle].
  - destruct (has_traces dev); cbn [negb andb].
    + destruct (Z.eqb_spec replymax 0); cbn [negb andb].
      * unfold ipt_assign_thread_buffer, x86_pt_assign_thread_buffer.
        destruct (Z.eqb_spec cmdlen sizeof_assign_thread_buffer); cbn [negb];
          repeat split; try discriminate; intros; congruence.
      * repeat split; try discriminate; intros; congruence.
    + repeat split; try discriminate; intros; congruence.
  - destruct (has_traces dev); cbn [negb andb].
    + destruct (Z.eqb_spec replymax 0); cbn [negb andb].
      * unfold ipt_release_thread_buffer, x86_pt_release_thread_buffer.
        destruct (Z.eqb_spec cmdlen sizeof_assign_thread_buffer); cbn [negb];
          repeat split; try discriminate; intros; congruence.
      * repeat split; try discriminate; intros; congruence.
    + repeat split; try discriminate; intros; congruence.
Qed.

Lemma loop_no_reply (body : Z -> insntrace_device_t * world ->
                            loop_step ioctl_result (insntrace_device_t * world))
    n st :
  (forall j s, match body j s with
               | Return r => res_reply r = None
               | Continue _ => True
               end) ->
  match for_u32 0 n body st with
  | Return r => res_reply r = None
  | Continue _ => True
  end.
Proof.
  intros Hb.
  pose proof (for_u32_inv (fun _ => True) (fun r => res_reply r = None) body 0 n st I)
    as L.
  match type of L with ?B -> ?C => assert (HB : B); [|specialize (L HB)] end.
  - intros j s _. specialize (Hb j s). destruct (body j s); [exact Hb|exact I].
  - destruct (for_u32 0 n body st); [exact L|exact I].
Qed.

(** X23: a reply is written only by an operation that succeeds, and it
    is then the reply of that operation with its size. *)
Theorem reply_only_on_success w dev op cmdlen replymax rep n :
  res_reply (insntrace_ioctl_worker caps w dev op cmdlen replymax) = Some (rep, n) ->
  res_status (insntrace_ioctl_worker caps w dev op cmdlen replymax) = ZX_OK /\
  n = reply_size op /\ reply_kind_ok op rep /\ reply_size op <= replymax.
Proof.
  unfold insntrace_ioctl_worker.
  destruct (negb (is_alloc_trace op) && negb (has_traces dev)); [discriminate|].
  destruct op; cbn [reply_size reply_kind_ok].
  - destruct (negb (replymax =? 0)); [discriminate|].
    unfold ipt_alloc_trace.
    repeat match goal with
           | |- context [if ?c then fail _ dev w else _] => destruct c; [discriminate|]
           end.
    destruct (if tc_mode config =? IPT_MODE_CPUS then _ else _); [|discriminate].
    repeat match goal with
           | |- context [if ?c then fail _ dev w else _] => destruct c; [discriminate|]
           end.
    unfold calloc. cbv beta iota zeta.
    destruct (w_calloc w O); cbn [negb]; [|discriminate].
    destruct (zx_mtrace_control _) as [[st regs] w1].
    destruct (is_ok st); discriminate.
  - destruct (_ || _); [discriminate|].
    unfold ipt_free_trace.
    destruct (active dev); [discriminate|].
    destruct (for_u32 0 (num_traces dev) _ tt) as [st|u]; [discriminate|].
    destruct (loop_result (dev, w) _) as [d1 w1].
    destruct (zx_mtrace_control w1) as [[st regs] w2].
    destruct (is_ok st); discriminate.
  - destruct (negb (cmdlen =? 0)); [discriminate|].
    unfold ipt_get_trace_config.
    destruct (Z.ltb_spec replymax sizeof_trace_config); [discriminate|].
    destruct (mode dev); cbn [res_reply res_status]; intros E;
      injection E as <- <-; repeat split; assumption.
  - unfold ipt_alloc_buffer.
    destruct (negb (cmdlen =? _)); [discriminate|].
    destruct (Z.ltb_spec replymax sizeof_descriptor); [discriminate|].
    destruct (x86_pt_alloc_buffer caps w dev config) as [[[st d] dev'] w'].
    destruct (is_ok st); cbn [negb]; [|discriminate].
    cbn [res_reply res_status]. intros E. injection E as <- <-.
    repeat split; assumption.
  - destruct (negb (replymax =? 0)); [discriminate|].
    unfold ipt_assign_thread_buffer. destruct (negb (cmdlen =? _)); discriminate.
  - destruct (negb (replymax =? 0)); [discriminate|].
    unfold ipt_release_thread_buffer. destruct (negb (cmdlen =? _)); discriminate.
  - unfold ipt_get_buffer_config.
    destruct (negb (cmdlen =? _)); [discriminate|].
    destruct (Z.ltb_spec replymax sizeof_buffer_config); [discriminate|].
    repeat match goal with
           | |- context [if ?c then fail _ dev w else _] => destruct c; [discriminate|]
           end.
    cbn [res_reply res_status]. intros E. injection E as <- <-.
    repeat split; assumption.
  - unfold ipt_get_buffer_info.
    destruct (negb (cmdlen =? _)); [discriminate|].
    destruct (Z.ltb_spec replymax sizeof_buffer_info); [discriminate|].
    repeat match goal with
           | |- context [if ?c then fail _ dev w else _] => destruct c; [discriminate|]
           end.
    cbn [res_reply res_status]. intros E. injection E as <- <-.
    repeat split; assumption.
  - unfold ipt_get_chunk_handle.
    destruct (negb (cmdlen =? _)); [discriminate|].
    destruct (Z.ltb_spec replymax sizeof_handle); [discriminate|].
    repeat match goal with
           | |- context [if ?c then fail _ dev w else _] => destruct c; [discriminate|]
           end.
    destruct (zx_handle_call w) as [[st v] w1].
    destruct (negb (is_ok st)); [discriminate|].
    destruct (zx_handle_call w1) as [[st' h] w2].
    destruct (negb (is_ok st')); [discriminate|].
    cbn [res_reply res_status]. intros E. injection E as <- <-.
    repeat split; assumption.
  - destruct (negb (replymax =? 0)); [discriminate|].
    unfold ipt_free_buffer. destruct (negb (cmdlen =? _)); [discriminate|].
    destruct (x86_pt_free_buffer w dev descriptor) as [[st dev'] w']. discriminate.
  - destruct (_ || _); [discriminate|].
    unfold ipt_start.
    destruct (active dev); [discriminate|].
    destruct (negb (is_cpus (mode dev))); [discriminate|].
    destruct (for_u32 0 (num_traces dev) _ tt) as [st|u]; [discriminate|].
    match goal with
    | |- context [for_u32 0 ?n ?b ?s] => pose proof (loop_no_reply b n s) as L
    end.
    match type of L with ?B -> ?C => assert (HB : B); [|specialize (L HB)] end.
    { intros j [d w1]. destruct (x86_pt_stage_trace_data w1 d j) as [st w2].
      destruct (is_ok st); cbn [negb]; [exact I|reflexivity]. }
    match type of L with match ?x with _ => _ end => destruct x as [r|[d w']] end.
    + intros E. rewrite L in E. discriminate E.
    + destruct (zx_mtrace_control w') as [[st regs] w2].
      destruct (is_ok st); discriminate.
  - destruct (_ || _); [discriminate|].
    unfold ipt_stop.
    destruct (negb (active dev)); [discriminate|].
    destruct (zx_mtrace_control w) as [[st regs] w1].
    destruct (is_ok st); cbn [negb]; [|discriminate].
    cbv zeta. destruct (is_cpus _); [|discriminate].
    match goal with
    | |- context [for_u32 0 ?n ?b ?s] => pose proof (loop_no_reply b n s) as L
    end.
    match type of L with ?B -> ?C => assert (HB : B); [|specialize (L HB)] end.
    { intros j [d w2]. destruct (x86_pt_get_trace_data w2 d j) as [[st' d'] w3].
      destruct (is_ok st'); cbn [negb]; [exact I|reflexivity]. }
    match type of L with match ?x with _ => _ end => destruct x as [r|[d w']] end.
    + intros E. rewrite L in E. discriminate E.
    + discriminate.
  - discriminate.
Qed.

(** X24: the operations that only read never change the device.
    GET_TRACE_CONFIG, GET_BUFFER_CONFIG, GET_BUFFER_INFO and an unknown
    operation leave the world alone as well; a thread-buffer operation
    closes the thread handle when it answers ZX_ERR_NOT_SUPPORTED and
    does nothing else; GET_CHUNK_HANDLE calls the kernel. *)
Theorem queries_keep_device w dev op cmdlen replymax :
  is_query op = true ->
  let r := insntrace_ioctl_worker caps w dev op cmdlen replymax in
  res_dev r = dev /\
  match op with
  | IOCTL_INSNTRACE_GET_CHUNK_HANDLE _ _ => True
  | IOCTL_INSNTRACE_ASSIGN_THREAD_BUFFER _ _
  | IOCTL_INSNTRACE_RELEASE_THREAD_BUFFER _ _ =>
      res_world r = world_when_rejected w op (res_status r)
  | _ => res_world r = w
  end.
Proof.
  intros Hq. cbv zeta. unfold insntrace_ioctl_worker.
  destruct op; try discriminate Hq;
    (destruct (negb (is_alloc_trace _) && negb (has_traces dev));
     [split; [reflexivity|try exact I; reflexivity]|]).
  - destruct (negb (cmdlen =? 0)); [split; reflexivity|].
    unfold ipt_get_trace_config. destruct (_ <? _); split; reflexivity.
  - destruct (negb (replymax =? 0)); [split; reflexivity|].
    unfold ipt_assign_thread_buffer. destruct (negb (cmdlen =? _)); split; reflexivity.
  - destruct (negb (replymax =? 0)); [split; reflexivity|].
    unfold ipt_release_thread_buffer. destruct (negb (cmdlen =? _)); split; reflexivity.
  - unfold ipt_get_buffer_config.
    repeat match goal with
           | |- context [if ?c then fail _ dev w else _] =>
               destruct c; [split; reflexivity|]
           end.
    split; reflexivity.
  - unfold ipt_get_buffer_info.
    repeat match goal with
           | |- context [if ?c then fail _ dev w else _] =>
               destruct c; [split; reflexivity|]
           end.
    split; reflexivity.
  - split; [|exact I]. unfold ipt_get_chunk_handle.
    repeat match goal with
           | |- context [if ?c then fail _ dev w else _] => destruct c; [reflexivity|]
           end.
    destruct (zx_handle_call w) as [[st v] w1].
    destruct (negb (is_ok st)); [reflexivity|].
    destruct (zx_handle_call w1) as [[st' h] w2].
    destruct (negb (is_ok st')); reflexivity.
  - split; reflexivity.
Qed.

End Requests.

(** ** insntrace_init_once *)

Section InitOnceProofs.
Variable cpuid_max : Z.
Variable cpuid : Z -> Z -> cpuid_regs.
Variable bus_freq_of : Z -> Z -> Z.

Lemma BIT_testbit x b :
  0 <= b < 32 -> (BIT x b =? 0) = negb (Z.testbit x b).
Proof.
  intros Hb. unfold BIT. rewrite Z.shiftl_1_l.
  assert (2 ^ b < 2 ^ 32) by (apply Z.pow_lt_mono_r; lia).
  assert (0 < 2 ^ b) by (apply Z.pow_pos_nonneg; lia).
  rewrite u32_small by lia. rewrite Z.land_comm.
  destruct (Z.testbit x b) eqn:E; cbn [negb].
  - apply Z.eqb_neq. intros E0.
    apply (land_pow2_zero x b) in E0; [congruence|lia].
  - apply Z.eqb_eq. apply land_pow2_zero; [lia|exact E].
Qed.

Lemma land_ones_bound x k : 0 <= k -> 0 <= Z.land x (Z.ones k) < 2 ^ k.
Proof.
  intros Hk. rewrite Z.land_ones by exact Hk. apply Z.mod_pos_bound.
  apply Z.pow_pos_nonneg; lia.
Qed.

(** X25: insntrace_init_once answers OK exactly when cpuid has leaf 0x14
    and bit 25 of ebx of leaf 7 is set, and it then sets
    ipt_config_supported; otherwise it answers ZX_ERR_NOT_SUPPORTED and
    writes nothing but the processor signature. *)
Theorem init_once_supported cfg :
  let r := insntrace_init_once cpuid_max cpuid bus_freq_of cfg in
  let has_pt := (0x14 <=? cpuid_max) && Z.testbit (cp_b (cpuid 0x07 0)) 25 in
  (fst r = if has_pt then ZX_OK else ZX_ERR_NOT_SUPPORTED) /\
  (has_pt = true -> ipt_config_supported (snd r) = true) /\
  (has_pt = false ->
   exists f m s, snd r = set_signature f m s cfg \/ snd r = cfg).
Proof.
  cbv zeta. unfold insntrace_init_once.
  destruct (Z.ltb_spec cpuid_max 0x14) as [Hlt|Hge].
  - destruct (Z.leb_spec 0x14 cpuid_max); [lia|]. cbn [andb fst snd].
    split; [reflexivity|]. split; [discriminate|].
    intros _. exists 0, 0, 0. right. reflexivity.
  - destruct (Z.leb_spec 0x14 cpuid_max); [|lia]. cbn [andb].
    rewrite BIT_testbit by lia.
    destruct (Z.testbit (cp_b (cpuid 7 0)) 25); cbn [negb fst snd].
    + split; [reflexivity|]. split; [|discriminate]. intros _.
      repeat match goal with |- context [if ?c then _ else _] => destruct c end;
        reflexivity.
    + split; [reflexivity|]. split; [discriminate|]. intros _.
      eexists _, _, _. left. reflexivity.
Qed.

(** X26: starting from the static initialisers, the configuration that
    insntrace_init_once leaves has the three frequency masks below 2^16
    (so they are the uint32 values that the ctl validation assumes), at
    most 7 address ranges and addr_cfg_max 0 or 2. *)
Theorem init_once_masks_bounded :
  let cfg := snd (insntrace_init_once cpuid_max cpuid bus_freq_of ipt_config_initial) in
  0 <= ipt_config_mtc_freq_mask cfg < 2 ^ 16 /\
  0 <= ipt_config_cyc_thresh_mask cfg < 2 ^ 16 /\
  0 <= ipt_config_psb_freq_mask cfg < 2 ^ 16 /\
  0 <= ipt_config_num_addr_ranges cfg <= 7 /\
  (ipt_config_addr_cfg_max cfg = 0 \/ ipt_config_addr_cfg_max cfg = 2) /\
  hw_masks_u32 cfg.
Proof.
  cbv zeta.
  assert (B16 : forall x, 0 <= Z.land x 0xffff < 2 ^ 16)
    by (intros x; exact (land_ones_bound x 16 ltac:(lia))).
  assert (B3 : forall x, 0 <= Z.land x 0x7 <= 7).
  { intros x. pose proof (land_ones_bound x 3 ltac:(lia)) as B.
    change (Z.ones 3) with 7 in B. change (2 ^ 3) with 8 in B. lia. }
  assert (H : forall cfg,
            (0 <= ipt_config_mtc_freq_mask cfg < 2 ^ 16 /\
             0 <= ipt_config_cyc_thresh_mask cfg < 2 ^ 16 /\
             0 <= ipt_config_psb_freq_mask cfg < 2 ^ 16 /\
             0 <= ipt_config_num_addr_ranges cfg <= 7 /\
             (ipt_config_addr_cfg_max cfg = 0 \/ ipt_config_addr_cfg_max cfg = 2)) ->
            0 <= ipt_config_mtc_freq_mask cfg < 2 ^ 16 /\
            0 <= ipt_config_cyc_thresh_mask cfg < 2 ^ 16 /\
            0 <= ipt_config_psb_freq_mask cfg < 2 ^ 16 /\
            0 <= ipt_config_num_addr_ranges cfg <= 7 /\
            (ipt_config_addr_cfg_max cfg = 0 \/ ipt_config_addr_cfg_max cfg = 2) /\
            hw_masks_u32 cfg).
  { intros cfg (A1 & A2 & A3 & A4 & A5). unfold hw_masks_u32.
    repeat split; try lia; exact A5. }
  apply H. unfold insntrace_init_once.
  repeat match goal with |- context [if ?c then _ else _] => destruct c end;
    cbn [snd ipt_config_mtc_freq_mask ipt_config_cyc_thresh_mask
         ipt_config_psb_freq_mask ipt_config_num_addr_ranges ipt_config_addr_cfg_max
         set_signature set_supported set_addr_cfg_max set_masks set_bus_freq
         set_features ipt_config_initial];
    repeat split; try lia; try apply B16; try apply B3; auto.
Qed.

(** X27: running insntrace_init_once a second time on the configuration
    it produced changes nothing. *)
Theorem init_once_idempotent cfg :
  let r := insntrace_init_once cpuid_max cpuid bus_freq_of cfg in
  insntrace_init_once cpuid_max cpuid bus_freq_of (snd r) = r.
Proof.
  cbv zeta. unfold insntrace_init_once.
  repeat match goal with |- context [if ?c then _ else _] => destruct c eqn:? end;
    reflexivity.
Qed.

(** X28: the processor signature is decoded into a stepping below 16, a
    model below 256 and a family of at most 270; outside families 6 and
    15 the model is the 4-bit field alone. *)
Theorem init_once_signature cfg :
  0x14 <= cpuid_max ->
  let c := snd (insntrace_init_once cpuid_max cpuid bus_freq_of cfg) in
  0 <= ipt_config_stepping c < 16 /\
  0 <= ipt_config_model c < 256 /\
  0 <= ipt_config_family c <= 270 /\
  (ipt_config_family c <> 6 -> ipt_config_family c <> 15 ->
   ipt_config_model c < 16).
Proof.
  intros Hmax. cbv zeta.
  set (a := cp_a (cpuid 1 0)).
  assert (B4 : forall x, 0 <= Z.land x 0xf < 16)
    by (intros x; exact (land_ones_bound x 4 ltac:(lia))).
  assert (B8 : forall x, 0 <= Z.land x 0xff < 256)
    by (intros x; exact (land_ones_bound x 8 ltac:(lia))).
  pose proof (B4 a) as S1. pose proof (B4 (Z.shiftr a 4)) as S2.
  pose proof (B4 (Z.shiftr a 8)) as S3. pose proof (B4 (Z.shiftr a 16)) as S4.
  pose proof (B8 (Z.shiftr a 20)) as S5.
  assert (Hsig : forall c,
    ipt_config_stepping c = Z.land a 0xf ->
    ipt_config_family c =
      (if Z.land (Z.shiftr a 8) 0xf =? 0xf
       then u32 (Z.land (Z.shiftr a 8) 0xf + Z.land (Z.shiftr a 20) 0xff)
       else Z.land (Z.shiftr a 8) 0xf) ->
    ipt_config_model c =
      (if (ipt_config_family c =? 6) || (ipt_config_family c =? 0xf)
       then u32 (Z.land (Z.shiftr a 4) 0xf + Z.shiftl (Z.land (Z.shiftr a 16) 0xf) 4)
       else Z.land (Z.shiftr a 4) 0xf) ->
    0 <= ipt_config_stepping c < 16 /\
    0 <= ipt_config_model c < 256 /\
    0 <= ipt_config_family c <= 270 /\
    (ipt_config_family c <> 6 -> ipt_config_family c <> 15 ->
     ipt_config_model c < 16)).
  { intros c E1 E2 E3.
    assert (F : 0 <= ipt_config_family c <= 270).
    { rewrite E2. destruct (_ =? 0xf); [rewrite u32_small; lia|lia]. }
    rewrite Z.shiftl_mul_pow2 in E3 by lia. change (2 ^ 4) with 16 in E3.
    split; [rewrite E1; lia|]. split.
    - rewrite E3. destruct (_ || _); [rewrite u32_small; lia|lia].
    - split; [exact F|]. intros N6 N15. rewrite E3.
      destruct (Z.eqb_spec (ipt_config_family c) 6); [contradiction|].
      destruct (Z.eqb_spec (ipt_config_family c) 0xf); [contradiction|].
      cbn [orb]. lia. }
  unfold insntrace_init_once.
  destruct (Z.ltb_spec cpuid_max 0x14); [lia|].
  fold a. cbv zeta.
  destruct (BIT (cp_b (cpuid 7 0)) 25 =? 0); cbn [snd];
    [apply Hsig; reflexivity|].
  apply Hsig;
    cbn [ipt_config_stepping ipt_config_family ipt_config_model set_features];
    repeat (match goal with
            | |- context [ipt_config_stepping (if ?c then _ else _)] => destruct c
            | |- context [ipt_config_family (if ?c then _ else _)] => destruct c
            | |- context [ipt_config_model (if ?c then _ else _)] => destruct c
            end;
            cbn [ipt_config_stepping ipt_config_family ipt_config_model
                 set_bus_freq set_masks set_addr_cfg_max set_supported
                 set_signature]);
    reflexivity.
Qed.

End InitOnceProofs.

(** ** insntrace_release *)

Section ReleaseProofs.
Context {hdr : intel_pt_h}.





End ReleaseProofs.

(** ** Instances of the theorems above *)

Section MoreScenarios.

Lemma small_table_entries_ok : @table_entries_ok small_header.
Proof. vm_compute; split; [discriminate|reflexivity]. Qed.

Lemma alloc_chunks_aligned_witness :
  let r := @x86_pt_alloc_buffer1 small_header full_caps (good_world 1)
             (@per_trace_zero small_header) 5 0 false in
  let p := snd (fst r) in
  num_chunks p = 5 /\
  exists cs, chunks p = Some cs /\ length cs = Z.to_nat 5 /\
             Forall (chunk_aligned 0) cs.
Proof.
  intros r p.
  assert (Hn : 0 <= 5 <= MAX_NUM_CHUNKS) by (vm_compute; split; discriminate).
  assert (Ho : 0 <= 0 <= MAX_CHUNK_ORDER) by (vm_compute; split; discriminate).
  assert (E : @x86_pt_alloc_buffer1 small_header full_caps (good_world 1)
                (@per_trace_zero small_header) 5 0 false = (ZX_OK, p, snd r))
    by (vm_compute; reflexivity).
  exact (@alloc_chunks_aligned small_header full_caps _ _ _ _ _ _ _
           small_table_entries_ok Hn Ho E).
Defined.

Lemma single_entry_topa_only_witness :
  let r := @x86_pt_alloc_buffer1 small_header single_topa_caps (good_world 1)
             (@per_trace_zero small_header) 1 0 false in
  let p := snd (fst r) in
  num_chunks p = 1 /\ num_tables p = 1.
Proof.
  intros r p.
  assert (Hn : 0 <= 1 <= MAX_NUM_CHUNKS) by (vm_compute; split; discriminate).
  assert (Ho : 0 <= 0 <= MAX_CHUNK_ORDER) by (vm_compute; split; discriminate).
  assert (E : @x86_pt_alloc_buffer1 small_header single_topa_caps (good_world 1)
                (@per_trace_zero small_header) 1 0 false = (ZX_OK, p, snd r))
    by (vm_compute; reflexivity).
  exact (proj2 (@single_entry_topa_only small_header single_topa_caps _ _ _ _ _ _ _
                  small_table_entries_ok Hn Ho eq_refl E)).
Defined.

Lemma topa_data_layout_witness :
  let r := @x86_pt_alloc_buffer1 small_header full_caps (good_world 1)
             (@per_trace_zero small_header) 5 0 false in
  let p := snd (fst r) in
  let D := @IPT_TOPA_MAX_TABLE_ENTRIES small_header - 1 in
  let entry :=
    Z.lor (@IPT_TOPA_ENTRY_PHYS_ADDR small_header (io_phys (buf_at (chunks p) 4)))
          (@IPT_TOPA_ENTRY_SIZE small_header (0 + PAGE_SIZE_SHIFT)) in
  table_read (topas p) (4 / D) (4 mod D) =
    if (4 =? 5 - 1) && negb false
    then Z.lor entry (@IPT_TOPA_ENTRY_STOP small_header) else entry.
Proof.
  intros r p.
  assert (Hn : 1 <= 5 <= MAX_NUM_CHUNKS) by (vm_compute; split; discriminate).
  assert (Hg : 0 <= 4 < 5) by (vm_compute; split; [discriminate|reflexivity]).
  assert (E : @x86_pt_alloc_buffer1 small_header full_caps (good_world 1)
                (@per_trace_zero small_header) 5 0 false = (ZX_OK, p, snd r))
    by (vm_compute; reflexivity).
  exact (proj2 (proj2 (@topa_data_layout small_header full_caps _ _ _ _ _ _ _
                         small_table_entries_ok Hn E 4 Hg))).
Defined.

Lemma make_topa_asserts_hold_witness :
  let q := @slot_built small_header 1 0 false (ceil_div 1 3)
             [io_buffer_zero] [mk_io_buffer 0x100000 100 (replicate 4 0)] in
  exists c,
    for_u32 0 (num_chunks q) (@make_topa_data_step small_header q)
      (mk_cursor (topas q) 0 0 None) = Continue c /\
    cursor_assert q c /\ is_Some (last_entry c).
Proof.
  assert (Hn : 1 <= 1 <= MAX_NUM_CHUNKS) by (vm_compute; split; discriminate).
  assert (Hz : Forall (@zero_table small_header)
                 [mk_io_buffer 0x100000 100 (replicate 4 0)])
    by (constructor; [reflexivity|constructor]).
  exact (@make_topa_asserts_hold small_header 1 0 false [io_buffer_zero]
           [mk_io_buffer 0x100000 100 (replicate 4 0)]
           small_table_entries_ok Hn eq_refl Hz).
Defined.

Lemma capture_size_unmatched_witness :
  let r := @x86_pt_alloc_buffer1 small_header full_caps (good_world 1)
             (@per_trace_zero small_header) 5 0 false in
  @compute_capture_size small_header (set_regs stray_base_regs (snd (fst r))) = 0.
Proof.
  intros r.
  apply (@capture_size_unmatched small_header _ small_table_entries_ok).
  - vm_compute; discriminate.
  - intros j Hj.
    change (num_tables (set_regs stray_base_regs (snd (fst r)))) with 2 in Hj.
    assert (Hc : j = 0 \/ j = 1) by lia.
    destruct Hc as [-> | ->]; vm_compute; discriminate.
Defined.

Lemma capture_size_exact_witness :
  let r := @x86_pt_alloc_buffer1 small_header full_caps (good_world 1)
             (@per_trace_zero small_header) 5 0 false in
  @compute_capture_size small_header (set_regs second_table_regs (snd (fst r)))
  = (1 * (4 - 1) + 1) * (2 ^ 0 * PAGE_SIZE) + 100.
Proof.
  intros r.
  assert (Hn : 1 <= 5 <= MAX_NUM_CHUNKS) by (vm_compute; split; discriminate).
  assert (Ho : 0 <= 0 <= MAX_CHUNK_ORDER) by (vm_compute; split; discriminate).
  assert (Hs : @IPT_TOPA_MIN_SHIFT small_header <= 0 + PAGE_SIZE_SHIFT
               <= @IPT_TOPA_MAX_SHIFT small_header)
    by (vm_compute; split; discriminate).
  assert (E : @x86_pt_alloc_buffer1 small_header full_caps (good_world 1)
                (@per_trace_zero small_header) 5 0 false
              = (ZX_OK, snd (fst r), snd r))
    by (vm_compute; reflexivity).
  apply (@capture_size_exact small_header full_caps _ _ _ _ _ _ _
           second_table_regs small_table_entries_ok (sdm_extract_size_ok 4)
           Hn Ho Hs E 1).
  - vm_compute; split; [discriminate|reflexivity].
  - vm_compute; reflexivity.
  - intros j Hj. assert (j = 0) as -> by lia. vm_compute; discriminate.
  - vm_compute; reflexivity.
  - vm_compute; discriminate.
Defined.

Lemma accepted_geometry_witness :
  buffer_range_rejected one_chunk_config = false.
Proof.
  assert (Hn : 0 <= bc_num_chunks one_chunk_config < 2 ^ 32)
    by (vm_compute; split; [discriminate|reflexivity]).
  assert (Ho : 0 <= bc_chunk_order one_chunk_config < 2 ^ 32)
    by (vm_compute; split; [discriminate|reflexivity]).
  apply (proj2 (accepted_geometry one_chunk_config Hn Ho)).
  vm_compute. repeat split; discriminate.
Defined.


Lemma dev_one_cpu_wf : device_wf (@dev_one_cpu small_header).
Proof. vm_compute; split; [discriminate|reflexivity]. Qed.

Lemma one_chunk_alloc :
  @x86_pt_alloc_buffer small_header full_caps (good_world 1)
    (@dev_one_cpu small_header) one_chunk_config
  = (ZX_OK, 0, dev_one_buffer,
     snd (@x86_pt_alloc_buffer small_header full_caps (good_world 1)
            (@dev_one_cpu small_header) one_chunk_config)).
Proof. vm_compute; reflexivity. Qed.

Lemma one_chunk_unsigned :
  0 <= bc_num_chunks one_chunk_config /\ 0 <= bc_chunk_order one_chunk_config.
Proof. vm_compute; split; discriminate. Qed.

Lemma dev_three_cpus_wf : device_wf dev_three_cpus.
Proof. vm_compute; split; [discriminate|reflexivity]. Qed.

Lemma second_buffer_alloc :
  @x86_pt_alloc_buffer small_header full_caps world_three_cpus
    dev_three_cpus one_chunk_config
  = (ZX_OK, 1,
     snd (fst (@x86_pt_alloc_buffer small_header full_caps world_three_cpus
                 dev_three_cpus one_chunk_config)),
     snd (@x86_pt_alloc_buffer small_header full_caps world_three_cpus
            dev_three_cpus one_chunk_config)).
Proof. vm_compute; reflexivity. Qed.

(** Three slots with the first allocated: the next buffer gets
    descriptor 1, not 2. *)
Lemma alloc_buffer_descriptor_least_witness :
  let dev' := snd (fst (@x86_pt_alloc_buffer small_header full_caps world_three_cpus
                          dev_three_cpus one_chunk_config)) in
  (allocated (@slot_at small_header dev_three_cpus 0) = true /\
   allocated (@slot_at small_header dev_three_cpus 2) = false) /\
  0 <= 1 < num_traces dev_three_cpus /\
  allocated (@slot_at small_header dev_three_cpus 1) = false /\
  (forall j, 0 <= j < 1 ->
     allocated (@slot_at small_header dev_three_cpus j) = true) /\
  allocated (@slot_at small_header dev' 1) = true.
Proof.
  intros dev'.
  split; [split; vm_compute; reflexivity|].
  exact (@alloc_buffer_descriptor_least small_header full_caps _ _ _ _ _ _
           dev_three_cpus_wf (proj1 one_chunk_unsigned) (proj2 one_chunk_unsigned)
           second_buffer_alloc).
Defined.

Lemma alloc_buffer_slot_state_witness :
  let p := @slot_at small_header dev_one_buffer 0 in
  ctl p = bc_ctl one_chunk_config /\ status p = 0 /\
  @compute_capture_size small_header p = 0.
Proof.
  intros p.
  destruct (@alloc_buffer_slot_state small_header full_caps _ _ _ _ _ _
              small_table_entries_ok dev_one_cpu_wf
              (proj1 one_chunk_unsigned) (proj2 one_chunk_unsigned) one_chunk_alloc)
    as (_ & _ & _ & H4 & _ & _ & H7 & _ & _ & _ & _ & H12).
  split; [exact H4|]. split; [exact H7|exact H12].
Defined.

Lemma buffer_config_round_trip_witness :
  @ipt_get_buffer_config small_header (good_world 1) dev_one_buffer 0
    (@sizeof_descriptor small_header) 96
  = mk_result ZX_OK
      (Some (ReplyBufferConfig one_chunk_config, @sizeof_buffer_config small_header))
      dev_one_buffer (good_world 1).
Proof.
  assert (Hr : @sizeof_buffer_config small_header <= 96) by (vm_compute; discriminate).
  exact (@buffer_config_round_trip small_header full_caps _ _ _ _ _ _ (good_world 1) 96
           small_table_entries_ok dev_one_cpu_wf
           (proj1 one_chunk_unsigned) (proj2 one_chunk_unsigned) one_chunk_alloc Hr).
Defined.

Lemma failed_buffer_alloc :
  @x86_pt_alloc_buffer small_header full_caps (world_io_fails 3 1)
    dev_three_cpus one_chunk_config
  = (ZX_ERR_NO_MEMORY, 0,
     snd (fst (@x86_pt_alloc_buffer small_header full_caps (world_io_fails 3 1)
                 dev_three_cpus one_chunk_config)),
     snd (@x86_pt_alloc_buffer small_header full_caps (world_io_fails 3 1)
            dev_three_cpus one_chunk_config)).
Proof. vm_compute; reflexivity. Qed.

(** Three slots with the first allocated.  A call that succeeds leaves
    slot 0 as it was; so does a call whose table cannot be allocated, and
    that one leaves slot 1 free, having released the chunk it had got
    and freed the two arrays. *)
Lemma alloc_buffer_frame_witness :
  let ok := @x86_pt_alloc_buffer small_header full_caps world_three_cpus
              dev_three_cpus one_chunk_config in
  let ko := @x86_pt_alloc_buffer small_header full_caps (world_io_fails 3 1)
              dev_three_cpus one_chunk_config in
  allocated (@slot_at small_header dev_three_cpus 0) = true /\
  (num_traces (snd (fst ok)) = num_traces dev_three_cpus /\
   @slot_at small_header (snd (fst ok)) 0 = @slot_at small_header dev_three_cpus 0) /\
  (num_traces (snd (fst ko)) = num_traces dev_three_cpus /\
   @slot_at small_header (snd (fst ko)) 0 = @slot_at small_header dev_three_cpus 0 /\
   (forall j, 0 <= j ->
      allocated (@slot_at small_header (snd (fst ko)) j) = true ->
      allocated (@slot_at small_header dev_three_cpus j) = true) /\
   w_released (snd ko) = [ArrayFreed; ArrayFreed; BufferReleased 100]).
Proof.
  intros ok ko.
  assert (Ha : allocated (@slot_at small_header dev_three_cpus 0) = true)
    by (vm_compute; reflexivity).
  assert (H0 : 0 <= 0) by lia.
  assert (Hne : ZX_ERR_NO_MEMORY <> ZX_OK) by discriminate.
  split; [exact Ha|]. split.
  - destruct (@alloc_buffer_frame small_header full_caps _ _ _ _ _ _ _
                dev_three_cpus_wf second_buffer_alloc) as (H1 & _ & _ & _ & H5 & _).
    split; [exact H1|exact (H5 0 H0 Ha)].
  - destruct (@alloc_buffer_frame small_header full_caps _ _ _ _ _ _ _
                dev_three_cpus_wf failed_buffer_alloc) as (H1 & _ & _ & _ & H5 & H6).
    split; [exact H1|]. split; [exact (H5 0 H0 Ha)|].
    split; [exact (H6 Hne)|vm_compute; reflexivity].
Defined.

Lemma alloc_buffer_no_free_slot_witness :
  exists st, (st = ZX_ERR_INVALID_ARGS \/ st = ZX_ERR_NO_RESOURCES) /\
    @x86_pt_alloc_buffer small_header full_caps (good_world 1) dev_one_buffer
      one_chunk_config = (st, 0, dev_one_buffer, good_world 1).
Proof.
  apply (@alloc_buffer_no_free_slot small_header full_caps).
  - vm_compute; discriminate.
  - intros j Hj. change (num_traces dev_one_buffer) with 1 in Hj.
    assert (j = 0) as -> by lia. vm_compute; reflexivity.
Defined.

Lemma prepare_two_cpus_in_range :
  Forall (fun q => request_in_range (fst (fst q))) prepare_two_cpus.
Proof.
  repeat constructor; vm_compute; discriminate.
Qed.

Lemma device_inv_reachable_witness :
  @device_inv small_header dev_two_buffers.
Proof.
  exact (proj2 (@device_inv_reachable small_header full_caps (good_world 2) dev_init
                  prepare_two_cpus small_table_entries_ok eq_refl
                  prepare_two_cpus_in_range)).
Defined.

Lemma dev_two_buffers_wf : device_wf dev_two_buffers.
Proof. vm_compute; split; [discriminate|reflexivity]. Qed.

Lemma dev_two_buffers_ready :
  @slots_in_range small_header dev_two_buffers
    (fun p => allocated p = true /\ assigned p = false).
Proof.
  intros j Hj. change (num_traces dev_two_buffers) with 2 in Hj.
  assert (Hc : j = 0 \/ j = 1) by lia.
  destruct Hc as [-> | ->]; vm_compute; split; reflexivity.
Qed.

Lemma dev_half_staged_wedged : @wedged small_header dev_half_staged.
Proof.
  split; [vm_compute; split; [discriminate|reflexivity]|].
  split; [vm_compute; reflexivity|].
  exists 0. split; [vm_compute; split; [discriminate|reflexivity]|].
  split; vm_compute; reflexivity.
Qed.

(** START failed while staging the second cpu: slot 0 is assigned.  STOP
    fails, and so does FREE_BUFFER of slot 0. *)
Lemma wedged_forever_witness :
  let r := @insntrace_ioctl_worker small_header full_caps (good_world 2)
             dev_half_staged IOCTL_INSNTRACE_STOP 0 0 in
  let r' := @insntrace_ioctl_worker small_header full_caps (good_world 2)
              dev_half_staged (IOCTL_INSNTRACE_FREE_BUFFER 0) 4 0 in
  (@wedged small_header (res_dev r) /\ res_status r <> ZX_OK /\
   res_dev r = dev_half_staged) /\
  (@wedged small_header (res_dev r') /\ res_status r' <> ZX_OK /\
   res_dev r' = dev_half_staged /\ res_world r' = good_world 2).
Proof.
  intros r r'. split.
  - destruct (@wedged_forever small_header full_caps (good_world 2) dev_half_staged
                IOCTL_INSNTRACE_STOP 0 0 dev_half_staged_wedged) as (H1 & H2 & _).
    split; [exact H1|exact (H2 eq_refl)].
  - assert (Has : assigned (@slot_at small_header dev_half_staged 0) = true)
      by (vm_compute; reflexivity).
    destruct (@wedged_forever small_header full_caps (good_world 2) dev_half_staged
                (IOCTL_INSNTRACE_FREE_BUFFER 0) 4 0 dev_half_staged_wedged)
      as (H1 & _ & H3).
    split; [exact H1|exact (H3 0 eq_refl Has)].
Defined.

Lemma start_success_state_witness :
  let d := res_dev (@ipt_start small_header (good_world 2) dev_two_buffers) in
  active dev_two_buffers = false /\ active d = true /\
  num_traces d = num_traces dev_two_buffers.
Proof.
  intros d.
  assert (E : res_status (@ipt_start small_header (good_world 2) dev_two_buffers)
              = ZX_OK) by (vm_compute; reflexivity).
  destruct (@start_success_state small_header (good_world 2) dev_two_buffers
              dev_two_buffers_wf E) as (H1 & H2 & H3 & _).
  split; [exact H1|]. split; [exact H2|exact H3].
Defined.

Lemma start_failure_wedges_witness :
  res_status (@ipt_start small_header world_second_fails dev_two_buffers) <> ZX_OK /\
  @wedged small_header
    (res_dev (@ipt_start small_header world_second_fails dev_two_buffers)).
Proof.
  apply (@start_failure_wedges small_header world_second_fails dev_two_buffers
           dev_two_buffers_wf).
  - vm_compute; reflexivity.
  - vm_compute; reflexivity.
  - exact dev_two_buffers_ready.
  - vm_compute; reflexivity.
  - exists 1. split; [vm_compute; split; discriminate|vm_compute; reflexivity].
Defined.

Lemma dev_tracing_wf : device_wf dev_tracing.
Proof. vm_compute; split; [discriminate|reflexivity]. Qed.

Lemma dev_tracing_inv : @device_inv small_header dev_tracing.
Proof.
  unfold dev_tracing.
  apply (final_dev_Forall (@device_inv small_header)); [reflexivity|].
  apply (@run_ioctls_inv small_header full_caps (good_world 2) dev_init _
           small_table_entries_ok eq_refl).
  repeat constructor; vm_compute; discriminate.
Qed.

Lemma stop_success_state_witness :
  let d := res_dev (@ipt_stop small_header (good_world 2) dev_tracing) in
  active dev_tracing = true /\ active d = false /\
  num_traces d = num_traces dev_tracing.
Proof.
  intros d.
  assert (Hm : mode dev_tracing = IPT_TRACE_CPUS) by (vm_compute; reflexivity).
  assert (E : res_status (@ipt_stop small_header (good_world 2) dev_tracing) = ZX_OK)
    by (vm_compute; reflexivity).
  destruct (@stop_success_state small_header (good_world 2) dev_tracing
              dev_tracing_wf Hm E) as (H1 & H2 & H3 & _).
  split; [exact H1|]. split; [exact H2|exact H3].
Defined.

Lemma stop_failure_wedges_witness :
  res_status (@ipt_stop small_header world_second_fails dev_tracing) <> ZX_OK /\
  @wedged small_header
    (res_dev (@ipt_stop small_header world_second_fails dev_tracing)).
Proof.
  apply (@stop_failure_wedges small_header world_second_fails dev_tracing).
  - vm_compute; reflexivity.
  - exact dev_tracing_inv.
  - vm_compute; reflexivity.
  - vm_compute; reflexivity.
  - exists 0. split; [vm_compute; split; [discriminate|reflexivity]|
                      vm_compute; reflexivity].
Defined.



(** FREE_BUFFER of the one buffer of a one-cpu device: the table and the
    chunk are released and the two arrays freed. *)
Lemma local_ops_succeed_witness :
  let r := @insntrace_ioctl_worker small_header full_caps (good_world 1)
             dev_one_buffer (IOCTL_INSNTRACE_FREE_BUFFER 0) 4 0 in
  res_status r = ZX_OK /\
  res_world r = with_released
                  (released_slot (@slot_at small_header dev_one_buffer 0))
                  (good_world 1) /\
  released_slot (@slot_at small_header dev_one_buffer 0)
  = [ArrayFreed; BufferReleased 101; ArrayFreed; BufferReleased 100].
Proof.
  intros r.
  assert (Hp : @lifecycle_precondition small_header full_caps dev_one_buffer
                 (IOCTL_INSNTRACE_FREE_BUFFER 0) = true)
    by (vm_compute; reflexivity).
  assert (Hf : @reply_fits small_header (IOCTL_INSNTRACE_FREE_BUFFER 0) 0)
    by (vm_compute; reflexivity).
  destruct (@local_ops_succeed small_header full_caps (good_world 1)
              dev_one_buffer (IOCTL_INSNTRACE_FREE_BUFFER 0) 4 0
              eq_refl Hp eq_refl Hf) as (H1 & H2 & _).
  split; [exact H1|]. split; [exact H2|vm_compute; reflexivity].
Defined.

(** ASSIGN_THREAD_BUFFER with thread handle 5. *)
Lemma thread_buffer_ops_never_succeed_witness :
  let r := @insntrace_ioctl_worker small_header full_caps (good_world 1)
             dev_one_buffer (IOCTL_INSNTRACE_ASSIGN_THREAD_BUFFER 0 5) 8 0 in
  res_status r <> ZX_OK /\ res_dev r = dev_one_buffer /\
  res_status r = ZX_ERR_NOT_SUPPORTED /\
  res_world r = zx_handle_close (good_world 1) 5.
Proof.
  intros r.
  destruct (@thread_buffer_ops_never_succeed small_header full_caps (good_world 1)
              dev_one_buffer (IOCTL_INSNTRACE_ASSIGN_THREAD_BUFFER 0 5) 8 0 eq_refl)
    as (H1 & _ & H3 & H4 & _).
  split; [exact H1|]. split; [exact H3|].
  exact (H4 eq_refl).
Defined.

Lemma reply_only_on_success_witness :
  res_status (@insntrace_ioctl_worker small_header full_caps (good_world 1)
                dev_one_buffer (IOCTL_INSNTRACE_GET_BUFFER_INFO 0) 4 8) = ZX_OK.
Proof.
  assert (E : res_reply (@insntrace_ioctl_worker small_header full_caps (good_world 1)
                           dev_one_buffer (IOCTL_INSNTRACE_GET_BUFFER_INFO 0) 4 8)
              = Some (ReplyBufferInfo 0, 8)) by (vm_compute; reflexivity).
  exact (proj1 (@reply_only_on_success small_header full_caps (good_world 1)
                  dev_one_buffer (IOCTL_INSNTRACE_GET_BUFFER_INFO 0) 4 8 _ _ E)).
Defined.

(** GET_CHUNK_HANDLE, and RELEASE_THREAD_BUFFER with thread handle 5. *)
Lemma queries_keep_device_witness :
  let r := @insntrace_ioctl_worker small_header full_caps (good_world 1)
             dev_one_buffer (IOCTL_INSNTRACE_GET_CHUNK_HANDLE 0 0) 8 4 in
  let r' := @insntrace_ioctl_worker small_header full_caps (good_world 1)
              dev_one_buffer (IOCTL_INSNTRACE_RELEASE_THREAD_BUFFER 0 5) 8 0 in
  res_dev r = dev_one_buffer /\
  res_dev r' = dev_one_buffer /\
  res_world r' = world_when_rejected (good_world 1)
                   (IOCTL_INSNTRACE_RELEASE_THREAD_BUFFER 0 5) (res_status r').
Proof.
  intros r r'. split.
  - exact (proj1 (@queries_keep_device small_header full_caps (good_world 1)
                    dev_one_buffer (IOCTL_INSNTRACE_GET_CHUNK_HANDLE 0 0) 8 4 eq_refl)).
  - exact (@queries_keep_device small_header full_caps (good_world 1)
             dev_one_buffer (IOCTL_INSNTRACE_RELEASE_THREAD_BUFFER 0 5) 8 0 eq_refl).
Defined.

Lemma init_once_signature_witness :
  let c := snd (insntrace_init_once 0x16 pt_cpuid (fun a b => b / a)
                  ipt_config_initial) in
  0 <= ipt_config_stepping c < 16 /\
  0 <= ipt_config_model c < 256 /\
  0 <= ipt_config_family c <= 270 /\
  (ipt_config_family c <> 6 -> ipt_config_family c <> 15 ->
   ipt_config_model c < 16).
Proof.
  assert (H : 0x14 <= 0x16) by (vm_compute; discriminate).
  exact (init_once_signature 0x16 pt_cpuid (fun a b => b / a) ipt_config_initial H).
Defined.

(** The signature 0x506e3 is family 6, model 0x5e, stepping 3, and the
    masks of leaf 0x14 are those of [full_caps]. *)
Lemma init_once_example :
  let r := insntrace_init_once 0x16 pt_cpuid (fun a b => b / a) ipt_config_initial in
  fst r = ZX_OK /\
  ipt_config_family (snd r) = ipt_config_family full_caps /\
  ipt_config_model (snd r) = ipt_config_model full_caps /\
  ipt_config_stepping (snd r) = ipt_config_stepping full_caps /\
  ipt_config_mtc_freq_mask (snd r) = ipt_config_mtc_freq_mask full_caps /\
  ipt_config_cyc_thresh_mask (snd r) = ipt_config_cyc_thresh_mask full_caps /\
  ipt_config_psb_freq_mask (snd r) = ipt_config_psb_freq_mask full_caps /\
  ipt_config_num_addr_ranges (snd r) = ipt_config_num_addr_ranges full_caps.
Proof. vm_compute. repeat split; reflexivity. Qed.




End MoreScenarios.
